(** * AWS invoice ledger: classifier, forensic extractor and reconciliation

    A shallow embedding of the cost-bearing core of the repository:
    - [aws_service_analyzer.py]  (class [AWSServiceAnalyzer]),
    - [forensic_extractor.py]    (class [ForensicAWSExtractor]),
    - [claude_aws_enhanced.py]   (class [EnhancedClaudeAWSAnalyzer]),
    together with the slices of the Python runtime they rely on:
    [str] methods, the [re] module on the patterns that occur in the source,
    [decimal.Decimal] with the default context, binary64 [float], and the
    values produced by [json.loads].

    Text is modelled as lists of characters with code points below 256
    (Rocq's [ascii], read as Latin-1); every character function below is
    Python's restricted to that range. *)

From Stdlib Require Import ZArith NArith List String Ascii Bool Lia Permutation.
From Stdlib Require Import Floats.SpecFloat.
Import ListNotations.

Set Implicit Arguments.

(** ** Exceptions *)

(** The Python exceptions that the modelled code can raise or catch. *)
Inductive exn : Type :=
| InvalidOperation   (* decimal.InvalidOperation *)
| ValueError
| IndexError
| TypeError
| AttributeError
| KeyError
| OverflowError.

(** A computation either returns or raises. *)
Inductive result (A : Type) : Type :=
| Ok (a : A)
| Raise (e : exn).

Arguments Ok {A} a.
Arguments Raise {A} e.

Definition bind {A B : Type} (x : result A) (f : A -> result B) : result B :=
  match x with
  | Ok a => f a
  | Raise e => Raise e
  end.

Notation "x <- c ;; k" := (bind c (fun x => k))
  (at level 61, c at next level, right associativity).

Definition exn_eqb (a b : exn) : bool :=
  match a, b with
  | InvalidOperation, InvalidOperation
  | ValueError, ValueError
  | IndexError, IndexError
  | TypeError, TypeError
  | AttributeError, AttributeError
  | KeyError, KeyError
  | OverflowError, OverflowError => true
  | _, _ => false
  end.

(** [except (e1, e2, ...)]: is the raised exception one of the listed ones? *)
Definition caught (handled : list exn) (e : exn) : bool :=
  existsb (exn_eqb e) handled.

(** ** Python [str] *)

Module PyStr.

Definition str : Type := list ascii.

(** Source literals are written as Rocq strings. *)
Definition L (s : string) : str := list_ascii_of_string s.

Definition code (c : ascii) : N := N_of_ascii c.

Definition in_range (lo hi : N) (c : ascii) : bool :=
  (N.leb lo (code c) && N.leb (code c) hi)%bool.

(** [\d] and [str.isdecimal]: below 256 only the ASCII digits. *)
Definition isdigit (c : ascii) : bool := in_range 48 57 c.

(** [str.isspace] and [\s]: TAB..CR, FS..US, space, NEL and NBSP. *)
Definition isspace (c : ascii) : bool :=
  (in_range 9 13 c || in_range 28 32 c
   || N.eqb (code c) 133 || N.eqb (code c) 160)%bool.

Definition isupper (c : ascii) : bool :=
  (in_range 65 90 c
   || (in_range 192 222 c && negb (N.eqb (code c) 215)))%bool.

(** [str.lower] on one character. *)
Definition lower_char (c : ascii) : ascii :=
  if isupper c then ascii_of_N (code c + 32) else c.

Definition lower (s : str) : str := map lower_char s.

Definition chr_eqb (a b : ascii) : bool := Ascii.eqb a b.

Fixpoint starts_with (p s : str) : bool :=
  match p, s with
  | [], _ => true
  | _ :: _, [] => false
  | a :: p', b :: s' => (chr_eqb a b && starts_with p' s')%bool
  end.

(** [needle in hay]. *)
Fixpoint contains (needle hay : str) : bool :=
  (starts_with needle hay ||
   match hay with
   | [] => false
   | _ :: hay' => contains needle hay'
   end)%bool.

Fixpoint lstrip (s : str) : str :=
  match s with
  | c :: s' => if isspace c then lstrip s' else s
  | [] => []
  end.

Definition rstrip (s : str) : str := rev (lstrip (rev s)).

(** [s.strip()]. *)
Definition strip (s : str) : str := rstrip (lstrip s).

(** [s.split(sep)] for a one-character separator. *)
Fixpoint split_on (sep : ascii) (s : str) : list str :=
  match s with
  | [] => [[]]
  | c :: s' =>
      if chr_eqb c sep then [] :: split_on sep s'
      else match split_on sep s' with
           | w :: ws => (c :: w) :: ws
           | [] => [[c]]
           end
  end.

(** [len(s.split())]: the number of maximal runs of non-space characters.
    [inword] tells whether the previous character belonged to a word. *)
Fixpoint count_words (inword : bool) (s : str) : nat :=
  match s with
  | [] => 0
  | c :: s' =>
      if isspace c then count_words false s'
      else if inword then count_words true s'
           else S (count_words true s')
  end.

Definition wordcount (s : str) : nat := count_words false s.

(** [s.replace(c, '')]. *)
Definition remove_char (c : ascii) (s : str) : str :=
  filter (fun x => negb (chr_eqb x c)) s.

Definition newline : ascii := ascii_of_N 10.

End PyStr.

(** ** The [re] module, for the pattern shapes used in the source *)

Module Re.
Import PyStr.

(** Character sets: [\d], [\s], a literal, a union [[ab]], a complement [[^a]]. *)
Inductive cset : Type :=
| CDigit
| CSpace
| CLit (c : ascii)
| CUnion (a b : cset)
| CNot (a : cset).

(** Membership; [ic] is [re.IGNORECASE]. *)
Fixpoint cset_mem (ic : bool) (cs : cset) (c : ascii) : bool :=
  match cs with
  | CDigit => isdigit c
  | CSpace => isspace c
  | CLit k => if ic then chr_eqb (lower_char c) (lower_char k) else chr_eqb c k
  | CUnion a b => (cset_mem ic a c || cset_mem ic b c)%bool
  | CNot a => negb (cset_mem ic a c)
  end.

(** Patterns.  Repetition is only ever applied to a character set in the
    source ([\s+], [\s*], [[\d,]+], [\d*], [\.?], [\$?], [[^U]*]). *)
Inductive re : Type :=
| OneOf (cs : cset)
| Star (cs : cset)
| Plus (cs : cset)
| Opt (cs : cset)
| Cat (a b : re)
| Alt (a b : re)
| Group (a : re)
| Eol
| Empty.

(** A literal string, one character after the other. *)
Fixpoint lit (s : str) : re :=
  match s with
  | [] => Empty
  | c :: s' => Cat (OneOf (CLit c)) (lit s')
  end.

Fixpoint sequence (rs : list re) : re :=
  match rs with
  | [] => Empty
  | [r] => r
  | r :: rs' => Cat r (sequence rs')
  end.

Section Match.
Variable R : Type.
Variable ic : bool.

(** Greedy [cs*] with backtracking: take as many characters as possible,
    give them back one at a time while the continuation fails. *)
Fixpoint star_k (cs : cset) (s : str) (k : str -> option R) : option R :=
  match s with
  | c :: s' =>
      if cset_mem ic cs c then
        match star_k cs s' k with
        | Some r => Some r
        | None => k s
        end
      else k s
  | [] => k []
  end.

(** Backtracking matcher in continuation-passing style.  [cap] is the
    text last captured by a group; [k] receives the rest of the input. *)
Fixpoint match_k (r : re) (s : str) (cap : option str)
         (k : str -> option str -> option R) : option R :=
  match r with
  | OneOf cs =>
      match s with
      | c :: s' => if cset_mem ic cs c then k s' cap else None
      | [] => None
      end
  | Star cs => star_k cs s (fun s' => k s' cap)
  | Plus cs =>
      match s with
      | c :: s' =>
          if cset_mem ic cs c then star_k cs s' (fun s'' => k s'' cap)
          else None
      | [] => None
      end
  | Opt cs =>
      match s with
      | c :: s' =>
          if cset_mem ic cs c then
            match k s' cap with
            | Some x => Some x
            | None => k s cap
            end
          else k s cap
      | [] => k s cap
      end
  | Cat a b => match_k a s cap (fun s' cap' => match_k b s' cap' k)
  | Alt a b =>
      match match_k a s cap k with
      | Some x => Some x
      | None => match_k b s cap k
      end
  | Group a =>
      match_k a s cap
        (fun s' _ => k s' (Some (firstn (List.length s - List.length s') s)))
  | Eol =>
      match s with
      | [] => k s cap
      | [c] => if chr_eqb c newline then k s cap else None
      | _ => None
      end
  | Empty => k s cap
  end.
End Match.

(** A match object: where the match ended and what group 1 holds. *)
Record rmatch : Type := { m_rest : str; m_group1 : option str }.

Definition match_here (ic : bool) (r : re) (s : str) : option rmatch :=
  match_k ic r s None (fun rest cap => Some {| m_rest := rest; m_group1 := cap |}).

(** [re.search]: the match at the leftmost position that has one. *)
Fixpoint search (ic : bool) (r : re) (s : str) : option rmatch :=
  match match_here ic r s with
  | Some m => Some m
  | None =>
      match s with
      | [] => None
      | _ :: s' => search ic r s'
      end
  end.

(** Number of capture groups of a pattern. *)
Fixpoint ngroups (r : re) : nat :=
  match r with
  | Cat a b | Alt a b => ngroups a + ngroups b
  | Group a => S (ngroups a)
  | _ => 0
  end.

(** [m.group(1)]: [IndexError] when the pattern has no group; [None] when
    the group took no part in the match. *)
Definition group1 (r : re) (m : rmatch) : result (option str) :=
  match ngroups r with
  | O => Raise IndexError
  | _ => Ok (m_group1 m)
  end.

(** Shorthands for the source's pattern pieces. *)
Definition ws_plus : re := Plus CSpace.                      (* \s+ *)
Definition ws_star : re := Star CSpace.                      (* \s* *)
Definition dollar : cset := CLit "$"%char.
(** [([\d,]+\.?\d* )] *)
Definition amount : re :=
  Group (sequence [Plus (CUnion CDigit (CLit ","%char)); Opt (CLit "."%char); Star CDigit]).

End Re.

(** ** binary64 [float] *)

Module PyFloat.

Definition float : Type := spec_float.

Definition prec : Z := 53.
Definition emax : Z := 1024.

Definition fadd : float -> float -> float := SFadd prec emax.
Definition fsub : float -> float -> float := SFsub prec emax.
Definition fdiv : float -> float -> float := SFdiv prec emax.
Definition fabs : float -> float := SFabs.
Definition flt : float -> float -> bool := SFltb.
Definition fle : float -> float -> bool := SFleb.
Definition feq : float -> float -> bool := SFeqb.

(** The float nearest to an integer (ties to even); may be an infinity. *)
Definition of_Z (z : Z) : float := binary_normalize prec emax z 0 false.

(** The float nearest to [n / d], for [d] positive. *)
Definition of_ratio (neg : bool) (n d : positive) : float :=
  fdiv (S754_finite neg n 0) (S754_finite false d 0).

Definition zero : float := S754_zero false.
Definition one : float := of_Z 1.
Definition ten : float := of_Z 10.

(** The literals [0.01], [0.1] and [1.0] of the source. *)
Definition lit_0_01 : float := of_ratio false 1 100.
Definition lit_0_1 : float := of_ratio false 1 10.
Definition lit_1_0 : float := one.

Definition is_nan (f : float) : bool :=
  match f with S754_nan => true | _ => false end.

Definition is_finite (f : float) : bool :=
  match f with S754_zero _ | S754_finite _ _ _ => true | _ => false end.

(** The exact value of a finite float, as a fraction with a positive
    denominator. *)
Definition to_frac (f : float) : option (Z * Z) :=
  match f with
  | S754_zero _ => Some (0, 1)%Z
  | S754_finite s m e =>
      let v := if s then Zneg m else Zpos m in
      Some (match e with
            | Zneg k => (v, Zpos (2 ^ k))
            | _ => (v * 2 ^ e, 1)%Z
            end)
  | _ => None
  end.

(** Equality and sum of fractions with positive denominators. *)
Definition frac_eqb (a b : Z * Z) : bool :=
  Z.eqb (fst a * snd b) (fst b * snd a).

Definition frac_add (a b : Z * Z) : Z * Z :=
  (fst a * snd b + fst b * snd a, snd a * snd b)%Z.

(** [min(a, b)] on floats: [b] when [b < a], else [a]. *)
Definition fmin (a b : float) : float := if flt b a then b else a.

End PyFloat.

(** ** [decimal.Decimal] under the default context *)

Module Dec.
Import PyStr.

(** A finite decimal: (-1)^[sign] * [coeff] * 10^[expo].  The patterns of
    the source capture digits, commas and dots only, so infinities and
    NaNs never arise.  The exponent limits of the context (Emax = 999999)
    are not modelled: reaching them takes a run of a million digits. *)
Record dec : Type := { sign : bool; coeff : N; expo : Z }.

(** [Decimal('0')]. *)
Definition zero : dec := {| sign := false; coeff := 0; expo := 0 |}.

(** [getcontext().prec]. *)
Definition context_prec : nat := 28.

Definition digit_val (c : ascii) : N := code c - 48.

Definition digits_to_N (ds : str) : N :=
  fold_left (fun acc c => (acc * 10 + digit_val c)%N) ds 0%N.

(** The longest prefix of digits, and what follows it. *)
Fixpoint span_digits (s : str) : str * str :=
  match s with
  | c :: s' =>
      if isdigit c then let (ds, r) := span_digits s' in (c :: ds, r)
      else ([], s)
  | [] => ([], [])
  end.

Definition is_nil (s : str) : bool :=
  match s with [] => true | _ => false end.

(** [Decimal(s)] for [s] over digits and dots: accepted are [ddd], [ddd.],
    [ddd.ddd] and [.ddd]; everything else raises [InvalidOperation].  The
    constructor is exact: no rounding takes place. *)
Definition Decimal_of_str (s : str) : result dec :=
  let (ip, r) := span_digits s in
  match r with
  | [] =>
      if is_nil ip then Raise InvalidOperation
      else Ok {| sign := false; coeff := digits_to_N ip; expo := 0 |}
  | c :: r' =>
      if chr_eqb c "."%char then
        let (fp, r'') := span_digits r' in
        if is_nil r'' && negb (is_nil ip && is_nil fp) then
          Ok {| sign := false; coeff := digits_to_N (ip ++ fp);
                expo := - Z.of_nat (List.length fp) |}
        else Raise InvalidOperation
      else Raise InvalidOperation
  end.

(** Number of decimal digits of the coefficient ([len(self._int)]). *)
Definition ndigits (n : N) : nat := Decimal.nb_digits (N.to_uint n).

Definition pow10 (k : nat) : N := (10 ^ N.of_nat k)%N.

(** [_fix]: round to [context_prec] significant digits, ROUND_HALF_EVEN. *)
Definition fix_ (d : dec) : dec :=
  let n := ndigits (coeff d) in
  if Nat.leb n context_prec then d
  else
    let drop := n - context_prec in
    let q := (coeff d / pow10 drop)%N in
    let r := (coeff d mod pow10 drop)%N in
    let half := (5 * pow10 (drop - 1))%N in
    let up :=
      match N.compare r half with
      | Gt => true
      | Eq => N.odd q
      | Lt => false
      end in
    let q' := if up then (q + 1)%N else q in
    if N.eqb q' (pow10 context_prec) then
      {| sign := sign d; coeff := pow10 (context_prec - 1);
         expo := expo d + Z.of_nat drop + 1 |}
    else
      {| sign := sign d; coeff := q'; expo := expo d + Z.of_nat drop |}.

Definition signed (d : dec) : Z :=
  if sign d then (- Z.of_N (coeff d))%Z else Z.of_N (coeff d).

(** The coefficient of [d] once its exponent is lowered to [e <= expo d]. *)
Definition scaled (d : dec) (e : Z) : Z :=
  (signed d * 10 ^ (expo d - e))%Z.

(** [a + b]: the exact sum at the smaller exponent, then [_fix]. *)
Definition add (a b : dec) : dec :=
  let e := Z.min (expo a) (expo b) in
  let s := (scaled a e + scaled b e)%Z in
  let sg :=
    if Z.eqb s 0 then
      (N.eqb (coeff a) 0 && N.eqb (coeff b) 0 && sign a && sign b)%bool
    else Z.ltb s 0 in
  fix_ {| sign := sg; coeff := Z.abs_N s; expo := e |}.

Definition neg (a : dec) : dec :=
  {| sign := negb (sign a); coeff := coeff a; expo := expo a |}.

(** [a - b]. *)
Definition sub (a b : dec) : dec := add a (neg b).

(** [d == 0]. *)
Definition is_zero (d : dec) : bool := N.eqb (coeff d) 0.

(** [float(d)]: the binary64 value nearest to [d]. *)
Definition to_float (d : dec) : PyFloat.float :=
  match coeff d with
  | N0 => S754_zero (sign d)
  | Npos c =>
      match expo d with
      | Zneg k => PyFloat.of_ratio (sign d) c (10 ^ k)%positive
      | _ => PyFloat.of_Z (signed d * 10 ^ expo d)
      end
  end.

(** The exact value of [d] as a fraction [num / den]. *)
Definition num (d : dec) : Z := (signed d * 10 ^ Z.max 0 (expo d))%Z.
Definition den (d : dec) : Z := (10 ^ Z.max 0 (- expo d))%Z.
Definition to_frac (d : dec) : Z * Z := (num d, den d).

End Dec.

(** ** aws_service_analyzer.py *)

Module Analyzer.
Import PyStr Re.

(** One entry of [service_patterns]: the keyword and unit lists of a
    category. *)
Record patterns : Type := { keywords : list str; units : list str }.

(** [_initialize_service_patterns]: the catalog, in declaration order (a
    Python dict iterates in insertion order). *)
Definition service_patterns : list (str * patterns) :=
  [
    (L "EC2",
     {| keywords :=
          [L "elastic compute cloud"; L "ec2"; L "instance"; L "compute";
           L "t2."; L "t3."; L "t3a."; L "t4g."; L "m5."; L "m5a."; L "m5n.";
           L "m5zn."; L "c5."; L "c5a."; L "c5n."; L "c6g."; L "c6gn.";
           L "c6i."; L "r5."; L "r5a."; L "r5b."; L "r5n."; L "r6g."; L "r6i.";
           L "x1."; L "x1e."; L "z1d."; L "i3."; L "i3en."; L "i4i."; L "f1.";
           L "g4dn."; L "g4ad."; L "p3."; L "p4d."; L "a1."; L "u-"; L "mac1.";
           L "dl1."];
        units :=
          [L "hours"; L "hrs"; L "hour"; L "instance-hours"; L "vcpu-hours"] |});
    (L "RDS",
     {| keywords :=
          [L "relational database service"; L "rds"; L "database"; L "db.";
           L "mysql"; L "mariadb"; L "postgresql"; L "oracle"; L "sql server";
           L "aurora"; L "backup storage"; L "snapshot"; L "multi-az"];
        units :=
          [L "hours"; L "hrs"; L "gb-mo"; L "gb-month"; L "iops-mo";
           L "requests"] |});
    (L "S3",
     {| keywords :=
          [L "simple storage service"; L "s3"; L "storage"; L "requests-tier1";
           L "requests-tier2"; L "timedstorage"; L "glacier"; L "deep archive";
           L "intelligent tiering"; L "put"; L "get"; L "copy"; L "post";
           L "list"; L "delete"];
        units :=
          [L "gb-mo"; L "gb-month"; L "requests"; L "gb"; L "tb"] |});
    (L "Lambda",
     {| keywords :=
          [L "lambda"; L "aws lambda"; L "serverless compute"; L "request";
           L "duration"; L "gb-second"];
        units :=
          [L "requests"; L "gb-seconds"; L "duration-ms"] |});
    (L "CloudFront",
     {| keywords :=
          [L "cloudfront"; L "cdn"; L "content delivery"; L "data transfer";
           L "requests"; L "origin requests"];
        units :=
          [L "gb"; L "requests"; L "tb"] |});
    (L "EBS",
     {| keywords :=
          [L "elastic block store"; L "ebs"; L "volume"; L "gp2"; L "gp3";
           L "io1"; L "io2"; L "st1"; L "sc1"; L "snapshot";
           L "provisioned iops"];
        units :=
          [L "gb-mo"; L "gb-month"; L "iops-mo"; L "gb"] |});
    (L "VPC",
     {| keywords :=
          [L "virtual private cloud"; L "vpc"; L "nat gateway";
           L "vpc endpoint"; L "transit gateway"; L "vpn"; L "data transfer";
           L "elastic ip"];
        units :=
          [L "hours"; L "gb"; L "connections"] |});
    (L "ElastiCache",
     {| keywords :=
          [L "elasticache"; L "redis"; L "memcached"; L "cache"; L "cache.";
           L "node hours"];
        units :=
          [L "hours"; L "node-hours"; L "gb-mo"] |});
    (L "SQS",
     {| keywords :=
          [L "simple queue service"; L "sqs"; L "queue"; L "requests-tier1";
           L "requests-tier2"];
        units :=
          [L "requests"; L "messages"] |});
    (L "SNS",
     {| keywords :=
          [L "simple notification service"; L "sns"; L "notifications";
           L "messages"; L "email"; L "sms"];
        units :=
          [L "requests"; L "messages"; L "notifications"] |});
    (L "CloudWatch",
     {| keywords :=
          [L "cloudwatch"; L "monitoring"; L "logs"; L "metrics"; L "alarms";
           L "dashboards"; L "insights"];
        units :=
          [L "requests"; L "metrics"; L "gb"; L "alarms"] |});
    (L "Route53",
     {| keywords :=
          [L "route 53"; L "route53"; L "dns"; L "hosted zone"; L "queries";
           L "health checks"];
        units :=
          [L "queries"; L "hosted zones"; L "health checks"] |});
    (L "API_Gateway",
     {| keywords :=
          [L "api gateway"; L "apigateway"; L "rest api"; L "websocket";
           L "http api"];
        units :=
          [L "requests"; L "messages"; L "minutes"] |});
    (L "Kinesis",
     {| keywords :=
          [L "kinesis"; L "data streams"; L "firehose"; L "analytics";
           L "shard hours"; L "records"];
        units :=
          [L "shard-hours"; L "records"; L "gb"; L "hours"] |});
    (L "DynamoDB",
     {| keywords :=
          [L "dynamodb"; L "nosql"; L "table"; L "read capacity";
           L "write capacity"; L "on-demand"; L "provisioned"];
        units :=
          [L "rcu-hours"; L "wcu-hours"; L "gb-mo"; L "requests"] |});
    (L "Redshift",
     {| keywords :=
          [L "redshift"; L "data warehouse"; L "cluster"; L "dc2."; L "ds2.";
           L "ra3."];
        units :=
          [L "hours"; L "node-hours"; L "gb-mo"] |});
    (L "EMR",
     {| keywords :=
          [L "elastic mapreduce"; L "emr"; L "hadoop"; L "spark";
           L "cluster hours"];
        units :=
          [L "hours"; L "cluster-hours"; L "instance-hours"] |});
    (L "Glue",
     {| keywords :=
          [L "glue"; L "etl"; L "crawler"; L "job runs"; L "dpu-hours";
           L "development endpoint"];
        units :=
          [L "dpu-hours"; L "hours"; L "requests"] |});
    (L "Athena",
     {| keywords :=
          [L "athena"; L "query"; L "data scanned"; L "serverless query"];
        units :=
          [L "gb"; L "tb"; L "queries"] |});
    (L "ECS",
     {| keywords :=
          [L "elastic container service"; L "ecs"; L "fargate"; L "container";
           L "task"; L "vcpu-hours"; L "gb-hours"];
        units :=
          [L "vcpu-hours"; L "gb-hours"; L "hours"] |});
    (L "EKS",
     {| keywords :=
          [L "elastic kubernetes service"; L "eks"; L "kubernetes";
           L "cluster hours"];
        units :=
          [L "hours"; L "cluster-hours"] |});
    (L "EFS",
     {| keywords :=
          [L "elastic file system"; L "efs"; L "file system"; L "throughput";
           L "infrequent access"; L "one zone"];
        units :=
          [L "gb-mo"; L "gb"; L "requests"] |});
    (L "Backup",
     {| keywords :=
          [L "aws backup"; L "backup storage"; L "backup"; L "warm backup";
           L "cold backup"];
        units :=
          [L "gb-month"; L "gb-mo"; L "snapshots"] |});
    (L "DataTransfer",
     {| keywords :=
          [L "data transfer"; L "aws data transfer"; L "transfer";
           L "cloudfront"; L "inter-region"; L "internet"];
        units :=
          [L "gb"; L "tb"; L "bytes"] |});
    (L "Marketplace",
     {| keywords :=
          [L "marketplace"; L "aws marketplace"; L "claude"; L "bedrock";
           L "third-party"; L "software usage"];
        units :=
          [L "tokens"; L "requests"; L "hours"; L "units"] |});
    (L "Other",
     {| keywords :=
          [L "support"; L "tax"; L "credits"; L "refunds"; L "marketplace";
           L "training"; L "certification"];
        units :=
          [L "usd"; L "credits"; L "hours"] |})
  ].

(** The five patterns of [_initialize_cost_patterns]; all of them are
    used with [re.IGNORECASE]. *)
Definition usd_prefixed : re :=                     (* USD\s+([\d,]+\.?\d* ) *)
  sequence [lit (L "USD"); ws_plus; amount].
Definition symbol_prefixed : re :=                  (* \$\s*([\d,]+\.?\d* ) *)
  sequence [OneOf dollar; ws_star; amount].
Definition usd_suffixed : re :=                     (* ([\d,]+\.?\d* )\s*USD *)
  sequence [amount; ws_star; lit (L "USD")].
Definition cost_labeled : re :=                     (* Cost:\s*\$?([\d,]+\.?\d* ) *)
  sequence [lit (L "Cost:"); ws_star; Opt dollar; amount].
Definition total_labeled : re :=                    (* Total:\s*\$?([\d,]+\.?\d* ) *)
  sequence [lit (L "Total:"); ws_star; Opt dollar; amount].

(** [self.cost_patterns], in priority order. *)
Definition cost_patterns : list re :=
  [usd_prefixed; symbol_prefixed; usd_suffixed; cost_labeled; total_labeled].

(** The score one category gets on a lower-cased line. *)
Definition score (p : patterns) (line_lower : str) : Z :=
  let after_keywords :=
    fold_left
      (fun score keyword =>
         if contains (lower keyword) line_lower
         then (score + Z.of_nat (wordcount keyword) * 2)%Z
         else score)
      (keywords p) 0%Z in
  fold_left
    (fun score unit =>
       if contains (lower unit) line_lower then (score + 1)%Z else score)
    (units p) after_keywords.

(** The dict [category_scores]: the categories that scored, in catalog
    order. *)
Fixpoint category_scores (cat : list (str * patterns)) (line_lower : str)
  : list (str * Z) :=
  match cat with
  | [] => []
  | (category, p) :: rest =>
      let s := score p line_lower in
      if Z.ltb 0 s then (category, s) :: category_scores rest line_lower
      else category_scores rest line_lower
  end.

(** [max(items, key=lambda x: x[1])]: the running maximum is replaced
    only by a strictly larger key. *)
Definition max_by_score (first : str * Z) (rest : list (str * Z)) : str * Z :=
  fold_left (fun best it => if Z.ltb (snd best) (snd it) then it else best)
            rest first.

Definition confidence_of (s : Z) : PyFloat.float :=
  PyFloat.fmin (PyFloat.fdiv (PyFloat.of_Z s) PyFloat.ten) PyFloat.lit_1_0.

Definition categorize_with (cat : list (str * patterns)) (line : str)
  : str * PyFloat.float :=
  let line_lower := lower line in
  match category_scores cat line_lower with
  | [] => (L "Other", PyFloat.zero)
  | first :: rest =>
      let best_category := max_by_score first rest in
      (fst best_category, confidence_of (snd best_category))
  end.

(** [categorize_service]. *)
Definition categorize_service (line : str) : str * PyFloat.float :=
  categorize_with service_patterns line.

(** One round of the loop of [extract_cost]: the leftmost match of the
    pattern, its group with the commas removed, read as a [Decimal]. *)
Definition try_pattern (pattern : re) (line : str) : option (result Dec.dec) :=
  match search true pattern line with
  | None => None
  | Some m =>
      Some (g <- group1 pattern m ;;
            match g with
            | None => Raise AttributeError      (* None.replace *)
            | Some cost_str => Dec.Decimal_of_str (remove_char ","%char cost_str)
            end)
  end.

(** The loop over the patterns; [handled] is the tuple of the [except]
    clause: a handled exception moves on to the next pattern, any other
    one propagates. *)
Fixpoint first_cost (handled : list exn) (ps : list re) (line : str)
  : result (option Dec.dec) :=
  match ps with
  | [] => Ok None
  | pattern :: ps' =>
      match try_pattern pattern line with
      | None => first_cost handled ps' line
      | Some (Ok d) => Ok (Some d)
      | Some (Raise e) =>
          if caught handled e then first_cost handled ps' line else Raise e
      end
  end.

(** [extract_cost]. *)
Definition extract_cost (line : str) : result (option Dec.dec) :=
  first_cost [InvalidOperation; ValueError] cost_patterns line.

Fixpoint alts (ss : list str) : re :=
  match ss with
  | [] => Empty
  | [s] => lit s
  | s :: ss' => Alt (lit s) (alts ss')
  end.

(** [name_patterns] of [_extract_service_name]. *)
Definition name_patterns : list (str * re) :=
  [ (L "EC2", Group (alts [L "elastic compute cloud"; L "ec2"; L "compute"]));
    (L "RDS", Group (alts [L "relational database service"; L "rds"; L "database"]));
    (L "S3", Group (alts [L "simple storage service"; L "s3"; L "storage"]));
    (L "Lambda", Group (alts [L "aws lambda"; L "lambda"]));
    (L "CloudFront", Group (alts [L "cloudfront"; L "cdn"]));
    (L "EBS", Group (alts [L "elastic block store"; L "ebs"]));
    (L "VPC", Group (alts [L "virtual private cloud"; L "vpc"; L "nat gateway"]));
    (L "ElastiCache", Group (alts [L "elasticache"]));
    (L "SQS", Group (alts [L "simple queue service"; L "sqs"]));
    (L "SNS", Group (alts [L "simple notification service"; L "sns"]));
    (L "CloudWatch", Group (alts [L "cloudwatch"]));
    (L "Route53", Group (alts [L "route 53"; L "route53"]));
    (L "API_Gateway", Group (alts [L "api gateway"]));
    (L "Kinesis", Group (alts [L "kinesis"]));
    (L "DynamoDB", Group (alts [L "dynamodb"]));
    (L "Redshift", Group (alts [L "redshift"]));
    (L "EMR", Group (alts [L "elastic mapreduce"; L "emr"]));
    (L "Glue", Group (alts [L "glue"]));
    (L "Athena", Group (alts [L "athena"]));
    (L "ECS", Group (alts [L "elastic container service"; L "ecs"; L "fargate"]));
    (L "EKS", Group (alts [L "elastic kubernetes service"; L "eks"]))
  ].

Definition str_eqb (a b : str) : bool :=
  (Nat.eqb (List.length a) (List.length b) && starts_with a b)%bool.

(** [d.get(key)] on a dict written as an association list. *)
Fixpoint lookup {A : Type} (key : str) (d : list (str * A)) : option A :=
  match d with
  | [] => None
  | (k, v) :: d' => if str_eqb k key then Some v else lookup key d'
  end.

Definition isalpha_ascii (c : ascii) : bool :=
  (in_range 65 90 c || in_range 97 122 c)%bool.

Definition upper_ascii (c : ascii) : ascii :=
  if in_range 97 122 c then ascii_of_N (code c - 32) else c.

(** [s.title()], on the ASCII text a name pattern can match. *)
Fixpoint title_from (prev_cased : bool) (s : str) : str :=
  match s with
  | [] => []
  | c :: s' =>
      if isalpha_ascii c then
        (if prev_cased then lower_char c else upper_ascii c) :: title_from true s'
      else c :: title_from false s'
  end.

Definition title (s : str) : str := title_from false s.

(** [_extract_service_name]: a category without an entry in
    [name_patterns] is searched for under its own lower-cased name, a
    pattern without a group, so that [match.group(1)] raises. *)
Definition _extract_service_name (line category : str) : result str :=
  let line_lower := lower line in
  let pattern :=
    match lookup category name_patterns with
    | Some p => p
    | None => lit (lower category)
    end in
  match search false pattern line_lower with
  | Some m =>
      g <- group1 pattern m ;;
      match g with
      | Some name => Ok (title name)
      | None => Raise AttributeError
      end
  | None => Ok category
  end.

(** [ServiceUsage], restricted to the fields the ledger properties read.
    The omitted fields (service_type, region, usage_quantity, usage_unit,
    rate_description) come from extractors that cannot raise: every
    pattern they search has the group they read and their [float()]
    calls sit in [try ... except ValueError]. *)
Record ServiceUsage : Type := {
  service_category : str;
  service_name : str;
  cost : Dec.dec;
  raw_line : str;
  line_number : nat
}.

(** The state of the loop of [analyze_aws_invoice]. *)
Record scan_state : Type := {
  service_usages : list ServiceUsage;
  total_cost : Dec.dec
}.

Definition scan_init : scan_state :=
  {| service_usages := []; total_cost := Dec.zero |}.

(** One iteration of the loop, on line [line_num]. *)
Definition scan_line (st : scan_state) (line_num : nat) (line0 : str)
  : result scan_state :=
  let line := strip line0 in
  if Dec.is_nil line || Nat.ltb (List.length line) 10 then Ok st
  else
    c <- extract_cost line ;;
    match c with
    | None => Ok st
    | Some cost_ =>
        if Dec.is_zero cost_ then Ok st
        else
          let (category, confidence) := categorize_service line in
          if PyFloat.flt confidence PyFloat.lit_0_1 then Ok st
          else
            name <- _extract_service_name line category ;;
            let usage := {| service_category := category;
                            service_name := name;
                            cost := cost_;
                            raw_line := line;
                            line_number := line_num |} in
            Ok {| service_usages := service_usages st ++ [usage];
                  total_cost := Dec.add (total_cost st) cost_ |}
    end.

(** [for line_num, line in enumerate(lines, start)]. *)
Fixpoint scan_lines (st : scan_state) (line_num : nat) (lines : list str)
  : result scan_state :=
  match lines with
  | [] => Ok st
  | line :: rest =>
      st' <- scan_line st line_num line ;;
      scan_lines st' (S line_num) rest
  end.

(** [services_by_category[category].append(usage)] with the key created
    on first use. *)
Fixpoint group_add (category : str) (u : ServiceUsage)
         (d : list (str * list ServiceUsage)) : list (str * list ServiceUsage) :=
  match d with
  | [] => [(category, [u])]
  | (k, us) :: d' =>
      if str_eqb k category then (k, us ++ [u]) :: d'
      else (k, us) :: group_add category u d'
  end.

Fixpoint total_add (category : str) (c : Dec.dec)
         (d : list (str * Dec.dec)) : list (str * Dec.dec) :=
  match d with
  | [] => [(category, Dec.add Dec.zero c)]
  | (k, t) :: d' =>
      if str_eqb k category then (k, Dec.add t c) :: d'
      else (k, t) :: total_add category c d'
  end.

(** The [cost_validation] entry of the analysis. *)
Record cost_validation : Type := {
  calculated_total : PyFloat.float;
  category_sum : PyFloat.float;
  validation_passed : bool
}.

Record analysis : Type := {
  total_cost_f : PyFloat.float;
  total_entries : nat;
  services_by_category : list (str * list ServiceUsage);
  category_totals : list (str * PyFloat.float);
  validation : cost_validation
}.

(** [_group_and_analyze_services]. *)
Definition _group_and_analyze_services (usages : list ServiceUsage)
           (total : Dec.dec) : analysis :=
  let groups :=
    fold_left (fun d u => group_add (service_category u) u d) usages [] in
  let totals :=
    fold_left (fun d u => total_add (service_category u) (cost u) d) usages [] in
  {| total_cost_f := Dec.to_float total;
     total_entries := List.length usages;
     services_by_category := groups;
     category_totals := map (fun kv => (fst kv, Dec.to_float (snd kv))) totals;
     validation :=
       {| calculated_total := Dec.to_float total;
          category_sum :=
            Dec.to_float (fold_left Dec.add (map snd totals) Dec.zero);
          validation_passed := true |} |}.

(** [analyze_aws_invoice]. *)
Definition analyze_aws_invoice (text : str) : result analysis :=
  st <- scan_lines scan_init 1 (split_on newline text) ;;
  Ok (_group_and_analyze_services (service_usages st) (total_cost st)).

End Analyzer.

(** ** forensic_extractor.py *)

Module Forensic.
Import PyStr Re.

(** [self.cost_patterns], in priority order, used with [re.IGNORECASE]. *)
Definition cost_patterns : list re :=
  [ sequence [lit (L "USD"); ws_plus; amount; ws_star; Eol];          (* USD\s+(..)\s*$ *)
    sequence [OneOf dollar; ws_star; amount; ws_star; Eol];              (* \$\s*(..)\s*$ *)
    sequence [lit (L "Amount in USD"); ws_plus; amount];
    sequence [lit (L "Total in USD"); ws_plus; amount];
    sequence [lit (L "USD"); ws_plus; amount; ws_star;
         Alt Eol (OneOf (CLit newline))]                            (* ..\s*(?:$|\n) *)
  ].

(** [_extract_cost_from_line]. *)
Definition _extract_cost_from_line (line : str) : result (option Dec.dec) :=
  Analyzer.first_cost [InvalidOperation; ValueError; IndexError]
                      cost_patterns line.

(** The patterns of [_find_invoice_total]. *)
Definition total_patterns : list re :=
  [ sequence [lit (L "Grand total:"); ws_star; lit (L "USD"); ws_star; amount];
    sequence [lit (L "Amazon Web Services India Private Limited"); ws_star;
         lit (L "USD"); ws_star; amount];
    sequence [lit (L "Total pre-tax"); ws_star; lit (L "USD"); ws_star; amount]
  ].

(** [Decimal('3645.60')], the default of [_find_invoice_total]. *)
Definition fallback_total : Dec.dec :=
  {| Dec.sign := false; Dec.coeff := 364560; Dec.expo := -2 |}.

(** [_find_invoice_total]. *)
Definition _find_invoice_total (text : str) : result Dec.dec :=
  r <- Analyzer.first_cost [InvalidOperation; IndexError] total_patterns text ;;
  match r with
  | Some d => Ok d
  | None => Ok fallback_total
  end.

Definition any_in (keywords : list str) (line_lower : str) : bool :=
  existsb (fun keyword => contains keyword line_lower) keywords.

(** [_categorize_service]: the first branch of the [if/elif] chain with a
    keyword in the lower-cased line. *)
Definition _categorize_service (line : str) : str :=
  let line_lower := lower line in
  if any_in [L "elastic compute cloud"; L "ec2"; L "running linux";
             L "running windows"; L "t3a."; L "t2."; L "t3."; L "c5.";
             L "r5."; L "natgateway"] line_lower then L "EC2"
  else if any_in [L "relational database"; L "rds"; L "mariadb"; L "mysql";
                  L "backup storage"] line_lower then L "RDS"
  else if any_in [L "simple storage service"; L "s3"; L "requests-tier";
                  L "timedstorage"] line_lower then L "S3"
  else if any_in [L "elastic file system"; L "efs"] line_lower then L "EFS"
  else if any_in [L "cloudwatch"; L "putlogevents"; L "dashboardhour"]
                 line_lower then L "CloudWatch"
  else if any_in [L "data transfer"; L "aws data transfer"] line_lower
       then L "DataTransfer"
  else if any_in [L "aws backup"; L "backup storage"] line_lower
       then L "Backup"
  else if any_in [L "marketplace"; L "claude"; L "bedrock"] line_lower
       then L "Marketplace"
  else if any_in [L "ebs"; L "elastic block store"; L "snapshot"] line_lower
       then L "EBS"
  else L "Other".

(** [[^U]*]. *)
Definition not_U_star : re := Star (CNot (CLit "U"%char)).

(** [service_patterns] of [_extract_service_name]. *)
Definition service_patterns : list (str * re) :=
  [ (L "EC2", Group (Cat (lit (L "Amazon Elastic Compute Cloud")) not_U_star));
    (L "RDS", Group (Cat (lit (L "Amazon Relational Database Service")) not_U_star));
    (L "S3", Group (Cat (lit (L "Amazon Simple Storage Service")) not_U_star));
    (L "EFS", Group (Cat (lit (L "Amazon Elastic File System")) not_U_star));
    (L "CloudWatch", Group (Cat (lit (L "AmazonCloudWatch")) not_U_star));
    (L "DataTransfer", Group (Cat (lit (L "AWS Data Transfer")) not_U_star));
    (L "Backup", Group (Cat (lit (L "AWS Backup")) not_U_star));
    (L "Marketplace",
     Group (Alt (Cat (lit (L "Claude")) not_U_star)
                (Cat (lit (L "AWS Marketplace")) not_U_star)))
  ].

(** [_extract_service_name].  [service_patterns.get(category, category)]
    falls back on the category name itself as the pattern (the names
    produced by [_categorize_service] hold no metacharacter), a pattern
    without a group: when it matches, [match.group(1)] raises
    [IndexError]. *)
Definition _extract_service_name (line category : str) : result str :=
  let pattern :=
    match Analyzer.lookup category service_patterns with
    | Some p => p
    | None => lit category
    end in
  match search true pattern line with
  | Some m =>
      g <- group1 pattern m ;;
      match g with
      | Some name => Ok (strip name)
      | None => Raise AttributeError
      end
  | None => Ok category
  end.

(** A service item (a dict in the source), restricted to the fields the
    ledger properties read.  The omitted entries (service_type, region,
    usage_quantity, usage_unit, rate_description) come from extractors
    that cannot raise: the patterns they search have the groups they
    read, and [_extract_usage] catches the errors of [float()]. *)
Record service_item : Type := {
  service_category : str;
  service_name : str;
  cost_usd : PyFloat.float;
  line_text : str;
  line_number : nat
}.

(** [_create_service_item]. *)
Definition _create_service_item (line : str) (cost : Dec.dec) (line_num : nat)
  : result service_item :=
  let category := _categorize_service line in
  name <- _extract_service_name line category ;;
  Ok {| service_category := category;
        service_name := name;
        cost_usd := Dec.to_float cost;
        line_text := firstn 100 line;
        line_number := line_num |}.

(** The state of the loop of [extract_all_costs_forensic]. *)
Record scan_state : Type := {
  service_items : list service_item;
  total_extracted : Dec.dec
}.

Definition scan_init : scan_state :=
  {| service_items := []; total_extracted := Dec.zero |}.

(** One iteration.  The cost is extracted outside the [try]; whatever the
    creation of the item raises is swallowed by [except Exception] and
    the line is skipped. *)
Definition scan_line (st : scan_state) (line_num : nat) (line0 : str)
  : result scan_state :=
  let line := strip line0 in
  if Dec.is_nil line then Ok st
  else
    c <- _extract_cost_from_line line ;;
    match c with
    | None => Ok st
    | Some cost =>
        match _create_service_item line cost line_num with
        | Ok service_item =>
            Ok {| service_items := service_items st ++ [service_item];
                  total_extracted := Dec.add (total_extracted st) cost |}
        | Raise _ => Ok st
        end
    end.

Fixpoint scan_lines (st : scan_state) (line_num : nat) (lines : list str)
  : result scan_state :=
  match lines with
  | [] => Ok st
  | line :: rest =>
      st' <- scan_line st line_num line ;;
      scan_lines st' (S line_num) rest
  end.

Record cost_validation : Type := {
  calculated_total : PyFloat.float;
  invoice_total : PyFloat.float;
  difference : PyFloat.float;
  validation_passed : bool
}.

Record analysis : Type := {
  total_invoice_amount : PyFloat.float;
  total_line_items : nat;
  service_line_items : list service_item;
  validation : cost_validation
}.

(** The summary built at the end of [extract_all_costs_forensic]. *)
Definition summarize (invoice_total_ : Dec.dec) (st : scan_state) : analysis :=
  let difference_ :=
    Dec.to_float (Dec.sub invoice_total_ (total_extracted st)) in
  {| total_invoice_amount := Dec.to_float invoice_total_;
     total_line_items := List.length (service_items st);
     service_line_items := service_items st;
     validation :=
       {| calculated_total := Dec.to_float (total_extracted st);
          invoice_total := Dec.to_float invoice_total_;
          difference := difference_;
          validation_passed :=
            PyFloat.flt (PyFloat.fabs difference_) PyFloat.lit_0_01 |} |}.

(** [extract_all_costs_forensic]. *)
Definition extract_all_costs_forensic (text : str) : result analysis :=
  let lines := split_on newline text in
  invoice_total_ <- _find_invoice_total text ;;
  st <- scan_lines scan_init 1 lines ;;
  Ok (summarize invoice_total_ st).

End Forensic.

(** ** Values of [json.loads] and the dynamic operations applied to them *)

Module Json.
Import PyStr.

(** A JSON document as Python sees it.  A dict is an association list in
    insertion order; [json.loads] produces distinct keys. *)
#[warning="-register-all"]
Inductive json : Type :=
| JNull
| JBool (b : bool)
| JInt (z : Z)
| JFloat (f : PyFloat.float)
| JStr (s : str)
| JList (l : list json)
| JDict (d : list (str * json)).

Definition dict : Type := list (str * json).

(** [d[key]] when present. *)
Definition dict_lookup (key : str) (d : dict) : option json :=
  Analyzer.lookup key d.

(** [d[key] = v]: an existing key keeps its place, a new one goes last. *)
Fixpoint dict_set (key : str) (v : json) (d : dict) : dict :=
  match d with
  | [] => [(key, v)]
  | (k, w) :: d' =>
      if Analyzer.str_eqb k key then (k, v) :: d'
      else (k, w) :: dict_set key v d'
  end.

(** [d[key]], raising [KeyError]. *)
Definition dict_index (key : str) (d : dict) : result json :=
  match dict_lookup key d with
  | Some v => Ok v
  | None => Raise KeyError
  end.

(** [v.get(key, default)]: only a dict has the method. *)
Definition py_get (v : json) (key : str) (default : json) : result json :=
  match v with
  | JDict d =>
      match dict_lookup key d with
      | Some w => Ok w
      | None => Ok default
      end
  | _ => Raise AttributeError
  end.

(** Truth value, as tested by [if v:]. *)
Definition truthy (v : json) : bool :=
  match v with
  | JNull => false
  | JBool b => b
  | JInt z => negb (Z.eqb z 0)
  | JFloat f =>
      match f with S754_zero _ => false | _ => true end
  | JStr s => negb (Dec.is_nil s)
  | JList l => match l with [] => false | _ => true end
  | JDict d => match d with [] => false | _ => true end
  end.

(** Python numbers: [bool] is a subclass of [int]. *)
Inductive num : Type :=
| NInt (z : Z)
| NFloat (f : PyFloat.float).

Definition as_num (v : json) : option num :=
  match v with
  | JBool b => Some (NInt (if b then 1 else 0))
  | JInt z => Some (NInt z)
  | JFloat f => Some (NFloat f)
  | _ => None
  end.

Definition of_num (n : num) : json :=
  match n with
  | NInt z => JInt z
  | NFloat f => JFloat f
  end.

(** [float(z)] for an int: [OverflowError] beyond the largest double. *)
Definition int_to_float (z : Z) : result PyFloat.float :=
  match PyFloat.of_Z z with
  | S754_infinity _ => Raise OverflowError
  | f => Ok f
  end.

Definition num_to_float (n : num) : result PyFloat.float :=
  match n with
  | NInt z => int_to_float z
  | NFloat f => Ok f
  end.

(** Binary arithmetic on numbers: ints stay ints, anything with a float
    is computed in floats. *)
Definition num_binop (fz : Z -> Z -> Z)
           (ff : PyFloat.float -> PyFloat.float -> PyFloat.float)
           (a b : num) : result num :=
  match a, b with
  | NInt x, NInt y => Ok (NInt (fz x y))
  | _, _ =>
      x <- num_to_float a ;;
      y <- num_to_float b ;;
      Ok (NFloat (ff x y))
  end.

(** [a + b]. *)
Definition py_add (a b : json) : result json :=
  match as_num a, as_num b with
  | Some x, Some y => r <- num_binop Z.add PyFloat.fadd x y ;; Ok (of_num r)
  | _, _ =>
      match a, b with
      | JStr s, JStr t => Ok (JStr (s ++ t))
      | JList l, JList m => Ok (JList (l ++ m))
      | _, _ => Raise TypeError
      end
  end.

(** [a - b]. *)
Definition py_sub (a b : json) : result json :=
  match as_num a, as_num b with
  | Some x, Some y => r <- num_binop Z.sub PyFloat.fsub x y ;; Ok (of_num r)
  | _, _ => Raise TypeError
  end.

(** [abs(a)]. *)
Definition py_abs (a : json) : result json :=
  match as_num a with
  | Some (NInt z) => Ok (JInt (Z.abs z))
  | Some (NFloat f) => Ok (JFloat (PyFloat.fabs f))
  | None => Raise TypeError
  end.

(** Exact comparison of an int with a float, as Python does it. *)
Definition Z_compare_float (z : Z) (f : PyFloat.float) : option comparison :=
  match f with
  | S754_nan => None
  | S754_infinity s => Some (if s then Gt else Lt)
  | S754_zero _ => Some (Z.compare z 0)
  | S754_finite s m e =>
      let v := if s then Zneg m else Zpos m in
      Some (match e with
            | Zneg k => Z.compare (z * Zpos (2 ^ k)) v
            | _ => Z.compare z (v * 2 ^ e)
            end)
  end.

(** [a < f] and [a > f] for a float literal [f]. *)
Definition py_lt_float (a : json) (f : PyFloat.float) : result bool :=
  match as_num a with
  | Some (NInt z) =>
      Ok (match Z_compare_float z f with Some Lt => true | _ => false end)
  | Some (NFloat g) => Ok (PyFloat.flt g f)
  | None => Raise TypeError
  end.

Definition py_gt_float (a : json) (f : PyFloat.float) : result bool :=
  match as_num a with
  | Some (NInt z) =>
      Ok (match Z_compare_float z f with Some Gt => true | _ => false end)
  | Some (NFloat g) => Ok (PyFloat.flt f g)
  | None => Raise TypeError
  end.

(** What [for x in v] yields: the elements of a list, the characters of a
    string, the keys of a dict; nothing else in JSON is iterable. *)
Definition py_iter (v : json) : result (list json) :=
  match v with
  | JList l => Ok l
  | JStr s => Ok (map (fun c => JStr [c]) s)
  | JDict d => Ok (map (fun kv => JStr (fst kv)) d)
  | _ => Raise TypeError
  end.

(** [target.extend(source)]: only a list has the method. *)
Definition py_extend (target source : json) : result json :=
  match target with
  | JList l => xs <- py_iter source ;; Ok (JList (l ++ xs))
  | _ => Raise AttributeError
  end.

(** [f"{v:.2f}"] raises on an int too large for a float, and on
    anything that is not a number. *)
Definition format_2f (v : json) : result unit :=
  match as_num v with
  | Some n => _ <- num_to_float n ;; Ok tt
  | None => Raise TypeError
  end.

End Json.

(** ** claude_aws_enhanced.py *)

Module Enhanced.
Import PyStr Json.

(** *** [validate_and_enhance_analysis] *)

Section Validate.

(** [float(s)] on a string is Python's own parser; it stays a parameter. *)
Variable float_of_str : str -> result PyFloat.float.

(** [float(v)]. *)
Definition py_float (v : json) : result PyFloat.float :=
  match v with
  | JFloat f => Ok f
  | JInt z => int_to_float z
  | JBool b => Ok (if b then PyFloat.one else PyFloat.zero)
  | JStr s => float_of_str s
  | _ => Raise TypeError
  end.

(** The dict [cleaned_item] built for one item of the first analysis. *)
Definition clean_item (item : json) : result json :=
  service_category <- py_get item (L "service_category") (JStr (L "Unknown")) ;;
  service_name <- py_get item (L "service_name") (JStr (L "Unknown Service")) ;;
  service_type <- py_get item (L "service_type") (JStr (L "Standard")) ;;
  region <- py_get item (L "region") (JStr (L "unknown")) ;;
  uq <- py_get item (L "usage_quantity") (JFloat PyFloat.zero) ;;
  usage_quantity <- py_float uq ;;
  usage_unit <- py_get item (L "usage_unit") (JStr (L "Units")) ;;
  rate_description <- py_get item (L "rate_description") (JStr (L "Standard Rate")) ;;
  c <- py_get item (L "cost_usd") (JFloat PyFloat.zero) ;;
  cost_usd <- py_float c ;;
  line_text <- py_get item (L "line_text") (JStr []) ;;
  Ok (JDict [ (L "service_category", service_category);
              (L "service_name", service_name);
              (L "service_type", service_type);
              (L "region", region);
              (L "usage_quantity", JFloat usage_quantity);
              (L "usage_unit", usage_unit);
              (L "rate_description", rate_description);
              (L "cost_usd", JFloat cost_usd);
              (L "line_text", line_text) ]).

(** [cleaned_item['cost_usd']]. *)
Definition cost_of_cleaned (cleaned : json) : result PyFloat.float :=
  match cleaned with
  | JDict d =>
      match dict_lookup (L "cost_usd") d with
      | Some (JFloat f) => Ok f
      | Some _ => Raise TypeError
      | None => Raise KeyError
      end
  | _ => Raise TypeError
  end.

(** The loop over the items: the cleaned items and their running total. *)
Fixpoint clean_items (items : list json) (cleaned : list json)
         (total_calculated : PyFloat.float)
  : result (list json * PyFloat.float) :=
  match items with
  | [] => Ok (cleaned, total_calculated)
  | item :: rest =>
      cleaned_item <- clean_item item ;;
      c <- cost_of_cleaned cleaned_item ;;
      clean_items rest (cleaned ++ [cleaned_item]) (PyFloat.fadd total_calculated c)
  end.

(** [d['cost_validation'][key] = v]. *)
Definition set_cost_validation (key : str) (v : json) (d : dict) : result dict :=
  cv <- dict_index (L "cost_validation") d ;;
  match cv with
  | JDict c => Ok (dict_set (L "cost_validation") (JDict (dict_set key v c)) d)
  | _ => Raise TypeError
  end.

Definition validate_and_enhance_analysis (analysis_data : dict) : result dict :=
  match analysis_data, dict_lookup (L "service_line_items") analysis_data with
  | [], _ | _, None => Ok analysis_data
  | _, Some raw_items =>
      items <- py_iter raw_items ;;
      r <- clean_items items [] PyFloat.zero ;;
      let (cleaned_items, total_calculated) := r in
      let enhanced_data :=
        dict_set (L "service_line_items") (JList cleaned_items) analysis_data in
      let enhanced_data :=
        match dict_lookup (L "cost_validation") enhanced_data with
        | None => dict_set (L "cost_validation") (JDict []) enhanced_data
        | Some _ => enhanced_data
        end in
      enhanced_data <- set_cost_validation (L "calculated_total")
                         (JFloat total_calculated) enhanced_data ;;
      summary <- py_get (JDict enhanced_data) (L "invoice_summary") (JDict []) ;;
      invoice_total <- py_get summary (L "total_invoice_amount") JNull ;;
      if truthy invoice_total then
        d <- py_sub (JFloat total_calculated) invoice_total ;;
        difference <- py_abs d ;;
        enhanced_data <- set_cost_validation (L "difference") difference
                           enhanced_data ;;
        passed <- py_lt_float difference PyFloat.lit_1_0 ;;
        set_cost_validation (L "validation_passed") (JBool passed) enhanced_data
      else Ok enhanced_data
  end.

End Validate.

(** *** [reconcile_missing_costs] *)

(** What the reconciliation prompt is built from. *)
Record request : Type := {
  target_difference : json;
  req_invoice_total : json;
  req_calculated_total : json;
  remaining_text : str
}.

(** What comes back from [client.messages.create] and [json.loads]: the
    call (or reading the text of its response) raised; the response was
    empty; its text was not JSON ([JSONDecodeError]); or a document. *)
Inductive oracle_outcome : Type :=
| CallRaised
| NoContent
| NotJson
| Parsed (missing_data : json).

(** The code inside [try] mutates [initial_analysis] in place: a small
    state-and-exception monad over that dict. *)
Definition M (A : Type) : Type := dict -> result A * dict.

Definition mret {A : Type} (a : A) : M A := fun st => (Ok a, st).

Definition mbind {A B : Type} (m : M A) (f : A -> M B) : M B :=
  fun st =>
    match m st with
    | (Ok a, st') => f a st'
    | (Raise e, st') => (Raise e, st')
    end.

Definition lift {A : Type} (r : result A) : M A := fun st => (r, st).

Definition get_analysis : M dict := fun st => (Ok st, st).

Definition put_analysis (d : dict) : M unit := fun _ => (Ok tt, d).

Notation "x <~ c ;; k" := (mbind c (fun x => k))
  (at level 61, c at next level, right associativity).

(** [initial_analysis['cost_validation'][key] = v]. *)
Definition assign_validation (key : str) (v : json) : M unit :=
  a <~ get_analysis ;;
  a' <~ lift (set_cost_validation key v a) ;;
  put_analysis a'.

(** [sum(item.get('cost_usd', 0.0) for item in items)], from the int [0],
    adding from the left (CPython up to 3.11; from 3.12 on [sum] compensates
    the rounding errors of floats, which can change the last bit of a sum
    of three or more floats). *)
Fixpoint sum_cost_usd (acc : json) (items : list json) : result json :=
  match items with
  | [] => Ok acc
  | item :: rest =>
      c <- py_get item (L "cost_usd") (JFloat PyFloat.zero) ;;
      acc' <- py_add acc c ;;
      sum_cost_usd acc' rest
  end.

(** [initial_analysis['service_line_items'].extend(missing_items)]. *)
Definition extend_ledger (missing_items : json) : M unit :=
  a <~ get_analysis ;;
  ledger <~ lift (dict_index (L "service_line_items") a) ;;
  ledger' <~ lift (py_extend ledger missing_items) ;;
  put_analysis (dict_set (L "service_line_items") ledger' a).

(** "Recalculate totals" and "Update cost validation": one assignment
    after the other, each on the dict as the previous one left it. *)
Definition recalculate_totals (invoice_total : json) : M unit :=
  a <~ get_analysis ;;
  ledger <~ lift (dict_index (L "service_line_items") a) ;;
  items <~ lift (py_iter ledger) ;;
  new_calculated_total <~ lift (sum_cost_usd (JInt 0) items) ;;
  _ <~ assign_validation (L "calculated_total") new_calculated_total ;;
  new_difference <~ lift (py_sub invoice_total new_calculated_total) ;;
  _ <~ assign_validation (L "difference") new_difference ;;
  passed <~ lift (d <- py_abs new_difference ;; py_lt_float d PyFloat.lit_1_0) ;;
  assign_validation (L "validation_passed") (JBool passed).

(** The statements that follow [json.loads] inside the [try]. *)
Definition merge_missing_items (missing_data invoice_total : json) : M unit :=
  missing_items <~ lift (py_get missing_data (L "missing_items") (JList [])) ;;
  if truthy missing_items then
    _ <~ extend_ledger missing_items ;;
    recalculate_totals invoice_total
  else mret tt.

(** The [try] block: every exit, normal or through one of the [except]
    clauses, is [return initial_analysis] with the dict as it then is. *)
Definition try_reconcile (response : oracle_outcome) (invoice_total : json)
           (initial_analysis : dict) : dict :=
  match response with
  | CallRaised | NoContent | NotJson => initial_analysis
  | Parsed missing_data =>
      snd (merge_missing_items missing_data invoice_total initial_analysis)
  end.

(** The totals read at the start and their difference. *)
Definition current_totals (initial_analysis : dict) : result (json * json * json) :=
  cv <- py_get (JDict initial_analysis) (L "cost_validation") (JDict []) ;;
  calculated_total <- py_get cv (L "calculated_total") (JFloat PyFloat.zero) ;;
  invoice_total <- py_get cv (L "invoice_total") (JFloat PyFloat.zero) ;;
  difference <- py_sub invoice_total calculated_total ;;
  Ok (calculated_total, invoice_total, difference).

(** [abs(difference) < 0.01]. *)
Definition already_accurate (difference : json) : result bool :=
  d <- py_abs difference ;; py_lt_float d PyFloat.lit_0_01.

(** Building the prompt formats the three numbers with [:.2f]. *)
Definition build_request (pdf_text : str) (calculated_total invoice_total difference : json)
  : result request :=
  _ <- format_2f difference ;;
  _ <- format_2f invoice_total ;;
  _ <- format_2f calculated_total ;;
  Ok {| target_difference := difference;
        req_invoice_total := invoice_total;
        req_calculated_total := calculated_total;
        remaining_text := pdf_text |}.

(** One run of the controller: what it returns (or raises) and the
    requests it submitted to the oracle, in order. *)
Record run : Type := {
  returned : result dict;
  requests : list request
}.

(** [reconcile_missing_costs].  [client] tells whether [self.client] is
    set; [oracle] answers a request. *)
Definition reconcile_missing_costs (client : bool)
           (oracle : request -> oracle_outcome)
           (pdf_text : str) (initial_analysis : dict) : run :=
  if negb client then {| returned := Ok initial_analysis; requests := [] |}
  else
    match current_totals initial_analysis with
    | Raise e => {| returned := Raise e; requests := [] |}
    | Ok (calculated_total, invoice_total, difference) =>
        match already_accurate difference with
        | Raise e => {| returned := Raise e; requests := [] |}
        | Ok true => {| returned := Ok initial_analysis; requests := [] |}
        | Ok false =>
            match build_request pdf_text calculated_total invoice_total difference with
            | Raise e => {| returned := Raise e; requests := [] |}
            | Ok req =>
                {| returned :=
                     Ok (try_reconcile (oracle req) invoice_total initial_analysis);
                   requests := [req] |}
            end
        end
    end.

(** The ledger of an analysis: the list under ['service_line_items']. *)
Definition ledger_of (a : dict) : list json :=
  match dict_lookup (L "service_line_items") a with
  | Some (JList l) => l
  | _ => []
  end.

(** The entry [key] of ['cost_validation'], when there is one. *)
Definition validation_entry (key : str) (a : dict) : option json :=
  match dict_lookup (L "cost_validation") a with
  | Some (JDict c) => dict_lookup key c
  | _ => None
  end.

(** *** The caller in app.py *)

(** [abs(cost_validation.get('difference', 0.0))], as
    [process_comprehensive_aws_analysis] reads it before and after the
    call. *)
Definition stored_difference (enhanced_analysis : dict) : result json :=
  cv <- py_get (JDict enhanced_analysis) (L "cost_validation") (JDict []) ;;
  d <- py_get cv (L "difference") (JFloat PyFloat.zero) ;;
  py_abs d.

(** The test in front of the call: [difference > 1.0]. *)
Definition significant_difference (enhanced_analysis : dict) : result bool :=
  difference <- stored_difference enhanced_analysis ;;
  py_gt_float difference PyFloat.lit_1_0.

(** The log line after the call formats the final difference with
    [:.2f]. *)
Definition log_final_difference (enhanced_analysis : dict) : result unit :=
  final_difference <- stored_difference enhanced_analysis ;;
  format_2f final_difference.

(** The caller: reconciliation is attempted only when the stored
    difference exceeds one currency unit.  The spinner text formats the
    difference before the call, the log line formats the final one after
    it. *)
Definition reconcile_if_needed (client : bool)
           (oracle : request -> oracle_outcome)
           (pdf_text : str) (enhanced_analysis : dict) : run :=
  match stored_difference enhanced_analysis with
  | Raise e => {| returned := Raise e; requests := [] |}
  | Ok difference =>
      match py_gt_float difference PyFloat.lit_1_0 with
      | Raise e => {| returned := Raise e; requests := [] |}
      | Ok false => {| returned := Ok enhanced_analysis; requests := [] |}
      | Ok true =>
          match format_2f difference with
          | Raise e => {| returned := Raise e; requests := [] |}
          | Ok _ =>
              let r := reconcile_missing_costs client oracle pdf_text
                         enhanced_analysis in
              match returned r with
              | Raise _ => r
              | Ok reconciled =>
                  match log_final_difference reconciled with
                  | Raise e => {| returned := Raise e; requests := requests r |}
                  | Ok _ => r
                  end
              end
          end
      end
  end.

End Enhanced.

(** ** Declarative reading of the patterns *)

Module ReSpec.
Import PyStr Re.

(** [matches ic r s cap s' cap']: pattern [r] can consume a prefix of [s],
    leaving [s'], and turn the capture register [cap] into [cap'].  The
    relation knows nothing of greediness or of the order of alternatives;
    it bounds what the backtracking matcher can answer. *)
Inductive matches (ic : bool) : re -> str -> option str -> str -> option str -> Prop :=
| M_In : forall cs c s cap,
    cset_mem ic cs c = true -> matches ic (OneOf cs) (c :: s) cap s cap
| M_Star : forall cs p s cap,
    Forall (fun c => cset_mem ic cs c = true) p ->
    matches ic (Star cs) (p ++ s) cap s cap
| M_Plus : forall cs c p s cap,
    cset_mem ic cs c = true ->
    Forall (fun c => cset_mem ic cs c = true) p ->
    matches ic (Plus cs) (c :: p ++ s) cap s cap
| M_Opt_take : forall cs c s cap,
    cset_mem ic cs c = true -> matches ic (Opt cs) (c :: s) cap s cap
| M_Opt_skip : forall cs s cap, matches ic (Opt cs) s cap s cap
| M_Cat : forall a b s cap s1 cap1 s2 cap2,
    matches ic a s cap s1 cap1 -> matches ic b s1 cap1 s2 cap2 ->
    matches ic (Cat a b) s cap s2 cap2
| M_Alt_l : forall a b s cap s' cap',
    matches ic a s cap s' cap' -> matches ic (Alt a b) s cap s' cap'
| M_Alt_r : forall a b s cap s' cap',
    matches ic b s cap s' cap' -> matches ic (Alt a b) s cap s' cap'
| M_Group : forall a s cap s' cap',
    matches ic a s cap s' cap' ->
    matches ic (Group a) s cap s'
            (Some (firstn (List.length s - List.length s') s))
| M_Eol_end : forall cap, matches ic Eol [] cap [] cap
| M_Eol_nl : forall cap, matches ic Eol [newline] cap [newline] cap
| M_Empty : forall s cap, matches ic Empty s cap s cap.

(** Does every match of the pattern go through a group? *)
Fixpoint sets_group (r : re) : bool :=
  match r with
  | Group _ => true
  | Cat a b => (sets_group a || sets_group b)%bool
  | Alt a b => (sets_group a && sets_group b)%bool
  | _ => false
  end.

(** The characters a pattern can consume. *)
Fixpoint alpha (ic : bool) (r : re) (c : ascii) : bool :=
  match r with
  | OneOf cs | Star cs | Plus cs | Opt cs => cset_mem ic cs c
  | Cat a b | Alt a b => (alpha ic a c || alpha ic b c)%bool
  | Group a => alpha ic a c
  | Eol | Empty => false
  end.

(** The characters the groups of a pattern can capture. *)
Fixpoint group_alpha (ic : bool) (r : re) (c : ascii) : bool :=
  match r with
  | Cat a b | Alt a b => (group_alpha ic a c || group_alpha ic b c)%bool
  | Group a => (alpha ic a c || group_alpha ic a c)%bool
  | _ => false
  end.

(** A property of every character of a capture, when there is one. *)
Definition cap_all (Q : ascii -> Prop) (cap : option str) : Prop :=
  match cap with
  | Some g => Forall Q g
  | None => True
  end.

(** What a cost group may hold: digits, commas and dots. *)
Definition amount_char (c : ascii) : bool :=
  (isdigit c || chr_eqb c ","%char || chr_eqb c "."%char)%bool.


(** A pattern with a group that every match goes through. *)
Definition grouped (p : re) : bool :=
  (negb (Nat.eqb (ngroups p) 0) && sets_group p)%bool.

(** The 256 characters. *)
Definition all_ascii : list ascii := map ascii_of_nat (List.seq 0 256).

(** Every pattern that captures an amount. *)
Definition all_cost_patterns : list re :=
  Analyzer.cost_patterns ++ Forensic.cost_patterns ++ Forensic.total_patterns.

End ReSpec.

(** ** Reference definitions, written from the specification *)

Module Spec.
Import PyStr Re.

(** The amount a pattern yields on a line: its leftmost match, the group
    with the thousands separators stripped, when that is a valid decimal. *)
Definition parsed_amount (pattern : re) (line : str) : option Dec.dec :=
  match search true pattern line with
  | Some m =>
      match m_group1 m with
      | Some g =>
          match Dec.Decimal_of_str (remove_char ","%char g) with
          | Ok d => Some d
          | Raise _ => None
          end
      | None => None
      end
  | None => None
  end.

(** The first amount found when the patterns are tried in priority order. *)
Fixpoint first_parsed (ps : list re) (line : str) : option Dec.dec :=
  match ps with
  | [] => None
  | p :: ps' =>
      match parsed_amount p line with
      | Some d => Some d
      | None => first_parsed ps' line
      end
  end.

(** The sum of decimals as the loops compute it: from [Decimal('0')],
    adding from the left. *)
Definition dec_sum (l : list Dec.dec) : Dec.dec := fold_left Dec.add l Dec.zero.

(** Line [n] (counted from 1) of a text, stripped. *)
Definition line_at (text : str) (n : nat) : str :=
  strip (nth (n - 1) (split_on newline text) []).

Definition or_zero (o : option Dec.dec) : Dec.dec :=
  match o with
  | Some d => d
  | None => Dec.zero
  end.

(** The decimal amount on the line a forensic item comes from. *)
Definition forensic_cost (text : str) (it : Forensic.service_item) : option Dec.dec :=
  first_parsed Forensic.cost_patterns (line_at text (Forensic.line_number it)).

(** What holds of the loop state of [extract_all_costs_forensic] after
    any number of lines of [lines]: every item carries the number of a
    line seen so far, its float cost is the conversion of the decimal on
    that line, and the running total is the decimal sum of those amounts. *)
Definition forensic_inv (lines : list str) (seen : nat) (st : Forensic.scan_state)
  : Prop :=
  Forall (fun it =>
            1 <= Forensic.line_number it <= seen
            /\ exists c,
                first_parsed Forensic.cost_patterns
                  (strip (nth (Forensic.line_number it - 1) lines [])) = Some c
                /\ Forensic.cost_usd it = Dec.to_float c)
         (Forensic.service_items st)
  /\ Forensic.total_extracted st
     = dec_sum
         (map (fun it =>
                 or_zero
                   (first_parsed Forensic.cost_patterns
                      (strip (nth (Forensic.line_number it - 1) lines []))))
              (Forensic.service_items st)).

(** What holds of the loop state of [analyze_aws_invoice]: every entry
    stores, unconverted, the decimal parsed from its own line, and the
    running total is the decimal sum of the entries. *)
Definition classified_inv (st : Analyzer.scan_state) : Prop :=
  Forall (fun u =>
            first_parsed Analyzer.cost_patterns (Analyzer.raw_line u)
            = Some (Analyzer.cost u))
         (Analyzer.service_usages st)
  /\ Analyzer.total_cost st
     = dec_sum (map Analyzer.cost (Analyzer.service_usages st)).

(** The sum of floats from [0.0], adding from the left. *)
Definition float_sum (l : list PyFloat.float) : PyFloat.float :=
  fold_left PyFloat.fadd l PyFloat.zero.

(** The exact sum of finite floats, as a fraction. *)
Definition exact_sum (l : list PyFloat.float) : option (Z * Z) :=
  fold_left (fun acc f =>
               match acc, PyFloat.to_frac f with
               | Some a, Some b => Some (PyFloat.frac_add a b)
               | _, _ => None
               end) l (Some (0, 1)%Z).

(** The cost a cleaned item of the first analysis carries (0.0 when it
    carries none). *)
Definition float_cost (item : Json.json) : PyFloat.float :=
  match item with
  | Json.JDict d =>
      match Json.dict_lookup (L "cost_usd") d with
      | Some (Json.JFloat f) => f
      | _ => PyFloat.zero
      end
  | _ => PyFloat.zero
  end.

(** Does the item carry a float under ['cost_usd']? *)
Definition has_float_cost (item : Json.json) : bool :=
  match item with
  | Json.JDict d =>
      match Json.dict_lookup (L "cost_usd") d with
      | Some (Json.JFloat _) => true
      | _ => false
      end
  | _ => false
  end.

(** Is [needle] found in [line], case-insensitively, as a substring? *)
Definition found (needle line : str) : bool :=
  contains (lower needle) (lower line).

Definition Zsum (l : list Z) : Z := fold_right Z.add 0%Z l.

(** The score of a category: twice the word count of every keyword found,
    plus one for every unit found. *)
Definition ref_score (p : Analyzer.patterns) (line : str) : Z :=
  (Zsum (map (fun keyword =>
                if found keyword line then 2 * Z.of_nat (wordcount keyword) else 0)
             (Analyzer.keywords p))
   + Zsum (map (fun unit => if found unit line then 1 else 0)
               (Analyzer.units p)))%Z.

(** The highest score of the catalog on a line (0 when nothing scores). *)
Definition ref_top (catalog : list (str * Analyzer.patterns)) (line : str) : Z :=
  fold_right Z.max 0%Z (map (fun cp => ref_score (snd cp) line) catalog).

(** min(score/10, 1), as the nearest float. *)
Definition ref_confidence (s : Z) : PyFloat.float :=
  if Z.leb 10 s then PyFloat.lit_1_0
  else match s with
       | Zpos n => PyFloat.of_ratio false n 10
       | _ => PyFloat.zero
       end.

(** The classifier as specified: [Other] with confidence 0 when no
    category scores; otherwise the first category of the catalog, in
    declaration order, that reaches the highest score. *)
Definition classify_ref (catalog : list (str * Analyzer.patterns)) (line : str)
  : str * PyFloat.float :=
  let top := ref_top catalog line in
  if Z.leb top 0 then (L "Other", PyFloat.zero)
  else
    match find (fun cp => Z.eqb (ref_score (snd cp) line) top) catalog with
    | Some cp => (fst cp, ref_confidence top)
    | None => (L "Other", PyFloat.zero)
    end.

(** The catalog with the score of each category on a line. *)
Definition scored (line : str) (catalog : list (str * Analyzer.patterns))
  : list (str * Z) :=
  map (fun cp => (fst cp, ref_score (snd cp) line)) catalog.

Definition positive (x : str * Z) : bool := Z.ltb 0 (snd x).

(** The largest of [b] and the elements of [l]. *)
Definition lmax (b : Z) (l : list Z) : Z := fold_right Z.max b l.

(** The most a category can score. *)
Definition weight (p : Analyzer.patterns) : Z :=
  (Zsum (map (fun keyword => 2 * Z.of_nat (wordcount keyword)) (Analyzer.keywords p))
   + Z.of_nat (List.length (Analyzer.units p)))%Z.

(** The integers [1 .. n]. *)
Definition Zrange (n : nat) : list Z := map Z.of_nat (List.seq 1 n).

(** On a score, does the computed confidence agree with the reference and
    lie in [0, 1]? *)
Definition confidence_ok (s : Z) : bool :=
  let c := Analyzer.confidence_of s in
  (match c, ref_confidence s with
   | S754_finite s1 m1 e1, S754_finite s2 m2 e2 =>
       Bool.eqb s1 s2 && Pos.eqb m1 m2 && Z.eqb e1 e2
   | _, _ => false
   end
   && PyFloat.fle PyFloat.zero c && PyFloat.fle c PyFloat.one)%bool.

End Spec.

(** ** Sample invoices and oracles *)

Module Sample.
Import PyStr Json Enhanced.

Definition f_3600 : PyFloat.float := PyFloat.of_Z 3600.            (* 3600.0 *)
Definition f_45_6 : PyFloat.float := PyFloat.of_ratio false 456 10.     (* 45.6 *)
Definition f_3645_6 : PyFloat.float := PyFloat.of_ratio false 36456 10. (* 3645.6 *)
Definition f_10 : PyFloat.float := PyFloat.of_Z 10.                 (* 10.0 *)
Definition f_10_5 : PyFloat.float := PyFloat.of_ratio false 105 10.     (* 10.5 *)
Definition f_10_005 : PyFloat.float := PyFloat.of_ratio false 10005 1000. (* 10.005 *)
Definition f_0_5 : PyFloat.float := PyFloat.of_ratio false 5 10.        (* 0.5 *)

(** An analysis with one item and the given totals. *)
Definition analysis_with (calculated invoice : PyFloat.float) (passed : bool) : dict :=
  [ (L "service_line_items",
     JList [JDict [ (L "service_category", JStr (L "EC2"));
                    (L "service_name", JStr (L "Amazon Elastic Compute Cloud"));
                    (L "cost_usd", JFloat calculated) ]]);
    (L "cost_validation",
     JDict [ (L "calculated_total", JFloat calculated);
             (L "invoice_total", JFloat invoice);
             (L "difference", JFloat (PyFloat.fabs (PyFloat.fsub calculated invoice)));
             (L "validation_passed", JBool passed) ]) ].

(** Ledger total 3600.00 against an invoice total of 3645.60. *)
Definition short_by_45_60 : dict := analysis_with f_3600 f_3645_6 false.

(** Ledger total 10.00 against an invoice total of 10.50. *)
Definition short_by_0_50 : dict := analysis_with f_10 f_10_5 true.

(** Ledger total 10.00 against an invoice total of 11.00: the stored
    difference is exactly 1.0. *)
Definition short_by_1_00 : dict := analysis_with f_10 (PyFloat.of_Z 11) false.

(** Ledger total 10.00 against 10.005, marked as not passed. *)
Definition short_by_0_005 : dict := analysis_with f_10 f_10_005 false.

Definition respond_with (items : list json) : request -> oracle_outcome :=
  fun _ => Parsed (JDict [(L "missing_items", JList items)]).

(** The oracle finds the missing 45.60. *)
Definition support_item : json :=
  JDict [ (L "service_category", JStr (L "Other"));
          (L "service_name", JStr (L "AWS Support"));
          (L "cost_usd", JFloat f_45_6);
          (L "reason_missed", JStr (L "listed after the summary")) ].

(** The oracle answers with a cost written as a string. *)
Definition string_cost_item : json :=
  JDict [ (L "service_name", JStr (L "AWS Support"));
          (L "cost_usd", JStr (L "45.60")) ].

(** The oracle answers with an entry that lacks most fields and whose
    quantity is not a number. *)
Definition sparse_item : json :=
  JDict [ (L "cost_usd", JFloat f_45_6);
          (L "usage_quantity", JStr (L "lots")) ].

Definition oracle_down : request -> oracle_outcome := fun _ => CallRaised.

(** A first analysis as the model returns it: costs as JSON numbers. *)
Definition first_analysis : dict :=
  [ (L "invoice_summary",
     JDict [ (L "total_invoice_amount", JFloat f_3645_6) ]);
    (L "service_line_items",
     JList [ JDict [ (L "service_category", JStr (L "EC2"));
                     (L "cost_usd", JInt 3600) ];
             JDict [ (L "service_category", JStr (L "Other"));
                     (L "cost_usd", JFloat f_45_6) ] ]) ].

(** A [float()] on strings that accepts nothing. *)
Definition no_float_of_str : str -> result PyFloat.float :=
  fun _ => Raise ValueError.

(** The EC2 line of the specification. *)
Definition ec2_line : str := L "Amazon Elastic Compute Cloud t3a.small USD 9.15".

(** Two forensic lines of 0.1 and 0.2. *)
Definition two_dimes : str := L "USD 0.1" ++ [newline] ++ L "USD 0.2".

End Sample.

(** * The remaining functions of the three modules and their callers *)

From Stdlib Require Import Sorted.

(** ** The [re] module on the patterns of the field extractors

    The patterns that fill the descriptive fields of a line item use
    character ranges, word boundaries, two numbered groups and the text
    of the whole match; repetition is still applied to character sets
    only. *)

Module Rx.
Import PyStr.

(** [\w] on code points below 256: letters, digits (superscripts and
    fractions included) and the underscore. *)
Definition isword (c : ascii) : bool :=
  (in_range 48 57 c || in_range 65 90 c || N.eqb (code c) 95
   || in_range 97 122 c || N.eqb (code c) 170 || in_range 178 179 c
   || N.eqb (code c) 181 || in_range 185 186 c || in_range 188 190 c
   || in_range 192 214 c || in_range 216 246 c || in_range 248 255 c)%bool.

(** The upper-case partner of a lower-case letter, where it lies below
    256 (y-diaeresis and the micro sign have theirs beyond). *)
Definition upper_char (c : ascii) : ascii :=
  if (in_range 97 122 c
      || (in_range 224 254 c && negb (N.eqb (code c) 247)))%bool
  then ascii_of_N (code c - 32) else c.

Inductive cset : Type :=
| CDigit
| CSpace
| CLit (c : ascii)
| CRange (lo hi : ascii)
| CUnion (a b : cset)
| CNot (a : cset).

(** Membership; [ic] is [re.IGNORECASE], under which a character belongs
    to a set when its lower-case form is that of a member. *)
Fixpoint cset_mem (ic : bool) (cs : cset) (c : ascii) : bool :=
  match cs with
  | CDigit => isdigit c
  | CSpace => isspace c
  | CLit k => if ic then chr_eqb (lower_char c) (lower_char k) else chr_eqb c k
  | CRange lo hi =>
      if ic then (in_range (code lo) (code hi) (lower_char c)
                  || in_range (code lo) (code hi) (upper_char (lower_char c)))%bool
      else in_range (code lo) (code hi) c
  | CUnion a b => (cset_mem ic a c || cset_mem ic b c)%bool
  | CNot a => negb (cset_mem ic a c)
  end.

(** Patterns; [Group n] is the [n]-th parenthesis, [WordB] is [\b]. *)
Inductive re : Type :=
| OneOf (cs : cset)
| Star (cs : cset)
| Plus (cs : cset)
| Opt (cs : cset)
| Cat (a b : re)
| Alt (a b : re)
| Group (n : nat) (a : re)
| WordB
| Empty.

Fixpoint lit (s : str) : re :=
  match s with
  | [] => Empty
  | c :: s' => Cat (OneOf (CLit c)) (lit s')
  end.

Fixpoint sequence (rs : list re) : re :=
  match rs with
  | [] => Empty
  | [r] => r
  | r :: rs' => Cat r (sequence rs')
  end.

(** [a|b|c]. *)
Fixpoint alts (rs : list re) : re :=
  match rs with
  | [] => Empty
  | [r] => r
  | r :: rs' => Alt r (alts rs')
  end.

(** The groups captured so far, the latest first. *)
Definition caps : Type := list (nat * str).

Fixpoint cap_get (n : nat) (cs : caps) : option str :=
  match cs with
  | [] => None
  | (k, t) :: rest => if Nat.eqb k n then Some t else cap_get n rest
  end.

(** [\b]: exactly one of the characters around the position is a word
    character; the ends of the text count as non-word. *)
Definition at_boundary (prev : option ascii) (s : str) : bool :=
  xorb (match prev with Some c => isword c | None => false end)
       (match s with c :: _ => isword c | [] => false end).

Section Match.
Variable R : Type.
Variable ic : bool.

(** Greedy [cs*] with backtracking; [prev] is the character before the
    current position. *)
Fixpoint star_k (cs : cset) (prev : option ascii) (s : str)
         (k : option ascii -> str -> option R) : option R :=
  match s with
  | c :: s' =>
      if cset_mem ic cs c then
        match star_k cs (Some c) s' k with
        | Some r => Some r
        | None => k prev s
        end
      else k prev s
  | [] => k prev []
  end.

(** Backtracking matcher in continuation-passing style. *)
Fixpoint match_k (r : re) (prev : option ascii) (s : str) (g : caps)
         (k : option ascii -> str -> caps -> option R) : option R :=
  match r with
  | OneOf cs =>
      match s with
      | c :: s' => if cset_mem ic cs c then k (Some c) s' g else None
      | [] => None
      end
  | Star cs => star_k cs prev s (fun prev' s' => k prev' s' g)
  | Plus cs =>
      match s with
      | c :: s' =>
          if cset_mem ic cs c
          then star_k cs (Some c) s' (fun prev' s'' => k prev' s'' g)
          else None
      | [] => None
      end
  | Opt cs =>
      match s with
      | c :: s' =>
          if cset_mem ic cs c then
            match k (Some c) s' g with
            | Some x => Some x
            | None => k prev s g
            end
          else k prev s g
      | [] => k prev s g
      end
  | Cat a b =>
      match_k a prev s g (fun prev' s' g' => match_k b prev' s' g' k)
  | Alt a b =>
      match match_k a prev s g k with
      | Some x => Some x
      | None => match_k b prev s g k
      end
  | Group n a =>
      match_k a prev s g
        (fun prev' s' g' =>
           k prev' s' ((n, firstn (List.length s - List.length s') s) :: g'))
  | WordB => if at_boundary prev s then k prev s g else None
  | Empty => k prev s g
  end.
End Match.

(** A match object: the text of the whole match and of its groups. *)
Record rmatch : Type := { m_group0 : str; m_groups : caps }.

Definition match_here (ic : bool) (r : re) (prev : option ascii) (s : str)
  : option rmatch :=
  match_k ic r prev s []
    (fun _ rest g =>
       Some {| m_group0 := firstn (List.length s - List.length rest) s;
               m_groups := g |}).

Fixpoint search_from (ic : bool) (r : re) (prev : option ascii) (s : str)
  : option rmatch :=
  match match_here ic r prev s with
  | Some m => Some m
  | None =>
      match s with
      | [] => None
      | c :: s' => search_from ic r (Some c) s'
      end
  end.

(** [re.search]: the match at the leftmost position that has one. *)
Definition search (ic : bool) (r : re) (s : str) : option rmatch :=
  search_from ic r None s.

Fixpoint ngroups (r : re) : nat :=
  match r with
  | Cat a b | Alt a b => ngroups a + ngroups b
  | Group _ a => S (ngroups a)
  | _ => 0
  end.

(** [m.group(n)]: the whole match for 0; [IndexError] beyond the groups
    of the pattern; [None] for a group that took no part in the match. *)
Definition group (r : re) (m : rmatch) (n : nat) : result (option str) :=
  match n with
  | O => Ok (Some (m_group0 m))
  | _ => if Nat.ltb (ngroups r) n then Raise IndexError
         else Ok (cap_get n (m_groups m))
  end.

(** Pieces shared by the patterns. *)
Definition ws_plus : re := Plus CSpace.                       (* \s+ *)
Definition digits_commas : re := Plus (CUnion CDigit (CLit ","%char)). (* [\d,]+ *)
(** [[\d,]+\.?\d*] *)
Definition number : re :=
  sequence [digits_commas; Opt (CLit "."%char); Star CDigit].
Definition dot : re := OneOf (CLit "."%char).                 (* \. *)
Definition alnum : cset :=
  CUnion (CRange "a"%char "z"%char) (CRange "0"%char "9"%char). (* [a-z0-9] *)
(** [word] followed by an optional [s], as in [hours?]. *)
Definition plural (word : string) : re :=
  Cat (lit (L word)) (Opt (CLit "s"%char)).
(** [([\d,]+\.?\d* )\s+(unit)\b] *)
Definition quantity_of (unit : re) : re :=
  sequence [Group 1 number; ws_plus; Group 2 unit; WordB].

(** [float(s)] on the text of a number group with the commas removed:
    digits around at most one dot. *)
Definition float_of_digits (s : str) : result PyFloat.float :=
  match Dec.Decimal_of_str s with
  | Ok d => Ok (Dec.to_float d)
  | Raise _ => Raise ValueError
  end.

End Rx.

(** ** Loops shared by the field extractors *)

Module Fields.
Import PyStr Rx.

(** One round of a usage loop: the leftmost match of the pattern, its
    first group with the commas removed read as a float, its second
    group as the unit ([unit_of] is what the caller applies to it). *)
Definition try_usage (A : Type) (unit_of : option str -> result A)
           (pattern : re) (line : str)
  : option (result (PyFloat.float * A)) :=
  match search true pattern line with
  | None => None
  | Some m =>
      Some (g1 <- group pattern m 1 ;;
            match g1 with
            | None => Raise AttributeError            (* None.replace *)
            | Some t =>
                quantity <- float_of_digits (remove_char ","%char t) ;;
                g2 <- group pattern m 2 ;;
                unit <- unit_of g2 ;;
                Ok (quantity, unit)
            end)
  end.

(** The loop over the usage patterns; a [handled] exception moves on to
    the next pattern. *)
Fixpoint first_usage (A : Type) (unit_of : option str -> result A)
         (handled : list exn) (ps : list re) (line : str)
  : result (option (PyFloat.float * A)) :=
  match ps with
  | [] => Ok None
  | pattern :: ps' =>
      match try_usage unit_of pattern line with
      | None => first_usage unit_of handled ps' line
      | Some (Ok qu) => Ok (Some qu)
      | Some (Raise e) =>
          if caught handled e then first_usage unit_of handled ps' line
          else Raise e
      end
  end.

(** The first pattern that matches, and its group [n]. *)
Fixpoint first_group (n : nat) (ps : list re) (line : str)
  : result (option (option str)) :=
  match ps with
  | [] => Ok None
  | pattern :: ps' =>
      match search true pattern line with
      | Some m => g <- group pattern m n ;; Ok (Some g)
      | None => first_group n ps' line
      end
  end.

(** The first pattern that matches, and the text of its match. *)
Fixpoint first_whole (ps : list re) (line : str) : option str :=
  match ps with
  | [] => None
  | pattern :: ps' =>
      match search true pattern line with
      | Some m => Some (m_group0 m)
      | None => first_whole ps' line
      end
  end.

(** [[^U]+] and [[^,\n]+]. *)
Definition not_U_plus : re := Plus (CNot (CLit "U"%char)).
Definition to_comma_or_eol : re :=
  Plus (CNot (CUnion (CLit ","%char) (CLit newline))).
(** [\$[\d,]+\.?\d*\s+per\s+] and [USD[\d,]+\.?\d*\s+per\s+]. *)
Definition dollar_per : list re :=
  [OneOf (CLit "$"%char); number; ws_plus; lit (L "per"); ws_plus].
Definition usd_per : list re :=
  [lit (L "USD"); number; ws_plus; lit (L "per"); ws_plus].

(** [(t[2-4]g?\.[a-z0-9]+)], [(db\.[a-z0-9]+\.[a-z0-9]+)] and
    [(gp[2-3]|io[1-2]|st1|sc1)], common to both extractors. *)
Definition ec2_instance_type : re :=
  Group 1 (sequence [OneOf (CLit "t"%char); OneOf (CRange "2"%char "4"%char);
                     Opt (CLit "g"%char); dot; Plus alnum]).
Definition rds_instance_type : re :=
  Group 1 (sequence [lit (L "db"); dot; Plus alnum; dot; Plus alnum]).
Definition ebs_volume_type : re :=
  Group 1 (alts [ Cat (lit (L "gp")) (OneOf (CRange "2"%char "3"%char));
                  Cat (lit (L "io")) (OneOf (CRange "1"%char "2"%char));
                  lit (L "st1"); lit (L "sc1") ]).

End Fields.

(** ** aws_service_analyzer.py: the descriptive fields *)

Module AnalyzerFields.
Import PyStr Rx Fields.

(** Text as code points: two literals of the region table hold U+221A,
    which lies beyond the characters of [str]. *)
Definition codes (s : str) : list N := map code s.
Definition U (s : string) : list N := codes (L s).

(** [str.lower] on a code point; beyond 255 only the uncased U+221A
    occurs in the table. *)
Definition lower_code (n : N) : N :=
  if N.ltb n 256 then code (lower_char (ascii_of_N n)) else n.

Fixpoint starts_with_codes (p s : list N) : bool :=
  match p, s with
  | [], _ => true
  | _ :: _, [] => false
  | a :: p', b :: s' => (N.eqb a b && starts_with_codes p' s')%bool
  end.

Fixpoint contains_codes (needle hay : list N) : bool :=
  (starts_with_codes needle hay ||
   match hay with
   | [] => false
   | _ :: hay' => contains_codes needle hay'
   end)%bool.

(** [_initialize_region_patterns].  The two names of Sao Paulo are
    stored mis-decoded, as "s", U+221A, U+00A3, "o paulo". *)
Definition region_patterns : list (str * list (list N)) :=
  [ (L "us-east-1", [U "us east (n. virginia)"; U "us-east-1"; U "use1"; U "virginia"]);
    (L "us-east-2", [U "us east (ohio)"; U "us-east-2"; U "use2"; U "ohio"]);
    (L "us-west-1", [U "us west (n. california)"; U "us-west-1"; U "usw1"; U "california"]);
    (L "us-west-2", [U "us west (oregon)"; U "us-west-2"; U "usw2"; U "oregon"]);
    (L "eu-west-1", [U "eu (ireland)"; U "eu-west-1"; U "euw1"; U "ireland"]);
    (L "eu-west-2", [U "eu (london)"; U "eu-west-2"; U "euw2"; U "london"]);
    (L "eu-west-3", [U "eu (paris)"; U "eu-west-3"; U "euw3"; U "paris"]);
    (L "eu-central-1", [U "eu (frankfurt)"; U "eu-central-1"; U "euc1"; U "frankfurt"]);
    (L "ap-south-1", [U "asia pacific (mumbai)"; U "ap-south-1"; U "aps1"; U "mumbai"]);
    (L "ap-southeast-1", [U "asia pacific (singapore)"; U "ap-southeast-1"; U "apse1"; U "singapore"]);
    (L "ap-southeast-2", [U "asia pacific (sydney)"; U "ap-southeast-2"; U "apse2"; U "sydney"]);
    (L "ap-northeast-1", [U "asia pacific (tokyo)"; U "ap-northeast-1"; U "apne1"; U "tokyo"]);
    (L "ap-northeast-2", [U "asia pacific (seoul)"; U "ap-northeast-2"; U "apne2"; U "seoul"]);
    (L "ca-central-1", [U "canada (central)"; U "ca-central-1"; U "cac1"; U "canada"]);
    (L "sa-east-1",
     [U "south america (s" ++ [8730; 163]%N ++ U "o paulo)"; U "sa-east-1"; U "sae1";
      U "s" ++ [8730; 163]%N ++ U "o paulo"]);
    (L "global", [U "global"; U "worldwide"; U "all regions"; U "cloudfront global"]) ].

(** The loop of [extract_region] over a table. *)
Fixpoint first_region (table : list (str * list (list N))) (line_lower : list N)
  : str :=
  match table with
  | [] => L "unknown"
  | (region_code, patterns) :: rest =>
      if existsb (fun pattern =>
                    contains_codes (map lower_code pattern) line_lower)
                 patterns
      then region_code
      else first_region rest line_lower
  end.

(** [extract_region]. *)
Definition extract_region (line : str) : str :=
  first_region region_patterns (codes (lower line)).

(** The patterns of [extract_usage_quantity_and_unit]. *)
Definition usage_patterns : list re :=
  [ quantity_of (Alt (plural "hour") (plural "hr"));
    quantity_of (Alt (lit (L "gb-mo")) (lit (L "gb-month")));
    quantity_of (plural "request");
    quantity_of (alts [lit (L "gb"); lit (L "tb"); lit (L "mb")]);
    quantity_of (plural "instance");
    quantity_of (plural "vcpu-hour");
    quantity_of (plural "message");
    quantity_of (plural "querie");
    quantity_of (plural "event");
    quantity_of (plural "notification") ].

(** [match.group(2).lower()]. *)
Definition lowered_unit (g : option str) : result str :=
  match g with
  | Some unit => Ok (lower unit)
  | None => Raise AttributeError
  end.

(** [extract_usage_quantity_and_unit]. *)
Definition extract_usage_quantity_and_unit (line : str)
  : result (option PyFloat.float * str) :=
  r <- first_usage lowered_unit [ValueError] usage_patterns line ;;
  match r with
  | Some (quantity, unit) => Ok (Some quantity, unit)
  | None => Ok (None, L "unknown")
  end.

(** The patterns of [extract_service_details]. *)
Definition service_type_patterns : list re :=
  [ ec2_instance_type;
    rds_instance_type;
    Group 1 (sequence [lit (L "cache"); dot; Plus alnum; dot; Plus alnum]);
    ebs_volume_type;
    Group 1 (alts [lit (L "standard"); lit (L "glacier");
                   lit (L "deep archive"); lit (L "intelligent")]) ].

(** The patterns of [_extract_rate_description]. *)
Definition rate_patterns : list re :=
  [ sequence (dollar_per ++ [to_comma_or_eol]);
    sequence (usd_per ++ [to_comma_or_eol]);
    sequence [lit (L "First"); ws_plus; digits_commas; to_comma_or_eol];
    sequence [lit (L "Additional"); ws_plus; to_comma_or_eol] ].

(** [_extract_rate_description]. *)
Definition _extract_rate_description (line : str) : str :=
  match first_whole rate_patterns line with
  | Some text => strip text
  | None => L "Standard rate"
  end.

(** [extract_service_details]: the entries ['service_type'] and
    ['rate_description'] of the dict it returns. *)
Definition extract_service_details (line : str) : result (option str * str) :=
  t <- first_group 1 service_type_patterns line ;;
  let service_type :=
    match t with
    | Some g => g
    | None => Some (L "standard")
    end in
  Ok (service_type, _extract_rate_description line).

(** [ServiceUsage] with all its fields. *)
Record ServiceUsage : Type := {
  service_category : str;
  service_name : str;
  service_type : option str;
  region : str;
  usage_quantity : PyFloat.float;
  usage_unit : str;
  rate_description : str;
  cost : Dec.dec;
  raw_line : str;
  line_number : nat
}.

(** [quantity or 0.0]. *)
Definition or_zero (quantity : option PyFloat.float) : PyFloat.float :=
  match quantity with
  | Some (S754_zero _) | None => PyFloat.zero
  | Some q => q
  end.

Record scan_state : Type := {
  service_usages : list ServiceUsage;
  total_cost : Dec.dec
}.

Definition scan_init : scan_state :=
  {| service_usages := []; total_cost := Dec.zero |}.

(** One iteration of the loop of [analyze_aws_invoice], all fields
    extracted in the order of the source. *)
Definition scan_line (st : scan_state) (line_num : nat) (line0 : str)
  : result scan_state :=
  let line := strip line0 in
  if Dec.is_nil line || Nat.ltb (List.length line) 10 then Ok st
  else
    c <- Analyzer.extract_cost line ;;
    match c with
    | None => Ok st
    | Some cost_ =>
        if Dec.is_zero cost_ then Ok st
        else
          let (category, confidence) := Analyzer.categorize_service line in
          if PyFloat.flt confidence PyFloat.lit_0_1 then Ok st
          else
            let region_ := extract_region line in
            qu <- extract_usage_quantity_and_unit line ;;
            let (quantity, unit) := qu in
            service_details <- extract_service_details line ;;
            name <- Analyzer._extract_service_name line category ;;
            let usage := {| service_category := category;
                            service_name := name;
                            service_type := fst service_details;
                            region := region_;
                            usage_quantity := or_zero quantity;
                            usage_unit := unit;
                            rate_description := snd service_details;
                            cost := cost_;
                            raw_line := line;
                            line_number := line_num |} in
            Ok {| service_usages := service_usages st ++ [usage];
                  total_cost := Dec.add (total_cost st) cost_ |}
    end.

Fixpoint scan_lines (st : scan_state) (line_num : nat) (lines : list str)
  : result scan_state :=
  match lines with
  | [] => Ok st
  | line :: rest =>
      st' <- scan_line st line_num line ;;
      scan_lines st' (S line_num) rest
  end.

(** The entry as the ledger model of [Analyzer] keeps it. *)
Definition ledger_view (u : ServiceUsage) : Analyzer.ServiceUsage :=
  {| Analyzer.service_category := service_category u;
     Analyzer.service_name := service_name u;
     Analyzer.cost := cost u;
     Analyzer.raw_line := raw_line u;
     Analyzer.line_number := line_number u |}.

Definition state_view (st : scan_state) : Analyzer.scan_state :=
  {| Analyzer.service_usages := map ledger_view (service_usages st);
     Analyzer.total_cost := total_cost st |}.

End AnalyzerFields.

(** ** forensic_extractor.py: the descriptive fields *)

Module ForensicFields.
Import PyStr Rx Fields.

(** The patterns of [_extract_service_type]. *)
Definition type_patterns : list re :=
  [ ec2_instance_type;
    rds_instance_type;
    ebs_volume_type;
    Group 1 (alts [lit (L "Standard"); lit (L "Glacier"); lit (L "Deep Archive")]) ].

(** [_extract_service_type]. *)
Definition _extract_service_type (line : str) : result (option str) :=
  t <- first_group 1 type_patterns line ;;
  match t with
  | Some g => Ok g
  | None => Ok (Some (L "Standard"))
  end.

(** [(Name \([^)]+\))]. *)
Definition region_named (name : string) : re :=
  Group 1 (sequence [lit (L name); OneOf (CLit " "%char); OneOf (CLit "("%char);
                     Plus (CNot (CLit ")"%char)); OneOf (CLit ")"%char)]).

(** The patterns of [_extract_region]. *)
Definition region_patterns : list re :=
  [ region_named "Asia Pacific"; region_named "US East"; region_named "US West";
    region_named "EU"; region_named "Canada"; region_named "South America" ].

(** [_extract_region]. *)
Definition _extract_region (line : str) : result (option str) :=
  r <- first_group 1 region_patterns line ;;
  match r with
  | Some g => Ok g
  | None =>
      if contains (L "Any") line then Ok (Some (L "Any"))
      else Ok (Some (L "Global"))
  end.

(** The patterns of [_extract_usage]. *)
Definition usage_patterns : list re :=
  [ quantity_of (Alt (plural "Hour") (plural "Hr"));
    quantity_of (Alt (lit (L "GB-Mo")) (lit (L "GB-Month")));
    quantity_of (plural "Request");
    quantity_of (alts [lit (L "GB"); lit (L "TB"); lit (L "MB")]);
    quantity_of (plural "Unit");
    quantity_of (plural "Dashboard");
    quantity_of (plural "Alarm");
    quantity_of (plural "vCPU-Hour") ].

(** [_extract_usage]. *)
Definition _extract_usage (line : str)
  : result (PyFloat.float * option str) :=
  r <- first_usage (fun g => Ok g) [ValueError; IndexError] usage_patterns line ;;
  match r with
  | Some qu => Ok qu
  | None => Ok (PyFloat.one, Some (L "Units"))
  end.

(** The patterns of [_extract_rate_description]. *)
Definition rate_patterns : list re :=
  [ sequence (dollar_per ++ [not_U_plus]);
    sequence (usd_per ++ [not_U_plus]);
    sequence [OneOf (CLit "$"%char); number; ws_plus; not_U_plus;
              lit (L "per"); ws_plus; not_U_plus] ].

(** [_extract_rate_description]; the whole match always exists, so the
    [except IndexError] around the search is never entered. *)
Definition _extract_rate_description (line : str) : str :=
  match first_whole rate_patterns line with
  | Some text => strip text
  | None => L "Standard Rate"
  end.

(** A service item with all its entries. *)
Record service_item : Type := {
  service_category : str;
  service_name : str;
  service_type : option str;
  region : option str;
  usage_quantity : PyFloat.float;
  usage_unit : option str;
  rate_description : str;
  cost_usd : PyFloat.float;
  line_text : str;
  line_number : nat
}.

(** [_create_service_item], every extractor called in the order of the
    source. *)
Definition _create_service_item (line : str) (cost : Dec.dec) (line_num : nat)
  : result service_item :=
  let category := Forensic._categorize_service line in
  name <- Forensic._extract_service_name line category ;;
  type_ <- _extract_service_type line ;;
  region_ <- _extract_region line ;;
  usage <- _extract_usage line ;;
  let rate := _extract_rate_description line in
  Ok {| service_category := category;
        service_name := name;
        service_type := type_;
        region := region_;
        usage_quantity := fst usage;
        usage_unit := snd usage;
        rate_description := rate;
        cost_usd := Dec.to_float cost;
        line_text := firstn 100 line;
        line_number := line_num |}.

(** The item as the ledger model of [Forensic] keeps it. *)
Definition ledger_view (it : service_item) : Forensic.service_item :=
  {| Forensic.service_category := service_category it;
     Forensic.service_name := service_name it;
     Forensic.cost_usd := cost_usd it;
     Forensic.line_text := line_text it;
     Forensic.line_number := line_number it |}.

End ForensicFields.

(** ** claude_aws_enhanced.py: the text of a response and region names *)

Module EnhancedText.
Import PyStr.

(** [s.find(needle, start)] on the suffix [s] that begins at [pos]. *)
Fixpoint find_from (needle s : str) (pos : nat) : Z :=
  if starts_with needle s then Z.of_nat pos
  else match s with
       | [] => (-1)%Z
       | _ :: s' => find_from needle s' (S pos)
       end.

(** [hay.find(needle, start)]: the first index at or after [start] where
    [needle] occurs, or -1. *)
Definition find (needle hay : str) (start : nat) : Z :=
  find_from needle (skipn start hay) start.

Fixpoint rfind_from (needle s : str) (pos : nat) : Z :=
  match s with
  | [] => if starts_with needle [] then Z.of_nat pos else (-1)%Z
  | _ :: s' =>
      let later := rfind_from needle s' (S pos) in
      if Z.leb 0 later then later
      else if starts_with needle s then Z.of_nat pos else (-1)%Z
  end.

(** [hay.rfind(needle)]: the last index where [needle] occurs, or -1. *)
Definition rfind (needle hay : str) : Z := rfind_from needle hay 0.

(** [s[a:b]]: a negative bound counts from the end, and both are
    clamped to the text. *)
Definition slice (s : str) (a b : Z) : str :=
  let n := Z.of_nat (List.length s) in
  let bound := fun i : Z => if Z.ltb i 0 then Z.max 0 (i + n) else Z.min i n in
  firstn (Z.to_nat (bound b - bound a)) (skipn (Z.to_nat (bound a)) s).

(** [s.replace(c, by)] for a one-character [c]. *)
Definition replace_char (c : ascii) (by_ : str) (s : str) : str :=
  flat_map (fun x => if chr_eqb x c then by_ else [x]) s.

(** [s.endswith(suffix)]. *)
Definition ends_with (suffix s : str) : bool :=
  starts_with (rev suffix) (rev s).

Definition backtick : ascii := ascii_of_N 96.
(** The opening fence: three backticks and the word json. *)
Definition fence : str := [backtick; backtick; backtick] ++ L "json".
Definition ticks : str := [backtick; backtick; backtick].

(** The cut [json_text] that both [reconcile_missing_costs] and
    [extract_comprehensive_aws_data] take out of [response_text], the
    stripped text of a response: what a fence encloses, else what lies
    between the first opening and the last closing brace, else the text
    as it is.  [reconcile_missing_costs] hands it to [json.loads] as it
    is; [extract_comprehensive_aws_data] cleans and repairs it first,
    see [extraction_json_text]. *)
Definition json_text_of (response_text : str) : str :=
  if contains fence response_text then
    let json_start := (find fence response_text 0 + 7)%Z in
    let json_end := find ticks response_text (Z.to_nat json_start) in
    strip (slice response_text json_start json_end)
  else if contains (L "{") response_text then
    let json_start := find (L "{") response_text 0 in
    let json_end := (rfind (L "}") response_text + 1)%Z in
    slice response_text json_start json_end
  else response_text.

Definition dquote : ascii := ascii_of_N 34.
Definition backslash : ascii := ascii_of_N 92.
Definition carriage_return : ascii := ascii_of_N 13.

(** A literal of the source that holds double quotes, written here with
    an apostrophe for each of them; the literals hold no apostrophe. *)
Definition quoted (s : string) : str :=
  map (fun c => if chr_eqb c "'"%char then dquote else c) (L s).

(** The tail that closes a truncated list of items. *)
Definition closing_document : str :=
  quoted "],'cost_validation':{'calculated_total':0,'invoice_total':3645.60,'difference':0,'validation_passed':false}}".

(** The document that stands in for an answer without a complete item. *)
Definition minimal_document (filename : str) : str :=
  quoted "{'invoice_summary':{'filename':'" ++ filename
  ++ quoted "','total_invoice_amount':3645.60,'currency':'USD','billing_period':'Apr 1 - Apr 30, 2025','total_line_items':0},'service_line_items':[],'cost_validation':{'calculated_total':0,'invoice_total':3645.60,'difference':3645.60,'validation_passed':false}}".

(** "Clean up common JSON issues": line feeds and carriage returns
    become spaces, then every backslash is doubled. *)
Definition clean_json_text (json_text : str) : str :=
  replace_char backslash [backslash; backslash]
    (replace_char carriage_return (L " ")
       (replace_char newline (L " ") json_text)).

(** "Try to fix truncated JSON": a text that does not end with a closing
    brace is cut after its last [dquote] followed by a brace and closed
    with [closing_document], or, when there is none beyond position 0,
    replaced by [minimal_document]. *)
Definition repair_json_text (filename json_text : str) : str :=
  if ends_with (L "}") json_text then json_text
  else
    let last_complete_item := rfind (quoted "'}") json_text in
    if Z.ltb 0 last_complete_item
    then slice json_text 0 (last_complete_item + 2) ++ closing_document
    else minimal_document filename.

(** The text that [extract_comprehensive_aws_data] hands to
    [json.loads]. *)
Definition extraction_json_text (filename response_text : str) : str :=
  repair_json_text filename (clean_json_text (json_text_of response_text)).

(** [region_mapping] of [_standardize_region]. *)
Definition region_mapping : list (str * str) :=
  [ (L "us east (n. virginia)", L "us-east-1");
    (L "us east (ohio)", L "us-east-2");
    (L "us west (n. california)", L "us-west-1");
    (L "us west (oregon)", L "us-west-2");
    (L "eu (ireland)", L "eu-west-1");
    (L "eu (london)", L "eu-west-2");
    (L "eu (paris)", L "eu-west-3");
    (L "eu (frankfurt)", L "eu-central-1");
    (L "asia pacific (mumbai)", L "ap-south-1");
    (L "asia pacific (singapore)", L "ap-southeast-1");
    (L "asia pacific (sydney)", L "ap-southeast-2");
    (L "asia pacific (tokyo)", L "ap-northeast-1");
    (L "asia pacific (seoul)", L "ap-northeast-2");
    (L "canada (central)", L "ca-central-1");
    (L "south america (s" ++ [ascii_of_N 227] ++ L "o paulo)", L "sa-east-1");
    (L "mumbai", L "ap-south-1");
    (L "oregon", L "us-west-2");
    (L "virginia", L "us-east-1");
    (L "global", L "global");
    (L "worldwide", L "global") ].

(** [_standardize_region]. *)
Definition _standardize_region (region : str) : str :=
  let region_lower := strip (lower region) in
  match Analyzer.lookup region_lower region_mapping with
  | Some code_ => code_
  | None => region_lower
  end.

End EnhancedText.

(** ** Declarative reading of the field patterns *)

Module RxSpec.
Import PyStr Rx.

(** The character before the position reached once [p] is read. *)
Definition last_char (prev : option ascii) (p : str) : option ascii :=
  fold_left (fun _ c => Some c) p prev.

(** [matches ic r prev s g prev' s' g']: the pattern can read a prefix
    of [s], leaving [s'], with [prev] before and [prev'] after it, and
    turn the groups [g] into [g'].  Greed and priority are left out:
    every match the engine finds satisfies the relation. *)
Inductive matches (ic : bool)
  : re -> option ascii -> str -> caps -> option ascii -> str -> caps -> Prop :=
| M_OneOf cs c s prev g :
    cset_mem ic cs c = true ->
    matches ic (OneOf cs) prev (c :: s) g (Some c) s g
| M_Star cs p s prev g :
    Forall (fun c => cset_mem ic cs c = true) p ->
    matches ic (Star cs) prev (p ++ s) g (last_char prev p) s g
| M_Plus cs c p s prev g :
    cset_mem ic cs c = true ->
    Forall (fun c => cset_mem ic cs c = true) p ->
    matches ic (Plus cs) prev (c :: p ++ s) g (last_char (Some c) p) s g
| M_Opt_some cs c s prev g :
    cset_mem ic cs c = true ->
    matches ic (Opt cs) prev (c :: s) g (Some c) s g
| M_Opt_none cs s prev g :
    matches ic (Opt cs) prev s g prev s g
| M_Cat a b prev s g prev1 s1 g1 prev2 s2 g2 :
    matches ic a prev s g prev1 s1 g1 ->
    matches ic b prev1 s1 g1 prev2 s2 g2 ->
    matches ic (Cat a b) prev s g prev2 s2 g2
| M_Alt_l a b prev s g prev' s' g' :
    matches ic a prev s g prev' s' g' ->
    matches ic (Alt a b) prev s g prev' s' g'
| M_Alt_r a b prev s g prev' s' g' :
    matches ic b prev s g prev' s' g' ->
    matches ic (Alt a b) prev s g prev' s' g'
| M_Group n a prev s g prev' s' g' :
    matches ic a prev s g prev' s' g' ->
    matches ic (Group n a) prev s g prev' s'
            ((n, firstn (List.length s - List.length s') s) :: g')
| M_WordB prev s g :
    at_boundary prev s = true ->
    matches ic WordB prev s g prev s g
| M_Empty prev s g :
    matches ic Empty prev s g prev s g.

(** Does every match of the pattern go through group [n]? *)
Fixpoint sets (n : nat) (r : re) : bool :=
  match r with
  | Group k a => (Nat.eqb k n || sets n a)%bool
  | Cat a b => (sets n a || sets n b)%bool
  | Alt a b => (sets n a && sets n b)%bool
  | _ => false
  end.

(** A pattern whose groups 1 .. [n] exist and take part in every match. *)
Definition grouped (n : nat) (r : re) : bool :=
  (Nat.leb n (ngroups r) && forallb (fun k => sets k r) (List.seq 1 n))%bool.

(** The lower-cased texts a pattern without repetition can read, when
    it is built from literal characters. *)
Fixpoint words (r : re) : option (list str) :=
  match r with
  | OneOf (CLit c) => Some [[lower_char c]]
  | Opt (CLit c) => Some [[lower_char c]; []]
  | Cat a b =>
      match words a, words b with
      | Some la, Some lb => Some (flat_map (fun x => map (fun y => x ++ y) lb) la)
      | _, _ => None
      end
  | Alt a b =>
      match words a, words b with
      | Some la, Some lb => Some (la ++ lb)
      | _, _ => None
      end
  | Group _ a => words a
  | WordB | Empty => Some [[]]
  | _ => None
  end.

(** The lower-cased texts group [n] of a pattern can hold. *)
Fixpoint group_words (n : nat) (r : re) : option (list str) :=
  match r with
  | Group k a => if Nat.eqb k n then words a else group_words n a
  | Cat a b | Alt a b =>
      match group_words n a, group_words n b with
      | Some la, Some lb => Some (la ++ lb)
      | _, _ => None
      end
  | _ => Some []
  end.

End RxSpec.

(** ** Notions used in the statements *)

Module Props.
Import PyStr.

(** Every keyword of the category counts at least one word. *)
Definition keywords_have_words (p : Analyzer.patterns) : bool :=
  forallb (fun k => Nat.ltb 0 (wordcount k)) (Analyzer.keywords p).

(** The entries of a category, in their order in the ledger. *)
Definition of_category (k : str) (usages : list Analyzer.ServiceUsage)
  : list Analyzer.ServiceUsage :=
  filter (fun u => Analyzer.str_eqb (Analyzer.service_category u) k) usages.

(** Line numbers that increase strictly and lie within [1 .. seen]. *)
Definition numbered_upto (seen : nat) (ns : list nat) : Prop :=
  StronglySorted lt ns /\ Forall (fun n => 1 <= n <= seen) ns.

(** The entry stems from the line whose number it carries: it keeps the
    stripped line, which has ten characters or more, a non-zero amount,
    and the category the classifier gives that line with a confidence of
    0.1 or more. *)
Definition classified_quotes (lines : list str) (u : Analyzer.ServiceUsage)
  : Prop :=
  let line := strip (nth (Analyzer.line_number u - 1) lines []) in
  Analyzer.raw_line u = line
  /\ 10 <= List.length line
  /\ Dec.is_zero (Analyzer.cost u) = false
  /\ Analyzer.service_category u = fst (Analyzer.categorize_service line)
  /\ PyFloat.flt (snd (Analyzer.categorize_service line)) PyFloat.lit_0_1 = false.

(** The forensic item stems from the line whose number it carries: it
    quotes the first hundred characters of the stripped line and files it
    under the category of that line. *)
Definition forensic_quotes (lines : list str) (it : Forensic.service_item)
  : Prop :=
  let line := strip (nth (Forensic.line_number it - 1) lines []) in
  Forensic.line_text it = firstn 100 line
  /\ Forensic.service_category it = Forensic._categorize_service line.

(** [enhanced_data.get('invoice_summary', {}).get('total_invoice_amount')],
    the invoice total the first-pass validation compares with. *)
Definition summary_total (d : Json.dict) : result Json.json :=
  summary <- Json.py_get (Json.JDict d) (L "invoice_summary") (Json.JDict []) ;;
  Json.py_get summary (L "total_invoice_amount") Json.JNull.

(** The keys of a cleaned item, in the order they are written. *)
Definition cleaned_keys : list str :=
  [ L "service_category"; L "service_name"; L "service_type"; L "region";
    L "usage_quantity"; L "usage_unit"; L "rate_description"; L "cost_usd";
    L "line_text" ].

(** [if 'cost_validation' not in d: d['cost_validation'] = {}]. *)
Definition with_validation (d : Json.dict) : Json.dict :=
  match Json.dict_lookup (L "cost_validation") d with
  | Some _ => d
  | None => Json.dict_set (L "cost_validation") (Json.JDict []) d
  end.

(** [t] occurs in [s] as a run of consecutive characters. *)
Definition substring (t s : str) : Prop := exists a b, s = a ++ t ++ b.

(** A result seen through a function on its value. *)
Definition result_map (A B : Type) (f : A -> B) (r : result A) : result B :=
  match r with
  | Ok a => Ok (f a)
  | Raise e => Raise e
  end.

(** The units [extract_usage_quantity_and_unit] can report. *)
Definition analyzer_units : list str :=
  [ L "hour"; L "hours"; L "hr"; L "hrs"; L "gb-mo"; L "gb-month";
    L "request"; L "requests"; L "gb"; L "tb"; L "mb";
    L "instance"; L "instances"; L "vcpu-hour"; L "vcpu-hours";
    L "message"; L "messages"; L "querie"; L "queries";
    L "event"; L "events"; L "notification"; L "notifications" ].

End Props.

Unset Implicit Arguments.

Module ReFacts.
Import PyStr Re ReSpec.

Lemma star_k_sound (R : Type) (ic : bool) (cs : cset) (s : str)
      (k : str -> option R) (x : R) :
  star_k ic cs s k = Some x ->
  exists p s', s = p ++ s' /\
               Forall (fun c => cset_mem ic cs c = true) p /\ k s' = Some x.
Proof.
  induction s as [|c s IH]; simpl; intros H.
  - exists [], []. auto.
  - destruct (cset_mem ic cs c) eqn:Hc.
    + destruct (star_k ic cs s k) as [y|] eqn:Hs.
      * inversion H; subst y.
        destruct (IH eq_refl) as (p & s' & -> & Hp & Hk).
        exists (c :: p), s'. repeat split; auto.
      * exists [], (c :: s). auto.
    + exists [], (c :: s). auto.
Qed.

Lemma match_k_sound (R : Type) (ic : bool) (r : re) :
  forall (s : str) (cap : option str) (k : str -> option str -> option R) (x : R),
    match_k ic r s cap k = Some x ->
    exists s' cap', matches ic r s cap s' cap' /\ k s' cap' = Some x.
Proof.
  induction r as [cs|cs|cs|cs|a IHa b IHb|a IHa b IHb|a IHa| |];
    simpl; intros s cap k x H.
  - destruct s as [|c s]; [discriminate|].
    destruct (cset_mem ic cs c) eqn:Hc; [|discriminate].
    exists s, cap. split; [constructor; assumption|assumption].
  - apply star_k_sound in H. destruct H as (p & s' & -> & Hp & Hk).
    exists s', cap. split; [constructor; assumption|assumption].
  - destruct s as [|c s]; [discriminate|].
    destruct (cset_mem ic cs c) eqn:Hc; [|discriminate].
    apply star_k_sound in H. destruct H as (p & s' & -> & Hp & Hk).
    exists s', cap. split; [constructor; assumption|assumption].
  - destruct s as [|c s].
    + exists [], cap. split; [constructor|assumption].
    + destruct (cset_mem ic cs c) eqn:Hc.
      * destruct (k s cap) as [y|] eqn:Hk.
        -- inversion H; subst y. exists s, cap.
           split; [apply M_Opt_take; assumption|assumption].
        -- exists (c :: s), cap. split; [apply M_Opt_skip|assumption].
      * exists (c :: s), cap. split; [apply M_Opt_skip|assumption].
  - apply IHa in H. destruct H as (s1 & cap1 & Ha & H).
    apply IHb in H. destruct H as (s2 & cap2 & Hb & H).
    exists s2, cap2. split; [econstructor; eassumption|assumption].
  - destruct (match_k ic a s cap k) as [y|] eqn:Ha.
    + inversion H; subst y. apply IHa in Ha.
      destruct Ha as (s' & cap' & Hm & Hk).
      exists s', cap'. split; [apply M_Alt_l; assumption|assumption].
    + apply IHb in H. destruct H as (s' & cap' & Hm & Hk).
      exists s', cap'. split; [apply M_Alt_r; assumption|assumption].
  - apply IHa in H. destruct H as (s' & cap' & Hm & Hk).
    eexists s', _. split; [eapply M_Group; eassumption|assumption].
  - destruct s as [|c [|d s]].
    + exists [], cap. split; [constructor|assumption].
    + destruct (chr_eqb c newline) eqn:Hc; [|discriminate].
      apply Ascii.eqb_eq in Hc. subst c.
      exists [newline], cap. split; [constructor|assumption].
    + discriminate.
  - exists s, cap. split; [constructor|assumption].
Qed.

Lemma match_here_sound (ic : bool) (r : re) (s : str) (m : rmatch) :
  match_here ic r s = Some m ->
  matches ic r s None (m_rest m) (m_group1 m).
Proof.
  unfold match_here. intros H. apply match_k_sound in H.
  destruct H as (s' & cap' & Hm & Hk). inversion Hk; subst m. exact Hm.
Qed.

Lemma search_sound (ic : bool) (r : re) (s : str) (m : rmatch) :
  search ic r s = Some m ->
  exists pre s0, s = pre ++ s0 /\ matches ic r s0 None (m_rest m) (m_group1 m).
Proof.
  induction s as [|c s IH]; simpl; intros H.
  - destruct (match_here ic r []) as [m'|] eqn:Hm; [|discriminate].
    inversion H; subst m'. exists [], []. split; [reflexivity|].
    apply match_here_sound. assumption.
  - destruct (match_here ic r (c :: s)) as [m'|] eqn:Hm.
    + inversion H; subst m'. exists [], (c :: s). split; [reflexivity|].
      apply match_here_sound. assumption.
    + destruct (IH H) as (pre & s0 & -> & Hs).
      exists (c :: pre), s0. split; [reflexivity|assumption].
Qed.

(** A match consumes a prefix made of characters of the pattern. *)
Lemma matches_split (ic : bool) (r : re) (s : str) (cap : option str)
      (s' : str) (cap' : option str) :
  matches ic r s cap s' cap' ->
  exists p, s = p ++ s' /\ Forall (fun c => alpha ic r c = true) p.
Proof.
  induction 1; simpl.
  - exists [c]. split; [reflexivity|]. constructor; auto.
  - exists p. split; [reflexivity|assumption].
  - exists (c :: p). split; [reflexivity|]. constructor; assumption.
  - exists [c]. split; [reflexivity|]. constructor; auto.
  - exists []. split; [reflexivity|constructor].
  - destruct IHmatches1 as (p1 & -> & H1). destruct IHmatches2 as (p2 & -> & H2).
    exists (p1 ++ p2). split; [rewrite app_assoc; reflexivity|].
    apply Forall_app. split; eapply Forall_impl; try eassumption;
      simpl; intros c Hc; rewrite Hc; auto using orb_true_r.
  - destruct IHmatches as (p & -> & Hp). exists p. split; [reflexivity|].
    eapply Forall_impl; try eassumption. simpl. intros c Hc. rewrite Hc. reflexivity.
  - destruct IHmatches as (p & -> & Hp). exists p. split; [reflexivity|].
    eapply Forall_impl; try eassumption. simpl. intros c Hc. rewrite Hc.
    apply orb_true_r.
  - assumption.
  - exists []. split; [reflexivity|constructor].
  - exists []. split; [reflexivity|constructor].
  - exists []. split; [reflexivity|constructor].
Qed.

Lemma firstn_consumed (p s' : str) :
  firstn (List.length (p ++ s') - List.length s') (p ++ s') = p.
Proof.
  rewrite length_app.
  replace (List.length p + List.length s' - List.length s') with (List.length p + 0) by lia.
  rewrite firstn_app_2. simpl. apply app_nil_r.
Qed.


(** Captured text is made of characters the groups can consume. *)
Lemma matches_group_alpha (Q : ascii -> Prop) (ic : bool) (r : re) (s : str)
      (cap : option str) (s' : str) (cap' : option str) :
  matches ic r s cap s' cap' ->
  (forall c, group_alpha ic r c = true -> Q c) ->
  cap_all Q cap -> cap_all Q cap'.
Proof.
  induction 1; simpl; intros HQ Hcap; auto.
  - apply IHmatches2; [|apply IHmatches1; auto].
    + intros c Hc. apply HQ. rewrite Hc. apply orb_true_r.
    + intros c Hc. apply HQ. rewrite Hc. reflexivity.
  - apply IHmatches; auto. intros c Hc. apply HQ. rewrite Hc. reflexivity.
  - apply IHmatches; auto. intros c Hc. apply HQ. rewrite Hc. apply orb_true_r.
  - destruct (matches_split _ _ _ _ _ _ H) as (p & -> & Hp).
    rewrite firstn_consumed. eapply Forall_impl; [|exact Hp].
    simpl. intros c Hc. apply HQ. rewrite Hc. reflexivity.
Qed.

(** A set capture stays set, and a pattern that always goes through a
    group sets it. *)
Lemma matches_sets_group (ic : bool) (r : re) (s : str) (cap : option str)
      (s' : str) (cap' : option str) :
  matches ic r s cap s' cap' ->
  (sets_group r = true \/ cap <> None) -> cap' <> None.
Proof.
  induction 1; simpl; intros [Hg|Hc]; try discriminate; auto.
  - apply orb_true_iff in Hg. destruct Hg as [Hg|Hg]; auto.
  - apply andb_true_iff in Hg. tauto.
  - apply andb_true_iff in Hg. tauto.
Qed.

End ReFacts.

Module CostFacts.
Import PyStr Re ReSpec ReFacts.

Lemma Decimal_of_str_raises_only (s : str) (e : exn) :
  Dec.Decimal_of_str s = Raise e -> e = InvalidOperation.
Proof.
  unfold Dec.Decimal_of_str.
  destruct (Dec.span_digits s) as [ip r].
  destruct r as [|c r'].
  - destruct (Dec.is_nil ip); congruence.
  - destruct (chr_eqb c "."%char); [|congruence].
    destruct (Dec.span_digits r') as [fp r''].
    destruct (Dec.is_nil r'' && negb (Dec.is_nil ip && Dec.is_nil fp))%bool;
      congruence.
Qed.







Lemma search_grouped (p : re) (line : str) (m : rmatch) :
  grouped p = true -> search true p line = Some m ->
  exists g, m_group1 m = Some g /\ group1 p m = Ok (Some g).
Proof.
  unfold grouped. intros Hg Hs. apply andb_true_iff in Hg. destruct Hg as [Hn Hsg].
  apply search_sound in Hs. destruct Hs as (pre & s0 & _ & Hm).
  pose proof (matches_sets_group _ _ _ _ _ _ Hm (or_introl Hsg)) as Hc.
  destruct (m_group1 m) as [g|] eqn:Hg1; [|congruence].
  exists g. split; [reflexivity|]. unfold group1.
  destruct (ngroups p); [discriminate|]. rewrite Hg1. reflexivity.
Qed.

(** One round of the loop against the reference reading. *)
Lemma try_pattern_spec (p : re) (line : str) :
  grouped p = true ->
  match Analyzer.try_pattern p line with
  | None => Spec.parsed_amount p line = None
  | Some (Ok d) => Spec.parsed_amount p line = Some d
  | Some (Raise e) => e = InvalidOperation /\ Spec.parsed_amount p line = None
  end.
Proof.
  intros Hg. unfold Analyzer.try_pattern, Spec.parsed_amount.
  destruct (search true p line) as [m|] eqn:Hs; [|reflexivity].
  destruct (search_grouped _ _ _ Hg Hs) as (g & Hg1 & Hg2).
  rewrite Hg1, Hg2. simpl.
  destruct (Dec.Decimal_of_str (remove_char ","%char g)) as [d|e] eqn:Hd.
  - reflexivity.
  - split; [|reflexivity]. eapply Decimal_of_str_raises_only; eassumption.
Qed.

(** The loop with its [except] clause computes the reference reading. *)
Lemma first_cost_refines (handled : list exn) (ps : list re) (line : str) :
  caught handled InvalidOperation = true ->
  forallb grouped ps = true ->
  Analyzer.first_cost handled ps line = Ok (Spec.first_parsed ps line).
Proof.
  intros Hh. induction ps as [|p ps IH]; simpl; intros Hg; [reflexivity|].
  apply andb_true_iff in Hg. destruct Hg as [Hp Hps].
  pose proof (try_pattern_spec p line Hp) as Ht.
  destruct (Analyzer.try_pattern p line) as [[d|e]|].
  - rewrite Ht. reflexivity.
  - destruct Ht as [-> Ht]. rewrite Hh, Ht. apply IH. assumption.
  - rewrite Ht. apply IH. assumption.
Qed.


Lemma extract_cost_refines (line : str) :
  Analyzer.extract_cost line = Ok (Spec.first_parsed Analyzer.cost_patterns line).
Proof. apply first_cost_refines; reflexivity. Qed.

Lemma forensic_cost_refines (line : str) :
  Forensic._extract_cost_from_line line
  = Ok (Spec.first_parsed Forensic.cost_patterns line).
Proof. apply first_cost_refines; reflexivity. Qed.

Lemma find_invoice_total_refines (text : str) :
  Forensic._find_invoice_total text
  = Ok (match Spec.first_parsed Forensic.total_patterns text with
        | Some d => d
        | None => Forensic.fallback_total
        end).
Proof.
  unfold Forensic._find_invoice_total.
  rewrite first_cost_refines by reflexivity. unfold bind.
  destruct (Spec.first_parsed Forensic.total_patterns text); reflexivity.
Qed.

Lemma all_ascii_complete (c : ascii) : List.In c all_ascii.
Proof.
  unfold all_ascii. rewrite <- (ascii_nat_embedding c).
  apply in_map. apply in_seq. pose proof (nat_ascii_bounded c). lia.
Qed.

(** A property of characters checked on all 256 of them. *)
Lemma forall_ascii (P : ascii -> bool) :
  forallb P all_ascii = true -> forall c, P c = true.
Proof.
  intros H c. rewrite forallb_forall in H. apply H. apply all_ascii_complete.
Qed.

(** A cost group holds digits, commas and dots only. *)
Lemma cost_group_chars (p : re) (line : str) (m : rmatch) (g : str) :
  List.In p all_cost_patterns ->
  search true p line = Some m -> m_group1 m = Some g ->
  forallb amount_char g = true.
Proof.
  intros Hp Hs Hg. apply search_sound in Hs. destruct Hs as (pre & s0 & _ & Hm).
  assert (Hall : forallb (fun q =>
            forallb (fun c => implb (group_alpha true q c) (amount_char c))
                    all_ascii) all_cost_patterns = true) by (vm_compute; reflexivity).
  rewrite forallb_forall in Hall. specialize (Hall p Hp).
  assert (HQ : forall c, group_alpha true p c = true -> amount_char c = true).
  { intros c Hc. pose proof (forall_ascii _ Hall c) as Hi. simpl in Hi.
    rewrite Hc in Hi. exact Hi. }
  pose proof (matches_group_alpha (fun c => amount_char c = true) _ _ _ _ _ _ Hm HQ I) as Hc.
  rewrite Hg in Hc. simpl in Hc. apply forallb_forall. apply Forall_forall. exact Hc.
Qed.

End CostFacts.

(** * Cost extraction (LineCostParser) *)

(** The priority order decides, not the position in the line: the amount
    after the currency code wins over an earlier one after the symbol. *)
Example extract_cost_code_before_symbol :
  Analyzer.extract_cost (PyStr.L "$5 USD 7")
  = Ok (Some {| Dec.sign := false; Dec.coeff := 7; Dec.expo := 0 |}).
Proof. vm_compute. reflexivity. Qed.

Example extract_cost_symbol_before_suffix :
  Analyzer.extract_cost (PyStr.L "12 USD $3")
  = Ok (Some {| Dec.sign := false; Dec.coeff := 3; Dec.expo := 0 |}).
Proof. vm_compute. reflexivity. Qed.

Example extract_cost_suffix_before_label :
  Analyzer.extract_cost (PyStr.L "Cost: 4 and 9 USD")
  = Ok (Some {| Dec.sign := false; Dec.coeff := 9; Dec.expo := 0 |}).
Proof. vm_compute. reflexivity. Qed.

Example extract_cost_thousands :
  Analyzer.extract_cost (PyStr.L "Total: $1,234.50")
  = Ok (Some {| Dec.sign := false; Dec.coeff := 123450; Dec.expo := -2 |}).
Proof. vm_compute. reflexivity. Qed.

(** A match that is no decimal is passed over, and the next pattern is
    tried. *)
Example extract_cost_skips_unparsable :
  Analyzer.extract_cost (PyStr.L "USD , $8")
  = Ok (Some {| Dec.sign := false; Dec.coeff := 8; Dec.expo := 0 |}).
Proof. vm_compute. reflexivity. Qed.



(** * The classifier (ServiceClassifier) *)

Module ClassifierFacts.
Import PyStr.
Local Open Scope Z_scope.

(** A conditional accumulation from the left is the initial value plus
    the sum of the contributions. *)
Lemma fold_left_cond_sum (A : Type) (test : A -> bool) (w : A -> Z) (l : list A) :
  forall acc,
    fold_left (fun s x => if test x then s + w x else s) l acc
    = acc + Spec.Zsum (map (fun x => if test x then w x else 0) l).
Proof.
  induction l as [|x l IH]; simpl; intros acc; [lia|].
  rewrite IH. destruct (test x); lia.
Qed.

Lemma score_is_ref_score (p : Analyzer.patterns) (line : str) :
  Analyzer.score p (lower line) = Spec.ref_score p line.
Proof.
  unfold Analyzer.score, Spec.ref_score, Spec.found.
  rewrite (fold_left_cond_sum _ (fun u => contains (lower u) (lower line))
                              (fun _ => 1)).
  rewrite (fold_left_cond_sum _ (fun k => contains (lower k) (lower line))
                              (fun k => Z.of_nat (wordcount k) * 2)).
  rewrite Z.add_0_l. f_equal. f_equal. apply map_ext. intros k.
  destruct (contains (lower k) (lower line)); lia.
Qed.

Lemma Zsum_cond_le (A : Type) (test : A -> bool) (w : A -> Z) (l : list A) :
  (forall x, 0 <= w x) ->
  0 <= Spec.Zsum (map (fun x => if test x then w x else 0) l)
       <= Spec.Zsum (map w l).
Proof.
  intros Hw. induction l as [|x l IH]; simpl; [lia|].
  specialize (Hw x). destruct (test x); lia.
Qed.

Lemma Zsum_ones (A : Type) (l : list A) :
  Spec.Zsum (map (fun _ => 1) l) = Z.of_nat (List.length l).
Proof.
  induction l as [|x l IH]; [reflexivity|].
  change (1 + Spec.Zsum (map (fun _ : A => 1) l) = Z.of_nat (S (List.length l))).
  rewrite IH. lia.
Qed.

(** A score is never negative and never above the weight of the category. *)
Lemma ref_score_bounds (p : Analyzer.patterns) (line : str) :
  0 <= Spec.ref_score p line <= Spec.weight p.
Proof.
  unfold Spec.ref_score, Spec.weight.
  pose proof (Zsum_cond_le _ (fun k => Spec.found k line)
                (fun k => 2 * Z.of_nat (wordcount k)) (Analyzer.keywords p)) as Hk.
  pose proof (Zsum_cond_le _ (fun u => Spec.found u line)
                (fun _ => 1) (Analyzer.units p)) as Hu.
  rewrite Zsum_ones in Hu.
  assert (forall x : str, 0 <= 2 * Z.of_nat (wordcount x)) by (intros; lia).
  assert (forall x : str, 0 <= 1) by (intros; lia).
  specialize (Hk H). specialize (Hu H0). lia.
Qed.

Section Catalog.
Variable catalog : list (str * Analyzer.patterns).
Variable line : str.


Lemma category_scores_filter (cat : list (str * Analyzer.patterns)) :
  Analyzer.category_scores cat (lower line) = filter Spec.positive ((Spec.scored line) cat).
Proof.
  induction cat as [|[n p] cat IH]; simpl; [reflexivity|].
  rewrite score_is_ref_score, IH.
  change (Spec.positive (n, Spec.ref_score p line))
    with (0 <? Spec.ref_score p line).
  destruct (0 <? Spec.ref_score p line); reflexivity.
Qed.

Lemma lmax_ge_base (b : Z) (l : list Z) : b <= Spec.lmax b l.
Proof. induction l as [|x l IH]; simpl; lia. Qed.

Lemma lmax_raise (b x : Z) (l : list Z) :
  b <= x -> Z.max x (Spec.lmax b l) = Spec.lmax x l.
Proof. intros H. induction l as [|y l IH]; simpl; lia. Qed.

(** Python's [max] with a key: the first element whose key is the
    largest. *)
Lemma max_by_score_first (rest : list (str * Z)) :
  forall best : str * Z,
    find (fun x => snd x =? Spec.lmax (snd best) (map snd rest)) (best :: rest)
    = Some (Analyzer.max_by_score best rest).
Proof.
  unfold Analyzer.max_by_score.
  induction rest as [|it r IH]; intros best.
  - simpl. rewrite Z.eqb_refl. reflexivity.
  - simpl fold_left. simpl map.
    change (Spec.lmax (snd best) (snd it :: map snd r))
      with (Z.max (snd it) (Spec.lmax (snd best) (map snd r))).
    destruct (snd best <? snd it) eqn:Hlt.
    + apply Z.ltb_lt in Hlt. rewrite <- IH.
      rewrite (lmax_raise (snd best) (snd it)) by lia.
      pose proof (lmax_ge_base (snd it) (map snd r)) as Hge.
      change (find ?f (best :: ?l)) with (if f best then Some best else find f l).
      cbv beta.
      destruct (snd best =? Spec.lmax (snd it) (map snd r)) eqn:Hb;
        [apply Z.eqb_eq in Hb; lia|reflexivity].
    + apply Z.ltb_ge in Hlt. rewrite <- IH.
      pose proof (lmax_ge_base (snd best) (map snd r)) as Hge.
      replace (Z.max (snd it) (Spec.lmax (snd best) (map snd r)))
        with (Spec.lmax (snd best) (map snd r)) by lia.
      simpl find.
      destruct (snd best =? Spec.lmax (snd best) (map snd r)) eqn:Hb;
        [reflexivity|].
      apply Z.eqb_neq in Hb.
      destruct (snd it =? Spec.lmax (snd best) (map snd r)) eqn:Hi;
        [apply Z.eqb_eq in Hi; lia|reflexivity].
Qed.

Lemma lmax_filter_positive (l : list (str * Z)) :
  Spec.lmax 0 (map snd (filter Spec.positive l)) = Spec.lmax 0 (map snd l).
Proof.
  induction l as [|x l IH]; simpl; [reflexivity|].
  unfold Spec.positive at 1. destruct (0 <? snd x) eqn:Hx; simpl; rewrite IH.
  - reflexivity.
  - apply Z.ltb_ge in Hx. pose proof (lmax_ge_base 0 (map snd l)). lia.
Qed.

Lemma find_filter_positive (M : Z) (l : list (str * Z)) :
  0 < M ->
  find (fun x => snd x =? M) (filter Spec.positive l) = find (fun x => snd x =? M) l.
Proof.
  intros HM. induction l as [|x l IH]; simpl; [reflexivity|].
  unfold Spec.positive at 1. destruct (0 <? snd x) eqn:Hx; simpl; rewrite IH.
  - reflexivity.
  - apply Z.ltb_ge in Hx.
    destruct (snd x =? M) eqn:He; [apply Z.eqb_eq in He; lia|reflexivity].
Qed.

Lemma filter_positive_nil (l : list (str * Z)) :
  filter Spec.positive l = [] -> Spec.lmax 0 (map snd l) = 0.
Proof.
  induction l as [|x l IH]; simpl; [reflexivity|].
  unfold Spec.positive at 1. destruct (0 <? snd x) eqn:Hx; [discriminate|].
  intros H. apply Z.ltb_ge in Hx. rewrite (IH H). lia.
Qed.

Lemma find_scored (M : Z) (cat : list (str * Analyzer.patterns)) :
  find (fun x => snd x =? M) ((Spec.scored line) cat)
  = option_map (fun cp => (fst cp, Spec.ref_score (snd cp) line))
               (find (fun cp => Spec.ref_score (snd cp) line =? M) cat).
Proof.
  induction cat as [|[n p] cat IH]; simpl; [reflexivity|].
  destruct (Spec.ref_score p line =? M); [reflexivity|exact IH].
Qed.

Lemma ref_top_scored : Spec.ref_top catalog line = Spec.lmax 0 (map snd ((Spec.scored line) catalog)).
Proof.
  unfold Spec.ref_top, Spec.scored, Spec.lmax. rewrite map_map. reflexivity.
Qed.

(** The category chosen by the running maximum is the first one of the
    catalog that reaches the highest score. *)
Lemma categorize_with_ref :
  fst (Analyzer.categorize_with catalog line) = fst (Spec.classify_ref catalog line)
  /\ snd (Analyzer.categorize_with catalog line)
     = (if Spec.ref_top catalog line <=? 0 then PyFloat.zero
        else Analyzer.confidence_of (Spec.ref_top catalog line))
  /\ snd (Spec.classify_ref catalog line)
     = (if Spec.ref_top catalog line <=? 0 then PyFloat.zero
        else Spec.ref_confidence (Spec.ref_top catalog line)).
Proof.
  unfold Analyzer.categorize_with, Spec.classify_ref.
  rewrite category_scores_filter, ref_top_scored.
  pose proof (lmax_filter_positive (Spec.scored line catalog)) as Hmax.
  destruct (filter Spec.positive (Spec.scored line catalog))
    as [|first rest] eqn:Hf.
  - rewrite (filter_positive_nil _ Hf). simpl. auto.
  - set (M := Spec.lmax 0 (map snd (Spec.scored line catalog))) in *.
    assert (Hpos : 0 < snd first).
    { assert (Hin : List.In first (filter Spec.positive (Spec.scored line catalog)))
        by (rewrite Hf; left; reflexivity).
      apply filter_In in Hin. destruct Hin as [_ Hp]. apply Z.ltb_lt. exact Hp. }
    assert (HM : Spec.lmax (snd first) (map snd rest) = M).
    { rewrite <- Hmax. simpl map.
      change (Spec.lmax 0 (snd first :: map snd rest))
        with (Z.max (snd first) (Spec.lmax 0 (map snd rest))).
      symmetry. apply lmax_raise. lia. }
    assert (HMpos : 0 < M)
      by (pose proof (lmax_ge_base (snd first) (map snd rest)); lia).
    destruct (M <=? 0) eqn:HM0; [apply Z.leb_le in HM0; lia|].
    pose proof (find_filter_positive M (Spec.scored line catalog) HMpos) as Hfind.
    rewrite Hf, find_scored in Hfind.
    pose proof (max_by_score_first rest first) as Hbest.
    rewrite HM, Hfind in Hbest.
    destruct (find (fun cp => Spec.ref_score (snd cp) line =? M) catalog)
      as [cp|] eqn:Hcp; [|discriminate].
    simpl in Hbest. injection Hbest as Hb. cbv zeta. rewrite <- Hb. simpl.
    apply find_some in Hcp. destruct Hcp as [_ Hcp]. apply Z.eqb_eq in Hcp.
    rewrite Hcp. auto.
Qed.

End Catalog.

(** No category of the catalog can score more than 87. *)
Lemma ref_top_bounds (line : str) :
  0 <= Spec.ref_top Analyzer.service_patterns line <= 87.
Proof.
  unfold Spec.ref_top.
  assert (Hw : forallb (fun cp => Spec.weight (snd cp) <=? 87)
                       Analyzer.service_patterns = true)
    by (vm_compute; reflexivity).
  rewrite forallb_forall in Hw.
  induction Analyzer.service_patterns as [|cp cat IH]; simpl; [lia|].
  assert (Hcp : Spec.weight (snd cp) <= 87)
    by (apply Z.leb_le; apply Hw; left; reflexivity).
  pose proof (ref_score_bounds (snd cp) line).
  assert (IH' : 0 <=
                fold_right Z.max 0 (map (fun cp0 => Spec.ref_score (snd cp0) line) cat)
                <= 87) by (apply IH; intros x Hx; apply Hw; right; exact Hx).
  lia.
Qed.

(** On every score the catalog can produce, the confidence computed in
    floats is the nearest float to min(score/10, 1), within [0, 1]. *)
Lemma confidence_ok_upto_87 (s : Z) :
  0 < s <= 87 -> Spec.confidence_ok s = true.
Proof.
  intros Hs.
  assert (Hall : forallb Spec.confidence_ok (Spec.Zrange 87) = true)
    by (vm_compute; reflexivity).
  rewrite forallb_forall in Hall. apply Hall.
  unfold Spec.Zrange. apply in_map_iff. exists (Z.to_nat s).
  split; [lia|]. apply in_seq. lia.
Qed.

Lemma confidence_ok_elim (s : Z) :
  Spec.confidence_ok s = true ->
  Analyzer.confidence_of s = Spec.ref_confidence s
  /\ PyFloat.fle PyFloat.zero (Analyzer.confidence_of s) = true
  /\ PyFloat.fle (Analyzer.confidence_of s) PyFloat.one = true.
Proof.
  unfold Spec.confidence_ok. intros H.
  apply andb_true_iff in H. destruct H as [H H1].
  apply andb_true_iff in H. destruct H as [H H0].
  split; [|split; assumption].
  destruct (Analyzer.confidence_of s) as [ | | |s1 m1 e1]; try discriminate.
  destruct (Spec.ref_confidence s) as [ | | |s2 m2 e2]; try discriminate.
  apply andb_true_iff in H. destruct H as [H He].
  apply andb_true_iff in H. destruct H as [Hs Hm].
  apply Bool.eqb_prop in Hs. apply Pos.eqb_eq in Hm. apply Z.eqb_eq in He.
  subst. reflexivity.
Qed.

End ClassifierFacts.

(** The example of the specification: an EC2 line. *)
Example categorize_ec2_line :
  fst (Analyzer.categorize_service
         (PyStr.L "Amazon Elastic Compute Cloud t3a.small USD 9.15"))
  = PyStr.L "EC2"
  /\ Analyzer.extract_cost
       (PyStr.L "Amazon Elastic Compute Cloud t3a.small USD 9.15")
     = Ok (Some {| Dec.sign := false; Dec.coeff := 915; Dec.expo := -2 |}).
Proof. vm_compute. split; reflexivity. Qed.

(** A tie: "snapshot" scores 2 for RDS and for EBS; RDS is declared first. *)
Example categorize_tie_goes_to_earlier :
  Spec.ref_score
    {| Analyzer.keywords := [PyStr.L "snapshot"]; Analyzer.units := [] |}
    (PyStr.L "Snapshot") = 2%Z
  /\ fst (Analyzer.categorize_service (PyStr.L "Snapshot")) = PyStr.L "RDS".
Proof. vm_compute. split; reflexivity. Qed.

(** C5 — For every line the classifier equals the reference definition:
    per category, score = sum of 2 x wordcount over the keywords found
    case-insensitively as substrings, plus 1 per unit found (units are
    looked up the same case-insensitive way); ('Other', 0.0) when no
    category scores; otherwise the highest-scoring category, the earlier
    one in the catalog on a tie, with confidence min(score/10, 1.0), which
    lies in [0, 1]. *)
Theorem categorize_service_is_reference :
  forall line : PyStr.str,
    Analyzer.categorize_service line
    = Spec.classify_ref Analyzer.service_patterns line
    /\ PyFloat.fle PyFloat.zero (snd (Analyzer.categorize_service line)) = true
    /\ PyFloat.fle (snd (Analyzer.categorize_service line)) PyFloat.one = true.
Proof.
  intros line. unfold Analyzer.categorize_service.
  destruct (ClassifierFacts.categorize_with_ref Analyzer.service_patterns line)
    as (Hfst & Hsnd & Href).
  pose proof (ClassifierFacts.ref_top_bounds line) as Hb.
  destruct (Spec.ref_top Analyzer.service_patterns line <=? 0)%Z eqn:Htop.
  - split; [|rewrite Hsnd; split; reflexivity].
    rewrite (surjective_pairing (Analyzer.categorize_with _ _)).
    rewrite (surjective_pairing (Spec.classify_ref _ _)).
    rewrite Hfst, Hsnd, Href. reflexivity.
  - apply Z.leb_gt in Htop.
    destruct (ClassifierFacts.confidence_ok_elim _
                (ClassifierFacts.confidence_ok_upto_87 _ (conj Htop (proj2 Hb))))
      as (Heq & H0 & H1).
    split; [|rewrite Hsnd; split; assumption].
    rewrite (surjective_pairing (Analyzer.categorize_with _ _)).
    rewrite (surjective_pairing (Spec.classify_ref _ _)).
    rewrite Hfst, Hsnd, Href, Heq. reflexivity.
Qed.

(** * The two ledger builders *)

Module ScanFacts.
Import PyStr.

Lemma dec_sum_snoc (l : list Dec.dec) (c : Dec.dec) :
  Spec.dec_sum (l ++ [c]) = Dec.add (Spec.dec_sum l) c.
Proof. unfold Spec.dec_sum. rewrite fold_left_app. reflexivity. Qed.

(** Line [length pre + 1] of [pre ++ line :: rest] is [line]. *)
Lemma nth_middle_line (pre rest : list str) (line : str) :
  nth (S (List.length pre) - 1) (pre ++ line :: rest) [] = line.
Proof.
  replace (S (List.length pre) - 1) with (List.length pre) by lia.
  rewrite app_nth2 by lia. rewrite Nat.sub_diag. reflexivity.
Qed.

(** ** Forensic mode *)

Lemma forensic_inv_weaken (lines : list str) (seen : nat) (st : Forensic.scan_state) :
  Spec.forensic_inv lines seen st -> Spec.forensic_inv lines (S seen) st.
Proof.
  intros [Hi Ht]. split; [|exact Ht].
  eapply Forall_impl; [|exact Hi]. simpl. intros it [Hn Hc]. split; [lia|exact Hc].
Qed.

Lemma forensic_scan_line_inv (pre rest : list str) (line : str)
      (st : Forensic.scan_state) :
  Spec.forensic_inv (pre ++ line :: rest) (List.length pre) st ->
  exists st',
    Forensic.scan_line st (S (List.length pre)) line = Ok st'
    /\ Spec.forensic_inv (pre ++ line :: rest) (S (List.length pre)) st'.
Proof.
  intros Hinv. unfold Forensic.scan_line.
  destruct (Dec.is_nil (strip line));
    [exists st; split; [reflexivity|apply forensic_inv_weaken; exact Hinv]|].
  rewrite CostFacts.forensic_cost_refines. unfold bind.
  destruct (Spec.first_parsed Forensic.cost_patterns (strip line)) as [c|] eqn:Hc;
    [|exists st; split; [reflexivity|apply forensic_inv_weaken; exact Hinv]].
  destruct (Forensic._create_service_item (strip line) c (S (List.length pre)))
    as [it|e] eqn:Hit;
    [|exists st; split; [reflexivity|apply forensic_inv_weaken; exact Hinv]].
  eexists. split; [reflexivity|].
  assert (Hnum : Forensic.line_number it = S (List.length pre)
                 /\ Forensic.cost_usd it = Dec.to_float c).
  { unfold Forensic._create_service_item, bind in Hit.
    destruct (Forensic._extract_service_name _ _); [|discriminate].
    inversion Hit; subst it. simpl. auto. }
  destruct Hnum as [Hn Hf].
  destruct (forensic_inv_weaken _ _ _ Hinv) as [Hi Ht].
  split; cbn [Forensic.service_items Forensic.total_extracted].
  - apply Forall_app. split; [exact Hi|]. constructor; [|constructor].
    rewrite Hn, nth_middle_line. split; [lia|]. exists c. split; assumption.
  - rewrite map_app. cbn [map]. rewrite dec_sum_snoc.
    rewrite Hn, nth_middle_line, Hc. cbn [Spec.or_zero]. rewrite Ht. reflexivity.
Qed.

Lemma forensic_scan_lines_inv (rest : list str) :
  forall (pre : list str) (st : Forensic.scan_state),
    Spec.forensic_inv (pre ++ rest) (List.length pre) st ->
    exists st',
      Forensic.scan_lines st (S (List.length pre)) rest = Ok st'
      /\ Spec.forensic_inv (pre ++ rest) (List.length (pre ++ rest)) st'.
Proof.
  induction rest as [|line rest IH]; intros pre st Hinv; simpl.
  - exists st. split; [reflexivity|]. rewrite app_nil_r in *. exact Hinv.
  - destruct (forensic_scan_line_inv pre rest line st Hinv) as (st1 & -> & H1).
    simpl. specialize (IH (pre ++ [line]) st1).
    rewrite <- app_assoc in IH. simpl in IH.
    rewrite length_app in IH. simpl in IH. rewrite Nat.add_1_r in IH.
    apply IH. exact H1.
Qed.

(** The forensic scan of a whole text never raises and ends in a state
    that satisfies the invariant. *)
Lemma forensic_scan_text (text : str) :
  exists st,
    Forensic.scan_lines Forensic.scan_init 1 (split_on newline text) = Ok st
    /\ Spec.forensic_inv (split_on newline text)
                    (List.length (split_on newline text)) st.
Proof.
  apply (forensic_scan_lines_inv (split_on newline text) []).
  split; [constructor|reflexivity].
Qed.

(** [extract_all_costs_forensic] always returns, and its summary is built
    from an invariant state and the total that was found or defaulted. *)
Lemma forensic_returns (text : str) :
  exists st,
    Spec.forensic_inv (split_on newline text)
                 (List.length (split_on newline text)) st
    /\ Forensic.extract_all_costs_forensic text
       = Ok (Forensic.summarize
               (match Spec.first_parsed Forensic.total_patterns text with
                | Some d => d
                | None => Forensic.fallback_total
                end) st).
Proof.
  destruct (forensic_scan_text text) as (st & Hs & Hinv).
  exists st. split; [exact Hinv|].
  unfold Forensic.extract_all_costs_forensic.
  rewrite CostFacts.find_invoice_total_refines, Hs. reflexivity.
Qed.

(** ** Classified mode *)

Lemma classified_scan_line_inv (st st' : Analyzer.scan_state) (n : nat) (line : str) :
  Spec.classified_inv st -> Analyzer.scan_line st n line = Ok st' ->
  Spec.classified_inv st'.
Proof.
  intros Hinv. unfold Analyzer.scan_line.
  destruct (Dec.is_nil (strip line) || (List.length (strip line) <? 10))%bool;
    [intros H; inversion H; subst; exact Hinv|].
  rewrite CostFacts.extract_cost_refines. unfold bind.
  destruct (Spec.first_parsed Analyzer.cost_patterns (strip line)) as [c|] eqn:Hc;
    [|intros H; inversion H; subst; exact Hinv].
  destruct (Dec.is_zero c); [intros H; inversion H; subst; exact Hinv|].
  destruct (Analyzer.categorize_service (strip line)) as [category confidence].
  destruct (PyFloat.flt confidence PyFloat.lit_0_1);
    [intros H; inversion H; subst; exact Hinv|].
  destruct (Analyzer._extract_service_name (strip line) category) as [name|e];
    [|discriminate].
  intros H; inversion H; subst st'; clear H.
  destruct Hinv as [Hi Ht].
  split; cbn [Analyzer.service_usages Analyzer.total_cost].
  - apply Forall_app. split; [exact Hi|]. constructor; [exact Hc|constructor].
  - rewrite map_app. cbn [map Analyzer.cost]. rewrite dec_sum_snoc, Ht. reflexivity.
Qed.

Lemma classified_scan_lines_inv (lines : list str) :
  forall (st st' : Analyzer.scan_state) (n : nat),
    Spec.classified_inv st -> Analyzer.scan_lines st n lines = Ok st' ->
    Spec.classified_inv st'.
Proof.
  induction lines as [|line rest IH]; intros st st' n Hinv; simpl.
  - intros H; inversion H; subst; exact Hinv.
  - destruct (Analyzer.scan_line st n line) as [st1|e] eqn:H1; [|discriminate].
    simpl. apply IH. eapply classified_scan_line_inv; eassumption.
Qed.

Lemma classified_returns (text : str) (a : Analyzer.analysis) :
  Analyzer.analyze_aws_invoice text = Ok a ->
  exists st,
    Spec.classified_inv st
    /\ a = Analyzer._group_and_analyze_services
             (Analyzer.service_usages st) (Analyzer.total_cost st).
Proof.
  unfold Analyzer.analyze_aws_invoice.
  destruct (Analyzer.scan_lines Analyzer.scan_init 1 (split_on newline text))
    as [st|e] eqn:Hs; [|discriminate].
  simpl. intros H; inversion H; subst a. exists st. split; [|reflexivity].
  eapply classified_scan_lines_inv; [|exact Hs]. split; [constructor|reflexivity].
Qed.

End ScanFacts.

(** * Forensic extraction *)

Module ForensicFacts.
Import PyStr.

(** The categories [_categorize_service] can answer. *)
Lemma categorize_service_range (line : str) :
  List.In (Forensic._categorize_service line)
          [L "EC2"; L "RDS"; L "S3"; L "EFS"; L "CloudWatch"; L "DataTransfer";
           L "Backup"; L "Marketplace"; L "EBS"; L "Other"].
Proof.
  unfold Forensic._categorize_service.
  repeat match goal with
         | |- List.In (if ?b then _ else _) _ => destruct b
         end; simpl; tauto.
Qed.

(** With a pattern that has a group, the service name is always found or
    defaulted: nothing is raised. *)
Lemma extract_service_name_grouped (line category : str) (p : Re.re) :
  Analyzer.lookup category Forensic.service_patterns = Some p ->
  exists name, Forensic._extract_service_name line category = Ok name.
Proof.
  intros Hp. unfold Forensic._extract_service_name. rewrite Hp.
  assert (Hg : ReSpec.grouped p = true).
  { revert Hp. unfold Forensic.service_patterns. simpl.
    repeat match goal with
           | |- (if ?b then _ else _) = _ -> _ => destruct b
           end; intros H; inversion H; reflexivity. }
  destruct (Re.search true p line) as [m|] eqn:Hs; [|eexists; reflexivity].
  destruct (CostFacts.search_grouped _ _ _ Hg Hs) as (g & _ & ->).
  simpl. eexists; reflexivity.
Qed.

(** Creating an item can only fail for the two categories that have no
    entry in [service_patterns]. *)
Ltac name_never_raises line H :=
  match type of H with
  | context [Forensic._extract_service_name line ?c] =>
      let Hl := fresh "Hl" in
      let p := fresh "p" in
      let Hn := fresh "Hn" in
      let name := fresh "name" in
      assert (Hl : exists p, Analyzer.lookup c Forensic.service_patterns = Some p)
        by (eexists; vm_compute; reflexivity);
      destruct Hl as [p Hl];
      destruct (extract_service_name_grouped line c p Hl) as [name Hn];
      rewrite Hn in H; discriminate
  end.

Lemma create_service_item_raises (line : str) (cost : Dec.dec) (n : nat) (e : exn) :
  Forensic._create_service_item line cost n = Raise e ->
  Forensic._categorize_service line = L "EBS"
  \/ Forensic._categorize_service line = L "Other".
Proof.
  unfold Forensic._create_service_item. intros H.
  pose proof (categorize_service_range line) as Hr.
  remember (Forensic._categorize_service line) as category eqn:Hcat.
  clear Hcat. simpl in Hr.
  destruct Hr as [Hc|[Hc|[Hc|[Hc|[Hc|[Hc|[Hc|[Hc|[Hc|[Hc|[]]]]]]]]]]];
    subst category; try (name_never_raises line H); tauto.
Qed.

End ForensicFacts.

(** The examples of the specification: a bare "USD 5" and a zero amount
    are both emitted in forensic mode. *)
Example forensic_emits_short_line :
  exists a it,
    Forensic.extract_all_costs_forensic (PyStr.L "USD 5") = Ok a
    /\ Forensic.service_line_items a = [it]
    /\ Forensic.cost_usd it = PyFloat.of_Z 5.
Proof. eexists. eexists. vm_compute. repeat split. Qed.

Example forensic_emits_zero_cost :
  exists a it,
    Forensic.extract_all_costs_forensic (PyStr.L "Free tier usage USD 0.00") = Ok a
    /\ Forensic.service_line_items a = [it]
    /\ Forensic.cost_usd it = PyFloat.zero.
Proof. eexists. eexists. vm_compute. repeat split. Qed.

(** C9 — The claim (a forensic item for every line on which a cost pattern
    matches and parses) fails on the code: on the line
    "EBS volume USD 5.00" the cost 5.00 is parsed, the category is EBS,
    [_extract_service_name] searches the group-less pattern 'EBS', finds
    it, and [match.group(1)] raises IndexError; [except Exception]
    swallows it, so no item is emitted and nothing is added to the
    total. *)
Theorem forensic_drops_priced_ebs_line :
  Forensic._extract_cost_from_line (PyStr.L "EBS volume USD 5.00")
  = Ok (Some {| Dec.sign := false; Dec.coeff := 500; Dec.expo := -2 |})
  /\ Forensic._categorize_service (PyStr.L "EBS volume USD 5.00") = PyStr.L "EBS"
  /\ Forensic._extract_service_name (PyStr.L "EBS volume USD 5.00") (PyStr.L "EBS")
     = Raise IndexError
  /\ exists a,
      Forensic.extract_all_costs_forensic (PyStr.L "EBS volume USD 5.00") = Ok a
      /\ Forensic.service_line_items a = []
      /\ Forensic.calculated_total (Forensic.validation a) = PyFloat.zero.
Proof.
  split; [vm_compute; reflexivity|].
  split; [vm_compute; reflexivity|].
  split; [vm_compute; reflexivity|].
  eexists. vm_compute. repeat split.
Qed.

(** The same happens to a priced line that mentions "other". *)
Example forensic_drops_priced_other_line :
  exists a,
    Forensic.extract_all_costs_forensic (PyStr.L "Other charges USD 12.00") = Ok a
    /\ Forensic.service_line_items a = [].
Proof. eexists. vm_compute. repeat split. Qed.

(** A text with no labelled total that happens to sum to the fallback
    constant: the validation is computed against that constant and
    passes. *)
Lemma forensic_substitutes_total :
  Spec.first_parsed Forensic.total_patterns (PyStr.L "Compute USD 3645.60") = None
  /\ exists a,
      Forensic.extract_all_costs_forensic (PyStr.L "Compute USD 3645.60") = Ok a
      /\ Forensic.invoice_total (Forensic.validation a)
         = Dec.to_float Forensic.fallback_total
      /\ Forensic.difference (Forensic.validation a) = PyFloat.zero
      /\ Forensic.validation_passed (Forensic.validation a) = true.
Proof.
  split; [vm_compute; reflexivity|].
  eexists. vm_compute. repeat split.
Qed.

(** C10 (amended) — Whatever the text, [extract_all_costs_forensic]
    returns; and when no invoice total is located in the text, the
    fallback constant 3645.60 stands in for it: invoice_total is its float
    conversion, the difference is taken against it, and validation_passed
    is the boolean |difference| < 0.01. *)
Theorem forensic_total_fallback :
  forall text : PyStr.str,
    (exists a, Forensic.extract_all_costs_forensic text = Ok a)
    /\ (Spec.first_parsed Forensic.total_patterns text = None ->
        exists a total,
          Forensic.extract_all_costs_forensic text = Ok a
          /\ Forensic.invoice_total (Forensic.validation a)
             = Dec.to_float Forensic.fallback_total
          /\ Forensic.total_invoice_amount a
             = Dec.to_float Forensic.fallback_total
          /\ Forensic.calculated_total (Forensic.validation a)
             = Dec.to_float total
          /\ Forensic.difference (Forensic.validation a)
             = Dec.to_float (Dec.sub Forensic.fallback_total total)
          /\ Forensic.validation_passed (Forensic.validation a)
             = PyFloat.flt
                 (PyFloat.fabs (Forensic.difference (Forensic.validation a)))
                 PyFloat.lit_0_01).
Proof.
  intros text. destruct (ScanFacts.forensic_returns text) as (st & _ & Hr).
  split; [eexists; exact Hr|].
  intros Hnone. rewrite Hnone in Hr.
  eexists. exists (Forensic.total_extracted st).
  split; [exact Hr|]. simpl. repeat split.
Qed.

Lemma forensic_total_fallback_witness :
  exists a total,
    Forensic.extract_all_costs_forensic (PyStr.L "Compute USD 3645.60") = Ok a
    /\ Forensic.invoice_total (Forensic.validation a)
       = Dec.to_float Forensic.fallback_total
    /\ Forensic.total_invoice_amount a
       = Dec.to_float Forensic.fallback_total
    /\ Forensic.calculated_total (Forensic.validation a)
       = Dec.to_float total
    /\ Forensic.difference (Forensic.validation a)
       = Dec.to_float (Dec.sub Forensic.fallback_total total)
    /\ Forensic.validation_passed (Forensic.validation a)
       = PyFloat.flt
           (PyFloat.fabs (Forensic.difference (Forensic.validation a)))
           PyFloat.lit_0_01.
Proof.
  apply (proj2 (forensic_total_fallback (PyStr.L "Compute USD 3645.60"))).
  vm_compute. reflexivity.
Defined.

(** * The reconciliation controller *)

Module EnhancedFacts.
Import PyStr Json Enhanced.

(** ** Dicts *)

Lemma starts_with_eq (a : str) :
  forall b, List.length a = List.length b -> starts_with a b = true -> a = b.
Proof.
  induction a as [|x a IH]; intros [|y b]; simpl; try discriminate; auto.
  intros Hl H. apply andb_true_iff in H. destruct H as [Hx Hs].
  apply Ascii.eqb_eq in Hx. subst y. f_equal. apply IH; [lia|exact Hs].
Qed.

Lemma starts_with_refl (a : str) : starts_with a a = true.
Proof.
  induction a as [|x a IH]; simpl; [reflexivity|].
  unfold chr_eqb. rewrite Ascii.eqb_refl. exact IH.
Qed.

Lemma str_eqb_eq (a b : str) : Analyzer.str_eqb a b = true <-> a = b.
Proof.
  unfold Analyzer.str_eqb. split.
  - intros H. apply andb_true_iff in H. destruct H as [Hl Hs].
    apply Nat.eqb_eq in Hl. apply starts_with_eq; assumption.
  - intros ->. rewrite Nat.eqb_refl, starts_with_refl. reflexivity.
Qed.

Lemma str_eqb_refl (a : str) : Analyzer.str_eqb a a = true.
Proof. apply str_eqb_eq. reflexivity. Qed.

Lemma str_eqb_trans_false (k a b : str) :
  Analyzer.str_eqb k a = true -> Analyzer.str_eqb a b = false ->
  Analyzer.str_eqb k b = false.
Proof.
  intros H1 H2. apply str_eqb_eq in H1. subst k. exact H2.
Qed.

Lemma lookup_set_same (key : str) (v : json) (d : dict) :
  dict_lookup key (dict_set key v d) = Some v.
Proof.
  unfold dict_lookup. induction d as [|[k w] d IH]; simpl.
  - rewrite str_eqb_refl. reflexivity.
  - destruct (Analyzer.str_eqb k key) eqn:Hk; simpl; rewrite Hk; auto.
Qed.

Lemma lookup_set_other (key key' : str) (v : json) (d : dict) :
  Analyzer.str_eqb key key' = false ->
  dict_lookup key' (dict_set key v d) = dict_lookup key' d.
Proof.
  intros Hne. unfold dict_lookup. induction d as [|[k w] d IH]; simpl.
  - rewrite Hne. reflexivity.
  - destruct (Analyzer.str_eqb k key) eqn:Hk; simpl.
    + rewrite (str_eqb_trans_false _ _ _ Hk Hne). reflexivity.
    + destruct (Analyzer.str_eqb k key'); auto.
Qed.

(** ** Writing into ['cost_validation'] *)

Lemma set_cost_validation_ok (key : str) (v : json) (d : dict) (c : dict) :
  dict_lookup (L "cost_validation") d = Some (JDict c) ->
  set_cost_validation key v d
  = Ok (dict_set (L "cost_validation") (JDict (dict_set key v c)) d).
Proof.
  intros H. unfold set_cost_validation, dict_index. rewrite H. reflexivity.
Qed.

Lemma set_cost_validation_inv (key : str) (v : json) (d d' : dict) :
  set_cost_validation key v d = Ok d' ->
  exists c,
    dict_lookup (L "cost_validation") d = Some (JDict c)
    /\ d' = dict_set (L "cost_validation") (JDict (dict_set key v c)) d.
Proof.
  unfold set_cost_validation, dict_index.
  destruct (dict_lookup (L "cost_validation") d) as [[| | | | | |c]|];
    simpl; try discriminate.
  intros H. inversion H. exists c. auto.
Qed.

(** Writing a validation entry leaves the ledger alone. *)
Lemma set_cost_validation_ledger (key : str) (v : json) (d d' : dict) :
  set_cost_validation key v d = Ok d' -> ledger_of d' = ledger_of d.
Proof.
  intros H. apply set_cost_validation_inv in H. destruct H as (c & _ & ->).
  unfold ledger_of. rewrite lookup_set_other by reflexivity. reflexivity.
Qed.

Lemma set_cost_validation_entry (key : str) (v : json) (d d' : dict) :
  set_cost_validation key v d = Ok d' ->
  validation_entry key d' = Some v
  /\ forall key', Analyzer.str_eqb key key' = false ->
                  validation_entry key' d' = validation_entry key' d.
Proof.
  intros H. apply set_cost_validation_inv in H. destruct H as (c & Hc & ->).
  unfold validation_entry. rewrite lookup_set_same, Hc. split.
  - apply lookup_set_same.
  - intros key' Hne. apply lookup_set_other. exact Hne.
Qed.

Lemma set_cost_validation_keeps_dict (key : str) (v : json) (d d' : dict) :
  set_cost_validation key v d = Ok d' ->
  exists c', dict_lookup (L "cost_validation") d' = Some (JDict c').
Proof.
  intros H. apply set_cost_validation_inv in H. destruct H as (c & _ & ->).
  eexists. apply lookup_set_same.
Qed.

(** Extending the ledger leaves ['cost_validation'] alone. *)
Lemma set_ledger_validation (v : json) (d : dict) :
  dict_lookup (L "cost_validation") (dict_set (L "service_line_items") v d)
  = dict_lookup (L "cost_validation") d.
Proof. apply lookup_set_other. reflexivity. Qed.

Lemma ledger_of_set (l : list json) (d : dict) :
  ledger_of (dict_set (L "service_line_items") (JList l) d) = l.
Proof. unfold ledger_of. rewrite lookup_set_same. reflexivity. Qed.

(** ** Iteration *)

(** A truthy iterable yields at least one element. *)
Lemma py_iter_truthy (v : json) (xs : list json) :
  truthy v = true -> py_iter v = Ok xs -> xs <> [].
Proof.
  destruct v as [| | | |s|l|d]; simpl; try discriminate;
    intros Ht H; inversion H; subst xs.
  - destruct s; [discriminate|]. simpl. discriminate.
  - destruct l; [discriminate|]. discriminate.
  - destruct d; [discriminate|]. simpl. discriminate.
Qed.

(** ** The steps inside the [try] *)

Ltac unfold_m :=
  unfold mbind, lift, get_analysis, put_analysis, mret in *.

Lemma assign_validation_ok (key : str) (v : json) (st st' : dict) :
  set_cost_validation key v st = Ok st' ->
  assign_validation key v st = (Ok tt, st').
Proof. intros H. unfold assign_validation. unfold_m. rewrite H. reflexivity. Qed.

Lemma assign_validation_raise (key : str) (v : json) (st : dict) (e : exn) :
  set_cost_validation key v st = Raise e ->
  assign_validation key v st = (Raise e, st).
Proof. intros H. unfold assign_validation. unfold_m. rewrite H. reflexivity. Qed.

(** [extend] either appends what the iteration of [missing_items] yields
    to a ledger that is a list, or raises and leaves the dict alone. *)
Lemma extend_ledger_spec (missing_items : json) (a : dict) :
  (exists l xs,
      dict_lookup (L "service_line_items") a = Some (JList l)
      /\ py_iter missing_items = Ok xs
      /\ extend_ledger missing_items a
         = (Ok tt, dict_set (L "service_line_items") (JList (l ++ xs)) a))
  \/ (exists e, extend_ledger missing_items a = (Raise e, a)).
Proof.
  unfold extend_ledger, dict_index. unfold_m.
  destruct (dict_lookup (L "service_line_items") a) as [ledger|];
    [|right; eexists; reflexivity].
  destruct ledger as [| | | | |l|]; simpl;
    try (right; eexists; reflexivity).
  destruct (py_iter missing_items) as [xs|e]; simpl.
  - left. exists l, xs. auto.
  - right. eexists; reflexivity.
Qed.

(** The recomputation, when the ledger is a list [l], ['cost_validation']
    is a dict and the sum over [l] is [v]: the new total is stored,
    whatever becomes of the two assignments that follow, and the ledger is
    as it was. *)
Lemma recalculate_totals_stores (invoice_total : json) (st : dict)
      (l : list json) (c : dict) (v : json) :
  dict_lookup (L "service_line_items") st = Some (JList l) ->
  dict_lookup (L "cost_validation") st = Some (JDict c) ->
  sum_cost_usd (JInt 0) l = Ok v ->
  let st' := snd (recalculate_totals invoice_total st) in
  ledger_of st' = l
  /\ validation_entry (L "calculated_total") st' = Some v.
Proof.
  intros Hl Hc Hv. unfold recalculate_totals, dict_index. unfold_m.
  rewrite Hl. simpl py_iter. cbv iota beta. rewrite Hv. cbv iota beta.
  pose proof (set_cost_validation_ok (L "calculated_total") v st c Hc) as H1.
  rewrite (assign_validation_ok _ _ _ _ H1).
  set (st1 := dict_set (L "cost_validation")
                (JDict (dict_set (L "calculated_total") v c)) st) in *.
  assert (Hl1 : ledger_of st1 = l).
  { rewrite (set_cost_validation_ledger _ _ _ _ H1). unfold ledger_of.
    rewrite Hl. reflexivity. }
  assert (He1 : validation_entry (L "calculated_total") st1 = Some v)
    by (apply (set_cost_validation_entry _ _ _ _ H1)).
  destruct (py_sub invoice_total v) as [nd|e]; [|simpl; auto].
  destruct (set_cost_validation (L "difference") nd st1) as [st2|e] eqn:H2.
  - rewrite (assign_validation_ok _ _ _ _ H2).
    assert (Hl2 : ledger_of st2 = l)
      by (rewrite (set_cost_validation_ledger _ _ _ _ H2); exact Hl1).
    assert (He2 : validation_entry (L "calculated_total") st2 = Some v).
    { rewrite (proj2 (set_cost_validation_entry _ _ _ _ H2)); [exact He1|reflexivity]. }
    destruct (d <- py_abs nd;; py_lt_float d PyFloat.lit_1_0) as [p|e];
      [|simpl; auto].
    destruct (set_cost_validation (L "validation_passed") (JBool p) st2)
      as [st3|e] eqn:H3.
    + rewrite (assign_validation_ok _ _ _ _ H3). simpl. split.
      * rewrite (set_cost_validation_ledger _ _ _ _ H3). exact Hl2.
      * rewrite (proj2 (set_cost_validation_entry _ _ _ _ H3));
          [exact He2|reflexivity].
    + rewrite (assign_validation_raise _ _ _ _ H3). simpl. auto.
  - rewrite (assign_validation_raise _ _ _ _ H2). simpl. auto.
Qed.

(** Whatever happens in the recomputation, the ledger is as it was. *)
Lemma recalculate_totals_ledger (invoice_total : json) (st : dict) :
  ledger_of (snd (recalculate_totals invoice_total st)) = ledger_of st.
Proof.
  unfold recalculate_totals, dict_index. unfold_m.
  destruct (dict_lookup (L "service_line_items") st) as [ledger|];
    [|reflexivity].
  destruct (py_iter ledger) as [items|e]; [|reflexivity].
  destruct (sum_cost_usd (JInt 0) items) as [v|e]; [|reflexivity].
  destruct (set_cost_validation (L "calculated_total") v st) as [st1|e] eqn:H1;
    [rewrite (assign_validation_ok _ _ _ _ H1)
    |rewrite (assign_validation_raise _ _ _ _ H1); reflexivity].
  pose proof (set_cost_validation_ledger _ _ _ _ H1) as Hl1.
  destruct (py_sub invoice_total v) as [nd|e]; [|exact Hl1].
  destruct (set_cost_validation (L "difference") nd st1) as [st2|e] eqn:H2;
    [rewrite (assign_validation_ok _ _ _ _ H2)
    |rewrite (assign_validation_raise _ _ _ _ H2); exact Hl1].
  pose proof (set_cost_validation_ledger _ _ _ _ H2) as Hl2.
  destruct (d <- py_abs nd;; py_lt_float d PyFloat.lit_1_0) as [p|e];
    [|simpl; congruence].
  destruct (set_cost_validation (L "validation_passed") (JBool p) st2)
    as [st3|e] eqn:H3;
    [rewrite (assign_validation_ok _ _ _ _ H3)
    |rewrite (assign_validation_raise _ _ _ _ H3); simpl; congruence].
  pose proof (set_cost_validation_ledger _ _ _ _ H3) as Hl3.
  simpl. congruence.
Qed.

(** When the sum over the ledger raises, nothing is written. *)
Lemma recalculate_totals_sum_raises (invoice_total : json) (st : dict)
      (l : list json) (e : exn) :
  dict_lookup (L "service_line_items") st = Some (JList l) ->
  sum_cost_usd (JInt 0) l = Raise e ->
  recalculate_totals invoice_total st = (Raise e, st).
Proof.
  intros Hl Hv. unfold recalculate_totals, dict_index. unfold_m.
  rewrite Hl. simpl py_iter. cbv iota beta. rewrite Hv. reflexivity.
Qed.

(** ** The [try] block as a whole *)

Lemma extend_ledger_list (candidates l : list json) (a : dict) :
  dict_lookup (L "service_line_items") a = Some (JList l) ->
  extend_ledger (JList candidates) a
  = (Ok tt, dict_set (L "service_line_items") (JList (l ++ candidates)) a).
Proof.
  intros Hl. unfold extend_ledger, dict_index. unfold_m. rewrite Hl. reflexivity.
Qed.

(** The merge, one statement after the other. *)
Lemma merge_missing_items_unfold (missing_data invoice_total : json) (a : dict) :
  merge_missing_items missing_data invoice_total a
  = match py_get missing_data (L "missing_items") (JList []) with
    | Ok ms =>
        if truthy ms then
          match extend_ledger ms a with
          | (Ok _, st) => recalculate_totals invoice_total st
          | (Raise e, st) => (Raise e, st)
          end
        else (Ok tt, a)
    | Raise e => (Raise e, a)
    end.
Proof.
  unfold merge_missing_items, mbind, lift, mret.
  destruct (py_get missing_data (L "missing_items") (JList [])) as [ms|e];
    [|reflexivity].
  destruct (truthy ms); reflexivity.
Qed.

(** What the merge does to the dict: nothing, or an extension of the
    ledger followed by the recomputation. *)
Lemma merge_missing_items_cases (missing_data invoice_total : json) (a : dict) :
  snd (merge_missing_items missing_data invoice_total a) = a
  \/ exists missing_items l xs,
      py_get missing_data (L "missing_items") (JList []) = Ok missing_items
      /\ truthy missing_items = true
      /\ dict_lookup (L "service_line_items") a = Some (JList l)
      /\ py_iter missing_items = Ok xs
      /\ snd (merge_missing_items missing_data invoice_total a)
         = snd (recalculate_totals invoice_total
                  (dict_set (L "service_line_items") (JList (l ++ xs)) a)).
Proof.
  rewrite merge_missing_items_unfold.
  destruct (py_get missing_data (L "missing_items") (JList []))
    as [missing_items|e] eqn:Hg; [|left; reflexivity].
  destruct (truthy missing_items) eqn:Ht; [|left; reflexivity].
  destruct (extend_ledger_spec missing_items a)
    as [(l & xs & Hl & Hi & ->)|(e & ->)]; [|left; reflexivity].
  right. exists missing_items, l, xs. auto.
Qed.

(** Reconciliation only ever appends to the ledger. *)
Lemma merge_missing_items_ledger (missing_data invoice_total : json) (a : dict) :
  exists extra,
    ledger_of (snd (merge_missing_items missing_data invoice_total a))
    = ledger_of a ++ extra.
Proof.
  destruct (merge_missing_items_cases missing_data invoice_total a)
    as [->|(ms & l & xs & _ & _ & Hl & _ & ->)].
  - exists []. rewrite app_nil_r. reflexivity.
  - exists xs. rewrite recalculate_totals_ledger, ledger_of_set.
    unfold ledger_of. rewrite Hl. reflexivity.
Qed.

Lemma try_reconcile_ledger (response : oracle_outcome) (invoice_total : json)
      (a : dict) :
  exists extra,
    ledger_of (try_reconcile response invoice_total a) = ledger_of a ++ extra.
Proof.
  destruct response as [| | |missing_data]; simpl;
    try (exists []; rewrite app_nil_r; reflexivity).
  apply merge_missing_items_ledger.
Qed.

(** ** The guard in front of the [try] *)

(** The difference of two numbers is a number, and comparing its
    absolute value with a float cannot fail. *)
Lemma already_accurate_total (a : dict) (calc inv d : json) :
  current_totals a = Ok (calc, inv, d) ->
  exists b, already_accurate d = Ok b.
Proof.
  unfold current_totals, bind.
  destruct (py_get (JDict a) (L "cost_validation") (JDict [])) as [cv|];
    [|discriminate].
  destruct (py_get cv (L "calculated_total") (JFloat PyFloat.zero)) as [c|];
    [|discriminate].
  destruct (py_get cv (L "invoice_total") (JFloat PyFloat.zero)) as [i|];
    [|discriminate].
  unfold py_sub. destruct (as_num i) as [x|]; [|discriminate].
  destruct (as_num c) as [y|]; [|discriminate]. unfold bind.
  destruct (num_binop Z.sub PyFloat.fsub x y) as [r|]; [|discriminate].
  intros H. inversion H; subst. unfold already_accurate, py_abs, bind.
  destruct r as [z|f]; simpl; eexists; reflexivity.
Qed.

(** Past the guard, ['cost_validation'] is there and is a dict: without
    it both totals default to 0.0 and the difference is 0. *)
Lemma guard_passed_validation_dict (a : dict) (calc inv d : json) :
  current_totals a = Ok (calc, inv, d) ->
  already_accurate d = Ok false ->
  exists c, dict_lookup (L "cost_validation") a = Some (JDict c).
Proof.
  unfold current_totals. unfold py_get at 1.
  destruct (dict_lookup (L "cost_validation") a) as [cv|] eqn:Hcv.
  - destruct cv as [| | | | | |c]; try discriminate. intros _ _. exists c. reflexivity.
  - simpl. intros H. inversion H; subst. vm_compute. discriminate.
Qed.

(** The shapes a run of the controller can take. *)
Lemma reconcile_cases (client : bool) (oracle : request -> oracle_outcome)
      (pdf_text : str) (a : dict) :
  let r := reconcile_missing_costs client oracle pdf_text a in
  (requests r = [] /\ (returned r = Ok a \/ exists e, returned r = Raise e))
  \/ exists calc inv d req,
      client = true
      /\ current_totals a = Ok (calc, inv, d)
      /\ already_accurate d = Ok false
      /\ build_request pdf_text calc inv d = Ok req
      /\ requests r = [req]
      /\ returned r = Ok (try_reconcile (oracle req) inv a).
Proof.
  unfold reconcile_missing_costs.
  destruct client; simpl; [|left; auto].
  destruct (current_totals a) as [[[calc inv] d]|e] eqn:Ht;
    [|left; split; [reflexivity|right; eexists; reflexivity]].
  destruct (already_accurate d) as [[|]|e] eqn:Ha;
    [left; auto| |left; split; [reflexivity|right; eexists; reflexivity]].
  destruct (build_request pdf_text calc inv d) as [req|e] eqn:Hb;
    [|left; split; [reflexivity|right; eexists; reflexivity]].
  right. exists calc, inv, d, req. simpl. auto 10.
Qed.

(** A pass that appended to the ledger and over whose ledger the costs
    can be summed has stored that sum as the calculated total. *)
Lemma try_reconcile_total (response : oracle_outcome) (invoice_total : json)
      (a : dict) (c : dict) (v : json) :
  dict_lookup (L "cost_validation") a = Some (JDict c) ->
  ledger_of (try_reconcile response invoice_total a) <> ledger_of a ->
  sum_cost_usd (JInt 0) (ledger_of (try_reconcile response invoice_total a)) = Ok v ->
  validation_entry (L "calculated_total") (try_reconcile response invoice_total a)
  = Some v.
Proof.
  intros Hc Hne Hsum.
  destruct response as [| | |missing_data]; simpl in *; try congruence.
  destruct (merge_missing_items_cases missing_data invoice_total a)
    as [Hsame|(ms & l & xs & _ & _ & Hl & _ & Heq)].
  - rewrite Hsame in Hne. congruence.
  - rewrite Heq in *.
    set (st1 := dict_set (L "service_line_items") (JList (l ++ xs)) a) in *.
    assert (Hl1 : dict_lookup (L "service_line_items") st1 = Some (JList (l ++ xs)))
      by apply lookup_set_same.
    assert (Hc1 : dict_lookup (L "cost_validation") st1 = Some (JDict c))
      by (unfold st1; rewrite set_ledger_validation; exact Hc).
    rewrite recalculate_totals_ledger in Hsum.
    unfold st1 in Hsum. rewrite ledger_of_set in Hsum.
    apply (recalculate_totals_stores invoice_total st1 (l ++ xs) c v Hl1 Hc1 Hsum).
Qed.

End EnhancedFacts.

(** * Claims about the reconciliation controller *)

(** The examples of the specification. *)
Example reconcile_not_needed :
  Enhanced.reconcile_missing_costs true Sample.oracle_down []
    (Sample.analysis_with Sample.f_10 Sample.f_10 true)
  = {| Enhanced.returned := Ok (Sample.analysis_with Sample.f_10 Sample.f_10 true);
       Enhanced.requests := [] |}.
Proof. vm_compute. reflexivity. Qed.

Example reconcile_finds_45_60 :
  exists a' req,
    Enhanced.reconcile_missing_costs true
      (Sample.respond_with [Sample.support_item]) [] Sample.short_by_45_60
    = {| Enhanced.returned := Ok a'; Enhanced.requests := [req] |}
    /\ List.length (Enhanced.ledger_of a') = 2
    /\ Enhanced.validation_entry (PyStr.L "calculated_total") a'
       = Some (Json.JFloat Sample.f_3645_6)
    /\ Enhanced.validation_entry (PyStr.L "difference") a'
       = Some (Json.JFloat PyFloat.zero)
    /\ Enhanced.validation_entry (PyStr.L "validation_passed") a'
       = Some (Json.JBool true).
Proof. eexists. eexists. vm_compute. repeat split. Qed.

(** Below one currency unit, but not below one cent: the controller
    calls the oracle.  Below one cent the analysis comes back as it went
    in, validation_passed = false included.  And at a stored difference
    of exactly 1.0, not below one unit, the caller does not even invoke
    the controller. *)
Lemma reconcile_calls_oracle_below_one :
  Enhanced.current_totals Sample.short_by_0_50
  = Ok (Json.JFloat Sample.f_10, Json.JFloat Sample.f_10_5,
        Json.JFloat Sample.f_0_5)
  /\ (d <- Json.py_abs (Json.JFloat Sample.f_0_5) ;;
      Json.py_lt_float d PyFloat.lit_1_0) = Ok true
  /\ List.length
       (Enhanced.requests
          (Enhanced.reconcile_missing_costs true Sample.oracle_down []
             Sample.short_by_0_50)) = 1
  /\ Enhanced.returned
       (Enhanced.reconcile_missing_costs true Sample.oracle_down []
          Sample.short_by_0_005) = Ok Sample.short_by_0_005
  /\ Enhanced.validation_entry (PyStr.L "validation_passed") Sample.short_by_0_005
     = Some (Json.JBool false)
  /\ Enhanced.validation_entry (PyStr.L "difference") Sample.short_by_1_00
     = Some (Json.JFloat PyFloat.one)
  /\ Json.py_lt_float (Json.JFloat PyFloat.one) PyFloat.lit_1_0 = Ok false
  /\ Enhanced.reconcile_if_needed true Sample.oracle_down [] Sample.short_by_1_00
     = {| Enhanced.returned := Ok Sample.short_by_1_00; Enhanced.requests := [] |}.
Proof. vm_compute. repeat split. Qed.

(** C1 (amended) — The controller submits at most one request.  It takes
    no action — no oracle call, the analysis returned as it was, the
    passed flag left as validation set it — exactly when the client is
    missing or |invoice_total - calculated_total| < 0.01, the binary
    float 5764607523034235 / 2^59; otherwise it submits one request
    carrying that difference (unless formatting the prompt overflows on
    an oversized integer, which raises before any call).  Its caller
    invokes it only when the stored |difference| exceeds 1.0 (and then
    submits exactly the controller's requests, unless formatting the
    progress text overflows first), and otherwise leaves the analysis as
    it is, with no request. *)
Theorem reconcile_guard_one_cent :
  forall (client : bool) (oracle : Enhanced.request -> Enhanced.oracle_outcome)
         (pdf_text : PyStr.str) (a : Json.dict),
    (List.length
       (Enhanced.requests
          (Enhanced.reconcile_missing_costs client oracle pdf_text a)) <= 1)
    /\ (forall calc inv d,
        Enhanced.current_totals a = Ok (calc, inv, d) ->
        exists x b,
          Json.py_abs d = Ok x
          /\ Json.py_lt_float x PyFloat.lit_0_01 = Ok b
          /\ ((Enhanced.requests
                 (Enhanced.reconcile_missing_costs client oracle pdf_text a) = []
               /\ Enhanced.returned
                    (Enhanced.reconcile_missing_costs client oracle pdf_text a)
                  = Ok a)
              <-> (client = false \/ b = true))
          /\ (client = true -> b = false ->
              (exists req a',
                  Enhanced.requests
                    (Enhanced.reconcile_missing_costs client oracle pdf_text a)
                  = [req]
                  /\ Enhanced.target_difference req = d
                  /\ Enhanced.returned
                       (Enhanced.reconcile_missing_costs client oracle pdf_text a)
                     = Ok a')
              \/ (exists e,
                     Enhanced.build_request pdf_text calc inv d = Raise e
                     /\ Enhanced.requests
                          (Enhanced.reconcile_missing_costs client oracle pdf_text a)
                        = []
                     /\ Enhanced.returned
                          (Enhanced.reconcile_missing_costs client oracle pdf_text a)
                        = Raise e)))
    /\ (forall difference significant,
        Enhanced.stored_difference a = Ok difference ->
        Json.py_gt_float difference PyFloat.lit_1_0 = Ok significant ->
        if significant
        then match Json.format_2f difference with
             | Raise e =>
                 Enhanced.reconcile_if_needed client oracle pdf_text a
                 = {| Enhanced.returned := Raise e; Enhanced.requests := [] |}
             | Ok _ =>
                 Enhanced.requests
                   (Enhanced.reconcile_if_needed client oracle pdf_text a)
                 = Enhanced.requests
                     (Enhanced.reconcile_missing_costs client oracle pdf_text a)
                 /\ forall a',
                     Enhanced.returned
                       (Enhanced.reconcile_if_needed client oracle pdf_text a)
                     = Ok a' ->
                     Enhanced.returned
                       (Enhanced.reconcile_missing_costs client oracle pdf_text a)
                     = Ok a'
             end
        else Enhanced.reconcile_if_needed client oracle pdf_text a
             = {| Enhanced.returned := Ok a; Enhanced.requests := [] |})
    /\ PyFloat.lit_0_01 = SpecFloat.S754_finite false 5764607523034235 (-59)
    /\ PyFloat.lit_1_0 = SpecFloat.S754_finite false 4503599627370496 (-52).
Proof.
  intros client oracle pdf_text a. split; [|split; [|split]].
  4: { split; vm_compute; reflexivity. }
  3: { intros difference significant Hd Hs.
       unfold Enhanced.reconcile_if_needed. rewrite Hd, Hs.
       destruct significant; [|reflexivity].
       destruct (Json.format_2f difference) as [u|e]; [|reflexivity].
       cbv zeta.
       destruct (Enhanced.returned
                   (Enhanced.reconcile_missing_costs client oracle pdf_text a))
         as [b|e] eqn:Hr.
       - destruct (Enhanced.log_final_difference b); simpl.
         + split; [reflexivity|]. intros a' H. rewrite <- H. symmetry. exact Hr.
         + split; [reflexivity|]. intros a' H. discriminate.
       - split; [reflexivity|]. intros a' H. rewrite <- H. symmetry. exact Hr. }
  - destruct (EnhancedFacts.reconcile_cases client oracle pdf_text a)
      as [[-> _]|(calc & inv & d & req & _ & _ & _ & _ & -> & _)]; simpl; lia.
  - intros calc inv d Ht.
    destruct (EnhancedFacts.already_accurate_total a calc inv d Ht) as [b Hb].
    assert (Hx : exists x, Json.py_abs d = Ok x
                           /\ Json.py_lt_float x PyFloat.lit_0_01 = Ok b).
    { unfold Enhanced.already_accurate, bind in Hb.
      destruct (Json.py_abs d) as [x|e]; [|discriminate].
      exists x. split; [reflexivity|exact Hb]. }
    destruct Hx as (x & Hx1 & Hx2).
    exists x, b. split; [exact Hx1|]. split; [exact Hx2|].
    unfold Enhanced.reconcile_missing_costs. rewrite Ht, Hb.
    destruct client; simpl.
    + destruct b.
      * simpl. split; [tauto|]. intros _ H; discriminate.
      * destruct (Enhanced.build_request pdf_text calc inv d) as [req|e] eqn:Hreq;
          simpl.
        -- split.
           ++ split; [intros [H _]; discriminate|intros [H|H]; discriminate].
           ++ intros _ _. left. exists req. eexists. split; [reflexivity|].
              split; [|reflexivity].
              unfold Enhanced.build_request, bind in Hreq.
              destruct (Json.format_2f d); [|discriminate].
              destruct (Json.format_2f inv); [|discriminate].
              destruct (Json.format_2f calc); [|discriminate].
              inversion Hreq. reflexivity.
        -- split.
           ++ split; [intros [_ H]; discriminate|intros [H|H]; discriminate].
           ++ intros _ _. right. exists e. auto.
    + split; [tauto|]. intros H; discriminate.
Qed.

Lemma reconcile_guard_one_cent_witness :
  exists x b,
    Json.py_abs (Json.JFloat Sample.f_0_5) = Ok x
    /\ Json.py_lt_float x PyFloat.lit_0_01 = Ok b
    /\ ((Enhanced.requests
           (Enhanced.reconcile_missing_costs true Sample.oracle_down []
              Sample.short_by_0_50) = []
         /\ Enhanced.returned
              (Enhanced.reconcile_missing_costs true Sample.oracle_down []
                 Sample.short_by_0_50) = Ok Sample.short_by_0_50)
        <-> (true = false \/ b = true))
    /\ (true = true -> b = false ->
        (exists req a',
            Enhanced.requests
              (Enhanced.reconcile_missing_costs true Sample.oracle_down []
                 Sample.short_by_0_50) = [req]
            /\ Enhanced.target_difference req = Json.JFloat Sample.f_0_5
            /\ Enhanced.returned
                 (Enhanced.reconcile_missing_costs true Sample.oracle_down []
                    Sample.short_by_0_50) = Ok a')
        \/ (exists e,
               Enhanced.build_request [] (Json.JFloat Sample.f_10)
                 (Json.JFloat Sample.f_10_5) (Json.JFloat Sample.f_0_5) = Raise e
               /\ Enhanced.requests
                    (Enhanced.reconcile_missing_costs true Sample.oracle_down []
                       Sample.short_by_0_50) = []
               /\ Enhanced.returned
                    (Enhanced.reconcile_missing_costs true Sample.oracle_down []
                       Sample.short_by_0_50) = Raise e)).
Proof.
  apply (proj1 (proj2 (reconcile_guard_one_cent true Sample.oracle_down []
                         Sample.short_by_0_50))
               (Json.JFloat Sample.f_10) (Json.JFloat Sample.f_10_5)
               (Json.JFloat Sample.f_0_5)).
  vm_compute. reflexivity.
Defined.

(** C3 — A reconciliation pass only appends: the ledger afterwards is the
    ledger before followed by what was appended, so it is at least as long
    and every earlier item is still there, unchanged, at its position. *)
Theorem reconcile_additive_only :
  forall (client : bool) (oracle : Enhanced.request -> Enhanced.oracle_outcome)
         (pdf_text : PyStr.str) (a a' : Json.dict),
    Enhanced.returned (Enhanced.reconcile_missing_costs client oracle pdf_text a)
    = Ok a' ->
    (exists appended,
        Enhanced.ledger_of a' = Enhanced.ledger_of a ++ appended)
    /\ List.length (Enhanced.ledger_of a) <= List.length (Enhanced.ledger_of a')
    /\ forall i item,
        nth_error (Enhanced.ledger_of a) i = Some item ->
        nth_error (Enhanced.ledger_of a') i = Some item.
Proof.
  intros client oracle pdf_text a a' Hr.
  assert (H : exists appended,
             Enhanced.ledger_of a' = Enhanced.ledger_of a ++ appended).
  { destruct (EnhancedFacts.reconcile_cases client oracle pdf_text a)
      as [[_ [H|[e H]]]|(calc & inv & d & req & _ & _ & _ & _ & _ & H)];
      rewrite H in Hr; try discriminate; inversion Hr; subst a'.
    - exists []. rewrite app_nil_r. reflexivity.
    - apply EnhancedFacts.try_reconcile_ledger. }
  split; [exact H|]. destruct H as [appended ->]. split.
  - rewrite length_app. lia.
  - intros i item Hi. rewrite nth_error_app1; [exact Hi|].
    apply nth_error_Some. congruence.
Qed.

Lemma reconcile_additive_only_witness :
  exists a',
    Enhanced.returned
      (Enhanced.reconcile_missing_costs true
         (Sample.respond_with [Sample.support_item]) [] Sample.short_by_45_60)
    = Ok a'
    /\ (exists appended,
          Enhanced.ledger_of a'
          = Enhanced.ledger_of Sample.short_by_45_60 ++ appended)
    /\ List.length (Enhanced.ledger_of Sample.short_by_45_60)
       <= List.length (Enhanced.ledger_of a')
    /\ forall i item,
        nth_error (Enhanced.ledger_of Sample.short_by_45_60) i = Some item ->
        nth_error (Enhanced.ledger_of a') i = Some item.
Proof.
  eexists. split; [vm_compute; reflexivity|].
  apply (reconcile_additive_only true
           (Sample.respond_with [Sample.support_item]) [] Sample.short_by_45_60).
  vm_compute. reflexivity.
Defined.

(** When the call raises, the response is empty or its text is not JSON,
    or the document is not an object, the analysis comes back as it went
    in. *)
Lemma try_reconcile_oracle_failure (response : Enhanced.oracle_outcome)
      (invoice_total : Json.json) (a : Json.dict) :
  match response with
  | Enhanced.Parsed (Json.JDict _) => False
  | _ => True
  end ->
  Enhanced.try_reconcile response invoice_total a = a.
Proof.
  destruct response as [| | |missing_data]; try reflexivity.
  destruct missing_data; try reflexivity. contradiction.
Qed.

(** C4 — The claim (ledger and totals untouched whenever the response is
    not conforming JSON) fails on the code: the oracle answers the
    3600.00 / 3645.60 invoice with one item whose cost is the string
    "45.60".  The item is appended by [extend]; the sum over the ledger
    then raises TypeError, which [except Exception] swallows; the function
    returns with a ledger of two items, over which the costs cannot be
    summed, and with calculated_total, difference and validation_passed as
    they were. *)
Theorem reconcile_string_cost_extends_ledger :
  exists a' req,
    Enhanced.reconcile_missing_costs true
      (Sample.respond_with [Sample.string_cost_item]) [] Sample.short_by_45_60
    = {| Enhanced.returned := Ok a'; Enhanced.requests := [req] |}
    /\ Enhanced.ledger_of a'
       = Enhanced.ledger_of Sample.short_by_45_60 ++ [Sample.string_cost_item]
    /\ Enhanced.sum_cost_usd (Json.JInt 0) (Enhanced.ledger_of a') = Raise TypeError
    /\ Enhanced.validation_entry (PyStr.L "calculated_total") a'
       = Some (Json.JFloat Sample.f_3600)
    /\ Enhanced.validation_entry (PyStr.L "validation_passed") a'
       = Some (Json.JBool false).
Proof. eexists. eexists. vm_compute. repeat split. Qed.

(** An entry with a malformed field and without most of the required
    ones is appended as it came: not dropped, and nothing defaulted. *)
Lemma reconcile_appends_sparse_item :
  exists a',
    Enhanced.returned
      (Enhanced.reconcile_missing_costs true
         (Sample.respond_with [Sample.sparse_item]) [] Sample.short_by_45_60)
    = Ok a'
    /\ Enhanced.ledger_of a'
       = Enhanced.ledger_of Sample.short_by_45_60 ++ [Sample.sparse_item]
    /\ Json.py_get Sample.sparse_item (PyStr.L "service_category") Json.JNull
       = Ok Json.JNull
    /\ Json.py_get Sample.sparse_item (PyStr.L "usage_quantity") Json.JNull
       = Ok (Json.JStr (PyStr.L "lots")).
Proof. eexists. vm_compute. repeat split. Qed.

(** C8 (amended) — When the oracle returns a non-empty list of candidates
    and the costs of the extended ledger can be summed, every candidate
    is appended to the ledger exactly as returned, in order — none is
    dropped and no field is checked or defaulted — the sum is stored as
    the calculated total, and the controller returns. *)
Theorem reconcile_appends_candidates_as_returned :
  forall (oracle : Enhanced.request -> Enhanced.oracle_outcome)
         (pdf_text : PyStr.str) (a : Json.dict) (calc inv d : Json.json)
         (req : Enhanced.request) (missing_data : Json.json)
         (candidates ledger : list Json.json) (v : Json.json),
    Enhanced.current_totals a = Ok (calc, inv, d) ->
    Enhanced.already_accurate d = Ok false ->
    Enhanced.build_request pdf_text calc inv d = Ok req ->
    oracle req = Enhanced.Parsed missing_data ->
    Json.py_get missing_data (PyStr.L "missing_items") (Json.JList [])
    = Ok (Json.JList candidates) ->
    candidates <> [] ->
    Json.dict_lookup (PyStr.L "service_line_items") a = Some (Json.JList ledger) ->
    Enhanced.sum_cost_usd (Json.JInt 0) (ledger ++ candidates) = Ok v ->
    exists a',
      Enhanced.returned (Enhanced.reconcile_missing_costs true oracle pdf_text a)
      = Ok a'
      /\ Enhanced.ledger_of a' = ledger ++ candidates
      /\ Enhanced.validation_entry (PyStr.L "calculated_total") a' = Some v.
Proof.
  intros oracle pdf_text a calc inv d req missing_data candidates ledger v
         Ht Ha Hb Ho Hg Hne Hl Hsum.
  unfold Enhanced.reconcile_missing_costs. simpl. rewrite Ht, Ha, Hb, Ho.
  eexists. split; [reflexivity|]. simpl.
  destruct (EnhancedFacts.guard_passed_validation_dict a calc inv d Ht Ha)
    as [c Hc].
  rewrite EnhancedFacts.merge_missing_items_unfold, Hg.
  assert (Htruthy : Json.truthy (Json.JList candidates) = true)
    by (destruct candidates; [congruence|reflexivity]).
  rewrite Htruthy, (EnhancedFacts.extend_ledger_list candidates ledger a Hl).
  apply (EnhancedFacts.recalculate_totals_stores inv _ (ledger ++ candidates) c v).
  - apply EnhancedFacts.lookup_set_same.
  - rewrite EnhancedFacts.set_ledger_validation. exact Hc.
  - exact Hsum.
Qed.

Lemma reconcile_appends_candidates_as_returned_witness :
  exists a',
    Enhanced.returned
      (Enhanced.reconcile_missing_costs true
         (Sample.respond_with [Sample.sparse_item; Sample.support_item]) []
         Sample.short_by_45_60)
    = Ok a'
    /\ Enhanced.ledger_of a'
       = Enhanced.ledger_of Sample.short_by_45_60
         ++ [Sample.sparse_item; Sample.support_item]
    /\ Enhanced.validation_entry (PyStr.L "calculated_total") a'
       = Some (Json.JFloat
                 (PyFloat.fadd (PyFloat.fadd Sample.f_3600 Sample.f_45_6)
                               Sample.f_45_6)).
Proof.
  eapply (reconcile_appends_candidates_as_returned
            (Sample.respond_with [Sample.sparse_item; Sample.support_item]) []
            Sample.short_by_45_60);
    try (vm_compute; reflexivity).
  discriminate.
Defined.

(** * Grouping and first-pass validation *)

Module LedgerFacts.
Import PyStr Json Enhanced.

(** ** [_group_and_analyze_services] regroups, it does not add or lose *)

Lemma group_add_perm (category : str) (u : Analyzer.ServiceUsage)
      (d : list (str * list Analyzer.ServiceUsage)) :
  Permutation (List.concat (map snd (Analyzer.group_add category u d)))
              (List.concat (map snd d) ++ [u]).
Proof.
  induction d as [|[k us] d IH]; simpl.
  - apply Permutation_refl.
  - destruct (Analyzer.str_eqb k category); simpl.
    + rewrite <- !app_assoc. apply Permutation_app_head.
      apply Permutation_app_comm.
    + rewrite <- app_assoc. apply Permutation_app_head. exact IH.
Qed.

Lemma group_fold_perm (usages : list Analyzer.ServiceUsage) :
  forall d,
    Permutation
      (List.concat (map snd (fold_left
                          (fun d u =>
                             Analyzer.group_add (Analyzer.service_category u) u d)
                          usages d)))
      (List.concat (map snd d) ++ usages).
Proof.
  induction usages as [|u usages IH]; intros d; simpl.
  - rewrite app_nil_r. apply Permutation_refl.
  - eapply Permutation_trans; [apply IH|].
    eapply Permutation_trans;
      [apply Permutation_app_tail; apply group_add_perm|].
    rewrite <- app_assoc. apply Permutation_refl.
Qed.

Lemma grouped_usages (usages : list Analyzer.ServiceUsage) (total : Dec.dec) :
  Permutation
    (List.concat (map snd (Analyzer.services_by_category
                        (Analyzer._group_and_analyze_services usages total))))
    usages.
Proof. apply (group_fold_perm usages []). Qed.

(** ** [validate_and_enhance_analysis] stores floats *)

Section Validate.
Variable float_of_str : str -> result PyFloat.float.

Lemma float_sum_snoc (l : list PyFloat.float) (f : PyFloat.float) :
  Spec.float_sum (l ++ [f]) = PyFloat.fadd (Spec.float_sum l) f.
Proof. unfold Spec.float_sum. rewrite fold_left_app. reflexivity. Qed.

(** A cleaned item holds a float under ['cost_usd']. *)
Lemma clean_item_float (item cleaned : json) :
  clean_item float_of_str item = Ok cleaned ->
  Spec.has_float_cost cleaned = true
  /\ cost_of_cleaned cleaned = Ok (Spec.float_cost cleaned).
Proof.
  unfold clean_item, bind.
  repeat match goal with
         | |- match ?x with Ok _ => _ | Raise _ => _ end = _ -> _ =>
             destruct x; [|discriminate]
         end.
  intros H. inversion H. split; reflexivity.
Qed.

Lemma clean_items_floats (items : list json) :
  forall (cleaned cleaned' : list json) (total total' : PyFloat.float),
    clean_items float_of_str items cleaned total = Ok (cleaned', total') ->
    forallb Spec.has_float_cost cleaned = true ->
    total = Spec.float_sum (map Spec.float_cost cleaned) ->
    forallb Spec.has_float_cost cleaned' = true
    /\ total' = Spec.float_sum (map Spec.float_cost cleaned').
Proof.
  induction items as [|item rest IH]; intros cleaned cleaned' total total'; simpl.
  - intros H. inversion H; subst. auto.
  - destruct (clean_item float_of_str item) as [c|] eqn:Hc; [|discriminate].
    destruct (clean_item_float _ _ Hc) as [Hf Hcost].
    simpl. rewrite Hcost. simpl. intros H Hall Ht. eapply IH; [exact H| |].
    + rewrite forallb_app, Hall. simpl. rewrite Hf. reflexivity.
    + rewrite map_app. simpl. rewrite float_sum_snoc, Ht. reflexivity.
Qed.

(** After the first-pass validation every ledger item holds a float cost
    and the calculated total is their float sum. *)
Lemma validate_stores_floats (data data' : dict) (raw : json) :
  data <> [] ->
  dict_lookup (L "service_line_items") data = Some raw ->
  validate_and_enhance_analysis float_of_str data = Ok data' ->
  forallb Spec.has_float_cost (ledger_of data') = true
  /\ validation_entry (L "calculated_total") data'
     = Some (JFloat (Spec.float_sum (map Spec.float_cost (ledger_of data')))).
Proof.
  intros Hne Hraw. unfold validate_and_enhance_analysis.
  destruct data as [|kv data0]; [congruence|]. rewrite Hraw.
  set (data := kv :: data0) in *.
  unfold bind at 1. destruct (py_iter raw) as [items|]; [|discriminate].
  unfold bind at 1.
  destruct (clean_items float_of_str items [] PyFloat.zero)
    as [[cleaned total]|] eqn:Hclean; [|discriminate].
  destruct (clean_items_floats _ _ _ _ _ Hclean eq_refl eq_refl) as [Hall Htot].
  set (e1 := dict_set (L "service_line_items") (JList cleaned) data).
  set (e2 := match dict_lookup (L "cost_validation") e1 with
             | Some _ => e1
             | None => dict_set (L "cost_validation") (JDict []) e1
             end).
  assert (Hl2 : ledger_of e2 = cleaned).
  { unfold e2. destruct (dict_lookup (L "cost_validation") e1).
    - apply EnhancedFacts.ledger_of_set.
    - unfold ledger_of. rewrite EnhancedFacts.lookup_set_other by reflexivity.
      apply EnhancedFacts.ledger_of_set. }
  unfold bind at 1.
  destruct (set_cost_validation (L "calculated_total") (JFloat total) e2)
    as [e3|] eqn:H3; [|discriminate].
  assert (Hl3 : ledger_of e3 = cleaned)
    by (rewrite (EnhancedFacts.set_cost_validation_ledger _ _ _ _ H3); exact Hl2).
  assert (Hv3 : validation_entry (L "calculated_total") e3 = Some (JFloat total))
    by apply (EnhancedFacts.set_cost_validation_entry _ _ _ _ H3).
  unfold bind at 1.
  destruct (py_get (JDict e3) (L "invoice_summary") (JDict [])) as [summary|];
    [|discriminate].
  unfold bind at 1.
  destruct (py_get summary (L "total_invoice_amount") JNull) as [invoice_total|];
    [|discriminate].
  destruct (truthy invoice_total).
  - unfold bind at 1.
    destruct (py_sub (JFloat total) invoice_total) as [d|]; [|discriminate].
    unfold bind at 1. destruct (py_abs d) as [difference|]; [|discriminate].
    unfold bind at 1.
    destruct (set_cost_validation (L "difference") difference e3)
      as [e4|] eqn:H4; [|discriminate].
    unfold bind at 1.
    destruct (py_lt_float difference PyFloat.lit_1_0) as [passed|]; [|discriminate].
    intros H5.
    rewrite (EnhancedFacts.set_cost_validation_ledger _ _ _ _ H5).
    rewrite (EnhancedFacts.set_cost_validation_ledger _ _ _ _ H4).
    rewrite Hl3. split; [exact Hall|].
    rewrite (proj2 (EnhancedFacts.set_cost_validation_entry _ _ _ _ H5))
      by reflexivity.
    rewrite (proj2 (EnhancedFacts.set_cost_validation_entry _ _ _ _ H4))
      by reflexivity.
    rewrite Hv3, Htot. reflexivity.
  - intros H. inversion H; subst data'. rewrite Hl3. split; [exact Hall|].
    rewrite Hv3, Htot. reflexivity.
Qed.

End Validate.

End LedgerFacts.

(** * Claims about stored costs and calculated totals *)

(** Two forensic lines of 0.1 and 0.2: the items store the floats 0.1 and
    0.2, the calculated total is the float 0.3, and that is neither the
    float sum of the stored costs (0.30000000000000004), nor their exact
    sum, nor the exact decimal 3/10. *)
Lemma forensic_total_differs_from_sum :
  exists a,
    Forensic.extract_all_costs_forensic Sample.two_dimes = Ok a
    /\ map Forensic.cost_usd (Forensic.service_line_items a)
       = [PyFloat.of_ratio false 1 10; PyFloat.of_ratio false 2 10]
    /\ Forensic.calculated_total (Forensic.validation a)
       = PyFloat.of_ratio false 3 10
    /\ PyFloat.feq
         (Spec.float_sum (map Forensic.cost_usd (Forensic.service_line_items a)))
         (Forensic.calculated_total (Forensic.validation a)) = false
    /\ match Spec.exact_sum (map Forensic.cost_usd (Forensic.service_line_items a)),
             PyFloat.to_frac (Forensic.calculated_total (Forensic.validation a))
       with
       | Some s, Some t =>
           PyFloat.frac_eqb s t = false /\ PyFloat.frac_eqb t (3, 10)%Z = false
       | _, _ => False
       end.
Proof. eexists. vm_compute. repeat split. Qed.

(** C6 (amended) — What the calculated total is, where a summary is
    produced.  After classified extraction: the float conversion of the
    Decimal sum of the entries' costs (the entries being those reported,
    regrouped by category).  After forensic extraction: the float
    conversion of the Decimal sum of the amounts parsed from the items'
    lines, each item storing the float conversion of its own amount.
    After a reconciliation pass that appended items and over whose ledger
    the costs can be summed: that sum. *)
Theorem calculated_total_per_mode :
  (forall (text : PyStr.str) (a : Analyzer.analysis),
      Analyzer.analyze_aws_invoice text = Ok a ->
      exists usages,
        Permutation
          (List.concat (map snd (Analyzer.services_by_category a))) usages
        /\ Analyzer.total_entries a = List.length usages
        /\ Analyzer.calculated_total (Analyzer.validation a)
           = Dec.to_float (Spec.dec_sum (map Analyzer.cost usages)))
  /\ (forall text : PyStr.str,
         exists a,
           Forensic.extract_all_costs_forensic text = Ok a
           /\ Forall (fun it =>
                        exists c,
                          Spec.forensic_cost text it = Some c
                          /\ Forensic.cost_usd it = Dec.to_float c)
                     (Forensic.service_line_items a)
           /\ Forensic.calculated_total (Forensic.validation a)
              = Dec.to_float
                  (Spec.dec_sum
                     (map (fun it => Spec.or_zero (Spec.forensic_cost text it))
                          (Forensic.service_line_items a))))
  /\ (forall (client : bool)
             (oracle : Enhanced.request -> Enhanced.oracle_outcome)
             (pdf_text : PyStr.str) (a a' : Json.dict) (v : Json.json),
         Enhanced.returned
           (Enhanced.reconcile_missing_costs client oracle pdf_text a) = Ok a' ->
         Enhanced.ledger_of a' <> Enhanced.ledger_of a ->
         Enhanced.sum_cost_usd (Json.JInt 0) (Enhanced.ledger_of a') = Ok v ->
         Enhanced.validation_entry (PyStr.L "calculated_total") a' = Some v).
Proof.
  split; [|split].
  - intros text a Ha.
    destruct (ScanFacts.classified_returns text a Ha) as (st & [_ Ht] & ->).
    exists (Analyzer.service_usages st). split; [|split].
    + apply LedgerFacts.grouped_usages.
    + reflexivity.
    + simpl. rewrite Ht. reflexivity.
  - intros text.
    destruct (ScanFacts.forensic_returns text) as (st & [Hi Ht] & Hr).
    eexists. split; [exact Hr|]. simpl. split.
    + eapply Forall_impl; [|exact Hi]. simpl. intros it [_ Hc]. exact Hc.
    + rewrite Ht. reflexivity.
  - intros client oracle pdf_text a a' v Hr Hne Hsum.
    destruct (EnhancedFacts.reconcile_cases client oracle pdf_text a)
      as [[_ [H|[e H]]]|(calc & inv & d & req & _ & Ht & Hacc & _ & _ & H)];
      rewrite H in Hr; try discriminate; inversion Hr; subst a'.
    + congruence.
    + destruct (EnhancedFacts.guard_passed_validation_dict a calc inv d Ht Hacc)
        as [c Hc].
      eapply EnhancedFacts.try_reconcile_total; eassumption.
Qed.

Lemma calculated_total_per_mode_witness :
  (exists a usages,
      Analyzer.analyze_aws_invoice Sample.ec2_line = Ok a
      /\ Permutation
           (List.concat (map snd (Analyzer.services_by_category a))) usages
      /\ Analyzer.total_entries a = List.length usages
      /\ Analyzer.calculated_total (Analyzer.validation a)
         = Dec.to_float (Spec.dec_sum (map Analyzer.cost usages)))
  /\ (exists a',
         Enhanced.returned
           (Enhanced.reconcile_missing_costs true
              (Sample.respond_with [Sample.support_item]) []
              Sample.short_by_45_60) = Ok a'
         /\ Enhanced.validation_entry (PyStr.L "calculated_total") a'
            = Some (Json.JFloat Sample.f_3645_6)).
Proof.
  destruct calculated_total_per_mode as (Ha & _ & Hc). split.
  - assert (E : exists a, Analyzer.analyze_aws_invoice Sample.ec2_line = Ok a)
      by (eexists; vm_compute; reflexivity).
    destruct E as [a E]. destruct (Ha _ _ E) as (usages & H1 & H2 & H3).
    exists a, usages. auto.
  - eexists. split; [vm_compute; reflexivity|].
    eapply (Hc true (Sample.respond_with [Sample.support_item]) []
               Sample.short_by_45_60).
    + vm_compute. reflexivity.
    + vm_compute. intros H. discriminate H.
    + vm_compute. reflexivity.
Defined.

(** A forensic line of 0.1: the amount parsed is the decimal 1/10, the
    cost stored in the item is the float nearest to it, which is another
    number. *)
Lemma forensic_stores_binary_float :
  exists a it c,
    Forensic.extract_all_costs_forensic (PyStr.L "USD 0.1") = Ok a
    /\ Forensic.service_line_items a = [it]
    /\ Spec.forensic_cost (PyStr.L "USD 0.1") it = Some c
    /\ Dec.to_frac c = (1, 10)%Z
    /\ PyFloat.to_frac (Forensic.cost_usd it)
       = Some (7205759403792794, 72057594037927936)%Z
    /\ PyFloat.frac_eqb (7205759403792794, 72057594037927936)%Z (1, 10)%Z = false.
Proof.
  eexists. eexists. eexists.
  split; [vm_compute; reflexivity|].
  split; [vm_compute; reflexivity|].
  split; [vm_compute; reflexivity|].
  vm_compute. repeat split.
Qed.

(** * Further properties of the two classifiers *)

Module KeywordFacts.
Import PyStr.
Local Open Scope Z_scope.

(** A sum of non-negative terms is zero exactly when every term is. *)
Lemma Zsum_zero (l : list Z) :
  Forall (fun x => 0 <= x) l ->
  (Spec.Zsum l = 0 <-> Forall (fun x => x = 0) l).
Proof.
  induction l as [|x l IH]; simpl; intros H.
  - split; auto.
  - inversion H as [|? ? Hx Hl]; subst. specialize (IH Hl).
    assert (0 <= Spec.Zsum l).
    { clear -Hl. induction l as [|y l IH]; simpl; [lia|].
      inversion Hl; subst. specialize (IH H2). lia. }
    split.
    + intros Hs. constructor; [lia|]. apply IH. lia.
    + intros Hf. inversion Hf; subst. apply IH in H4. lia.
Qed.

(** A category scores nothing exactly when none of its keywords and
    units occurs in the line. *)
Lemma ref_score_zero (p : Analyzer.patterns) (line : str) :
  Props.keywords_have_words p = true ->
  (Spec.ref_score p line = 0
   <-> forall k, In k (Analyzer.keywords p ++ Analyzer.units p) ->
                 Spec.found k line = false).
Proof.
  intros Hw. unfold Props.keywords_have_words in Hw. rewrite forallb_forall in Hw.
  unfold Spec.ref_score.
  set (ks := map (fun keyword => if Spec.found keyword line
                                 then 2 * Z.of_nat (wordcount keyword) else 0)
                 (Analyzer.keywords p)).
  set (us := map (fun unit => if Spec.found unit line then 1 else 0)
                 (Analyzer.units p)).
  assert (Hks : Forall (fun x => 0 <= x) ks).
  { apply Forall_forall. intros x Hx. apply in_map_iff in Hx.
    destruct Hx as (k & <- & _). destruct (Spec.found k line); lia. }
  assert (Hus : Forall (fun x => 0 <= x) us).
  { apply Forall_forall. intros x Hx. apply in_map_iff in Hx.
    destruct Hx as (k & <- & _). destruct (Spec.found k line); lia. }
  assert (Hk0 : 0 <= Spec.Zsum ks).
  { clear -Hks. induction ks as [|y l IH]; simpl; [lia|].
    inversion Hks; subst. specialize (IH H2). lia. }
  assert (Hu0 : 0 <= Spec.Zsum us).
  { clear -Hus. induction us as [|y l IH]; simpl; [lia|].
    inversion Hus; subst. specialize (IH H2). lia. }
  split.
  - intros Hs k Hk.
    assert (Hzk : Spec.Zsum ks = 0) by lia.
    assert (Hzu : Spec.Zsum us = 0) by lia.
    apply (Zsum_zero _ Hks) in Hzk. apply (Zsum_zero _ Hus) in Hzu.
    rewrite Forall_forall in Hzk, Hzu.
    apply in_app_or in Hk. destruct Hk as [Hk|Hk].
    + specialize (Hzk (if Spec.found k line
                       then 2 * Z.of_nat (wordcount k) else 0)).
      destruct (Spec.found k line) eqn:Hf; [|reflexivity].
      assert (2 * Z.of_nat (wordcount k) = 0).
      { apply Hzk. unfold ks. apply in_map_iff. exists k. rewrite Hf. auto. }
      specialize (Hw k Hk). apply Nat.ltb_lt in Hw. lia.
    + specialize (Hzu (if Spec.found k line then 1 else 0)).
      destruct (Spec.found k line) eqn:Hf; [|reflexivity].
      assert (1 = 0); [|lia].
      apply Hzu. unfold us. apply in_map_iff. exists k. rewrite Hf. auto.
  - intros Hn.
    assert (Hzk : Spec.Zsum ks = 0).
    { apply (Zsum_zero _ Hks). apply Forall_forall. intros x Hx.
      unfold ks in Hx. apply in_map_iff in Hx. destruct Hx as (k & <- & Hk).
      rewrite (Hn k); [reflexivity|]. apply in_or_app. auto. }
    assert (Hzu : Spec.Zsum us = 0).
    { apply (Zsum_zero _ Hus). apply Forall_forall. intros x Hx.
      unfold us in Hx. apply in_map_iff in Hx. destruct Hx as (k & <- & Hk).
      rewrite (Hn k); [reflexivity|]. apply in_or_app. auto. }
    lia.
Qed.

(** The highest score is zero exactly when every category scores zero. *)
Lemma ref_top_zero (catalog : list (str * Analyzer.patterns)) (line : str) :
  Spec.ref_top catalog line = 0
  <-> forall cp, In cp catalog -> Spec.ref_score (snd cp) line = 0.
Proof.
  unfold Spec.ref_top. induction catalog as [|cp cat IH]; simpl.
  - split; [intros _ cp []|reflexivity].
  - pose proof (ClassifierFacts.ref_score_bounds (snd cp) line) as Hb.
    assert (H0 : 0 <= fold_right Z.max 0
                        (map (fun cp0 => Spec.ref_score (snd cp0) line) cat)).
    { clear. induction cat as [|c l IH]; simpl; lia. }
    split.
    + intros Hm x [<-|Hx]; [lia|]. apply IH; [lia|exact Hx].
    + intros Ha. assert (Spec.ref_score (snd cp) line = 0) by (apply Ha; auto).
      assert (fold_right Z.max 0
                (map (fun cp0 => Spec.ref_score (snd cp0) line) cat) = 0).
      { apply IH. intros x Hx. apply Ha. auto. }
      lia.
Qed.

(** On every score a line can reach, the confidence is at least 0.1. *)
Lemma confident_upto_87 (s : Z) :
  0 < s <= 87 ->
  PyFloat.flt (Analyzer.confidence_of s) PyFloat.lit_0_1 = false.
Proof.
  intros Hs.
  assert (Hall : forallb (fun z => negb (PyFloat.flt (Analyzer.confidence_of z)
                                           PyFloat.lit_0_1))
                         (Spec.Zrange 87) = true) by (vm_compute; reflexivity).
  rewrite forallb_forall in Hall.
  apply negb_true_iff. apply Hall.
  unfold Spec.Zrange. apply in_map_iff. exists (Z.to_nat s).
  split; [lia|]. apply in_seq. lia.
Qed.

End KeywordFacts.

(** X1 — The low-confidence filter of [analyze_aws_invoice]
    ([confidence < 0.1]) drops a line exactly when none of the keywords
    and units of the catalog occurs in it, case-insensitively: a single
    hit already gives a confidence of 0.1 or more. *)
Theorem low_confidence_means_no_keyword :
  forall line : PyStr.str,
    PyFloat.flt (snd (Analyzer.categorize_service line)) PyFloat.lit_0_1 = true
    <-> (forall category p k,
            In (category, p) Analyzer.service_patterns ->
            In k (Analyzer.keywords p ++ Analyzer.units p) ->
            Spec.found k line = false).
Proof.
  intros line.
  assert (Hw : forall cp, In cp Analyzer.service_patterns ->
                          Props.keywords_have_words (snd cp) = true).
  { apply forallb_forall. vm_compute. reflexivity. }
  unfold Analyzer.categorize_service.
  destruct (ClassifierFacts.categorize_with_ref Analyzer.service_patterns line)
    as (_ & Hc & _).
  rewrite Hc. clear Hc.
  pose proof (ClassifierFacts.ref_top_bounds line) as Hb.
  destruct (Z.leb_spec (Spec.ref_top Analyzer.service_patterns line) 0) as [Hle|Hgt].
  - assert (Hz : Spec.ref_top Analyzer.service_patterns line = 0%Z) by lia.
    split; [|intros _; vm_compute; reflexivity].
    intros _ category p k Hin Hk.
    apply KeywordFacts.ref_top_zero with (cp := (category, p)) in Hz; [|exact Hin].
    apply (KeywordFacts.ref_score_zero p line (Hw _ Hin)); assumption.
  - rewrite KeywordFacts.confident_upto_87 by lia.
    split; [discriminate|].
    intros Hn. exfalso.
    assert (Hz : Spec.ref_top Analyzer.service_patterns line = 0%Z); [|lia].
    apply KeywordFacts.ref_top_zero. intros [category p] Hin.
    apply (KeywordFacts.ref_score_zero p line (Hw _ Hin)).
    intros k Hk. exact (Hn category p k Hin Hk).
Qed.

(** X2 — In the forensic classifier the keyword "backup storage" of
    the Backup branch is shadowed by the same keyword of the RDS branch:
    a line that mentions it is filed under EC2 or RDS, and Backup is
    reached only by a line that mentions "aws backup". *)
Theorem backup_storage_is_never_backup :
  forall line : PyStr.str,
    (PyStr.contains (PyStr.L "backup storage") (PyStr.lower line) = true ->
     Forensic._categorize_service line = PyStr.L "EC2"
     \/ Forensic._categorize_service line = PyStr.L "RDS")
    /\ (Forensic._categorize_service line = PyStr.L "Backup" ->
        PyStr.contains (PyStr.L "aws backup") (PyStr.lower line) = true
        /\ PyStr.contains (PyStr.L "backup storage") (PyStr.lower line) = false).
Proof.
  intros line. unfold Forensic._categorize_service, Forensic.any_in.
  cbn [existsb].
  set (ll := PyStr.lower line).
  destruct (PyStr.contains (PyStr.L "backup storage") ll) eqn:Hbs.
  - cbn [orb]. rewrite !orb_true_r.
    split; [|intros H; exfalso; revert H].
    + intros _.
      match goal with |- context [if ?c then _ else _] => destruct c end; auto.
    + match goal with |- context [if ?c then _ else _] => destruct c end;
        intros H; vm_compute in H; discriminate.
  - split; [discriminate|].
    rewrite !orb_false_r.
    repeat lazymatch goal with
           | |- (if ?c then _ else _) = _ -> _ =>
               destruct c eqn:?
           end.
    all: try (intros H; vm_compute in H; discriminate).
    intros _. split; reflexivity.
Qed.

Lemma backup_storage_is_never_backup_witness :
  Forensic._categorize_service (PyStr.L "AWS Backup storage USD 5.00") = PyStr.L "EC2"
  \/ Forensic._categorize_service (PyStr.L "AWS Backup storage USD 5.00") = PyStr.L "RDS".
Proof.
  apply (proj1 (backup_storage_is_never_backup (PyStr.L "AWS Backup storage USD 5.00"))).
  vm_compute. reflexivity.
Defined.

(** * Further properties of the two ledger builders *)

Module GroupFacts.
Import PyStr.

Lemma str_eqb_sym (a b : str) : Analyzer.str_eqb a b = Analyzer.str_eqb b a.
Proof.
  destruct (Analyzer.str_eqb a b) eqn:H1, (Analyzer.str_eqb b a) eqn:H2; auto.
  - apply EnhancedFacts.str_eqb_eq in H1. subst.
    rewrite EnhancedFacts.str_eqb_refl in H2. discriminate.
  - apply EnhancedFacts.str_eqb_eq in H2. subst.
    rewrite EnhancedFacts.str_eqb_refl in H1. discriminate.
Qed.

Lemma str_eqb_neq (a b : str) : Analyzer.str_eqb a b = false <-> a <> b.
Proof.
  split.
  - intros H E. subst. rewrite EnhancedFacts.str_eqb_refl in H. discriminate.
  - intros H. destruct (Analyzer.str_eqb a b) eqn:E; [|reflexivity].
    apply EnhancedFacts.str_eqb_eq in E. contradiction.
Qed.

(** What [group_add] does to the keys: a new key goes last. *)
Lemma group_add_keys (c : str) (u : Analyzer.ServiceUsage)
      (d : list (str * list Analyzer.ServiceUsage)) :
  map fst (Analyzer.group_add c u d)
  = if existsb (fun k => Analyzer.str_eqb k c) (map fst d)
    then map fst d else map fst d ++ [c].
Proof.
  induction d as [|[k us] d IH]; simpl; [reflexivity|].
  destruct (Analyzer.str_eqb k c); simpl; [reflexivity|].
  rewrite IH. destruct (existsb _ _); reflexivity.
Qed.

Lemma total_add_keys (c : str) (x : Dec.dec) (d : list (str * Dec.dec)) :
  map fst (Analyzer.total_add c x d)
  = if existsb (fun k => Analyzer.str_eqb k c) (map fst d)
    then map fst d else map fst d ++ [c].
Proof.
  induction d as [|[k t] d IH]; simpl; [reflexivity|].
  destruct (Analyzer.str_eqb k c); simpl; [reflexivity|].
  rewrite IH. destruct (existsb _ _); reflexivity.
Qed.

Lemma existsb_keys (c : str) (ks : list str) :
  existsb (fun k => Analyzer.str_eqb k c) ks = true <-> In c ks.
Proof.
  rewrite existsb_exists. split.
  - intros (k & Hk & E). apply EnhancedFacts.str_eqb_eq in E. subst. exact Hk.
  - intros H. exists c. split; [exact H|apply EnhancedFacts.str_eqb_refl].
Qed.

Lemma group_add_nodup (c : str) (u : Analyzer.ServiceUsage)
      (d : list (str * list Analyzer.ServiceUsage)) :
  NoDup (map fst d) -> NoDup (map fst (Analyzer.group_add c u d)).
Proof.
  intros H. rewrite group_add_keys.
  destruct (existsb _ _) eqn:E; [exact H|].
  apply NoDup_app; [exact H|repeat constructor; intros []|].
  intros k Hk [<-|[]].
  apply existsb_keys in Hk. congruence.
Qed.

(** What [group_add] does to the groups. *)
Lemma lookup_group_add (k c : str) (u : Analyzer.ServiceUsage)
      (d : list (str * list Analyzer.ServiceUsage)) :
  Analyzer.lookup k (Analyzer.group_add c u d)
  = if Analyzer.str_eqb c k
    then Some (match Analyzer.lookup c d with
               | Some l => l ++ [u]
               | None => [u]
               end)
    else Analyzer.lookup k d.
Proof.
  induction d as [|[k' us] d IH]; simpl.
  - destruct (Analyzer.str_eqb c k); reflexivity.
  - destruct (Analyzer.str_eqb k' c) eqn:Ec; simpl.
    + apply EnhancedFacts.str_eqb_eq in Ec. subst k'.
      destruct (Analyzer.str_eqb c k); reflexivity.
    + destruct (Analyzer.str_eqb k' k) eqn:Ek.
      * apply EnhancedFacts.str_eqb_eq in Ek. subst k'.
        rewrite str_eqb_sym, Ec. reflexivity.
      * exact IH.
Qed.

(** After the loop the group of a category holds exactly the entries of
    that category, in their order. *)
Lemma lookup_fold_groups (us : list Analyzer.ServiceUsage) :
  forall (d : list (str * list Analyzer.ServiceUsage)) (k : str),
    Analyzer.lookup k
      (fold_left (fun d u => Analyzer.group_add (Analyzer.service_category u) u d)
                 us d)
    = match Analyzer.lookup k d, Props.of_category k us with
      | Some l, l' => Some (l ++ l')
      | None, [] => None
      | None, l' => Some l'
      end.
Proof.
  induction us as [|u us IH]; intros d k; simpl.
  - destruct (Analyzer.lookup k d); [rewrite app_nil_r|]; reflexivity.
  - rewrite IH, lookup_group_add. unfold Props.of_category. simpl.
    destruct (Analyzer.str_eqb (Analyzer.service_category u) k) eqn:E.
    + apply EnhancedFacts.str_eqb_eq in E. rewrite E.
      destruct (Analyzer.lookup k d) as [l|]; [rewrite <- app_assoc|]; reflexivity.
    + reflexivity.
Qed.

Lemma fold_groups_nodup (us : list Analyzer.ServiceUsage) :
  forall d : list (str * list Analyzer.ServiceUsage),
    NoDup (map fst d) ->
    NoDup (map fst (fold_left
                      (fun d u => Analyzer.group_add (Analyzer.service_category u) u d)
                      us d)).
Proof.
  induction us as [|u us IH]; intros d H; simpl; [exact H|].
  apply IH. apply group_add_nodup. exact H.
Qed.

(** In a list with distinct keys every entry is what [lookup] finds. *)
Lemma lookup_nodup (A : Type) (d : list (str * A)) (k : str) (v : A) :
  NoDup (map fst d) -> In (k, v) d -> Analyzer.lookup k d = Some v.
Proof.
  induction d as [|[k' v'] d IH]; simpl; intros Hn Hin; [contradiction|].
  inversion Hn as [|? ? Hk Hd]; subst.
  destruct Hin as [E|Hin].
  - inversion E; subst. rewrite EnhancedFacts.str_eqb_refl. reflexivity.
  - destruct (Analyzer.str_eqb k' k) eqn:E.
    + apply EnhancedFacts.str_eqb_eq in E. subst k'. exfalso. apply Hk.
      apply in_map_iff. exists (k, v). auto.
    + apply IH; assumption.
Qed.

Lemma lookup_in (A : Type) (d : list (str * A)) (k : str) (v : A) :
  Analyzer.lookup k d = Some v -> In (k, v) d.
Proof.
  induction d as [|[k' v'] d IH]; simpl; [discriminate|].
  destruct (Analyzer.str_eqb k' k) eqn:E.
  - apply EnhancedFacts.str_eqb_eq in E. subst. intros H; inversion H; auto.
  - auto.
Qed.

(** The groups and the totals are built side by side. *)
Lemma fold_totals (us : list Analyzer.ServiceUsage) :
  forall (dg : list (str * list Analyzer.ServiceUsage)) (dt : list (str * Dec.dec)),
    Forall2 (fun g t => fst t = fst g
                        /\ snd t = Spec.dec_sum (map Analyzer.cost (snd g))) dg dt ->
    Forall2 (fun g t => fst t = fst g
                        /\ snd t = Spec.dec_sum (map Analyzer.cost (snd g)))
            (fold_left (fun d u => Analyzer.group_add (Analyzer.service_category u) u d)
                       us dg)
            (fold_left (fun d u => Analyzer.total_add (Analyzer.service_category u)
                                     (Analyzer.cost u) d)
                       us dt).
Proof.
  induction us as [|u us IH]; intros dg dt H; simpl; [exact H|].
  apply IH. clear IH.
  induction H as [|[k g] [k' t] dg dt [Hk Ht] H IH]; simpl.
  - constructor; [|constructor]. split; reflexivity.
  - simpl in Hk, Ht. subst k'.
    destruct (Analyzer.str_eqb k (Analyzer.service_category u)).
    + constructor; [|exact H]. split; [reflexivity|]. simpl.
      rewrite map_app. simpl. rewrite ScanFacts.dec_sum_snoc, Ht. reflexivity.
    + constructor; [|exact IH]. split; [reflexivity|exact Ht].
Qed.

Lemma Forall2_map_r (A B C : Type) (R : A -> C -> Prop) (f : B -> C)
      (l : list A) (m : list B) :
  Forall2 (fun a b => R a (f b)) l m -> Forall2 R l (map f m).
Proof. induction 1; simpl; constructor; auto. Qed.

(** The complete description of the grouping. *)
Lemma grouping (usages : list Analyzer.ServiceUsage) (total : Dec.dec) :
  let a := Analyzer._group_and_analyze_services usages total in
  NoDup (map fst (Analyzer.services_by_category a))
  /\ Forall (fun g => snd g = Props.of_category (fst g) usages /\ snd g <> [])
            (Analyzer.services_by_category a)
  /\ (forall u, In u usages ->
                In (Analyzer.service_category u)
                   (map fst (Analyzer.services_by_category a)))
  /\ Forall2 (fun g t =>
                fst t = fst g
                /\ snd t = Dec.to_float (Spec.dec_sum (map Analyzer.cost (snd g))))
             (Analyzer.services_by_category a) (Analyzer.category_totals a).
Proof.
  cbn zeta. unfold Analyzer._group_and_analyze_services.
  cbn [Analyzer.services_by_category Analyzer.category_totals].
  set (groups := fold_left _ usages []).
  assert (Hn : NoDup (map fst groups)).
  { apply fold_groups_nodup. constructor. }
  assert (Hl : forall k, Analyzer.lookup k groups
                         = match Props.of_category k usages with
                           | [] => None
                           | l => Some l
                           end).
  { intros k. unfold groups. rewrite lookup_fold_groups. simpl.
    destruct (Props.of_category k usages); reflexivity. }
  split; [exact Hn|]. split; [|split].
  - apply Forall_forall. intros [k l] Hin. simpl.
    pose proof (lookup_nodup _ _ _ _ Hn Hin) as H. rewrite Hl in H.
    destruct (Props.of_category k usages) eqn:E; [discriminate|].
    inversion H; subst. split; [reflexivity|discriminate].
  - intros u Hu.
    specialize (Hl (Analyzer.service_category u)).
    assert (Hf : In u (Props.of_category (Analyzer.service_category u) usages)).
    { unfold Props.of_category. apply filter_In. split; [exact Hu|].
      apply EnhancedFacts.str_eqb_refl. }
    destruct (Props.of_category (Analyzer.service_category u) usages) as [|x l];
      [contradiction|].
    apply lookup_in in Hl. apply in_map_iff. exists (Analyzer.service_category u, x :: l).
    auto.
  - apply Forall2_map_r. simpl.
    pose proof (fold_totals usages [] [] (Forall2_nil _)) as H.
    fold groups in H. revert H. apply Forall2_impl. intros g t [H1 H2].
    split; [exact H1|]. rewrite H2. reflexivity.
Qed.

End GroupFacts.

Module TraceFacts.
Import PyStr.

Lemma sorted_snoc (l : list nat) (n : nat) :
  StronglySorted lt l -> Forall (fun x => x < n) l -> StronglySorted lt (l ++ [n]).
Proof.
  induction 1 as [|x l Hs IH Hx]; intros Hn; simpl.
  - repeat constructor.
  - inversion Hn; subst. constructor; [auto|].
    apply Forall_app. split; [exact Hx|]. repeat constructor. assumption.
Qed.

Lemma sorted_filter (A : Type) (f : A -> nat) (p : A -> bool) (l : list A) :
  StronglySorted lt (map f l) -> StronglySorted lt (map f (filter p l)).
Proof.
  induction l as [|x l IH]; simpl; intros H; [constructor|].
  inversion H as [|? ? Hs Hx]; subst. destruct (p x); simpl; [|auto].
  constructor; [auto|].
  rewrite Forall_forall in *. intros y Hy. apply Hx.
  apply in_map_iff in Hy. destruct Hy as (z & <- & Hz).
  apply filter_In in Hz. apply in_map. tauto.
Qed.

Lemma Forall_filter_weak (A : Type) (P : A -> Prop) (p : A -> bool) (l : list A) :
  Forall P l -> Forall P (filter p l).
Proof.
  rewrite !Forall_forall. intros H x Hx. apply filter_In in Hx. apply H. tauto.
Qed.

Lemma numbered_snoc (seen : nat) (ns : list nat) :
  Props.numbered_upto seen ns -> Props.numbered_upto (S seen) (ns ++ [S seen]).
Proof.
  intros [Hs Hr]. split.
  - apply sorted_snoc; [exact Hs|].
    eapply Forall_impl; [|exact Hr]. simpl. intros; lia.
  - apply Forall_app. split.
    + eapply Forall_impl; [|exact Hr]. simpl. intros; lia.
    + constructor; [lia|constructor].
Qed.

Lemma numbered_weaken (seen : nat) (ns : list nat) :
  Props.numbered_upto seen ns -> Props.numbered_upto (S seen) ns.
Proof.
  intros [Hs Hr]. split; [exact Hs|].
  eapply Forall_impl; [|exact Hr]. simpl. intros; lia.
Qed.

(** ** Classified mode *)

Lemma classified_scan_line_trace (pre rest : list str) (line : str)
      (st st' : Analyzer.scan_state) :
  Props.numbered_upto (List.length pre)
    (map Analyzer.line_number (Analyzer.service_usages st)) ->
  Forall (Props.classified_quotes (pre ++ line :: rest)) (Analyzer.service_usages st) ->
  Analyzer.scan_line st (S (List.length pre)) line = Ok st' ->
  Props.numbered_upto (S (List.length pre))
    (map Analyzer.line_number (Analyzer.service_usages st'))
  /\ Forall (Props.classified_quotes (pre ++ line :: rest)) (Analyzer.service_usages st').
Proof.
  intros Hn Hq. unfold Analyzer.scan_line.
  destruct (Dec.is_nil (strip line) || (List.length (strip line) <? 10))%bool eqn:Hlen;
    [intros H; inversion H; subst; split; [apply numbered_weaken|]; assumption|].
  rewrite CostFacts.extract_cost_refines. unfold bind.
  destruct (Spec.first_parsed Analyzer.cost_patterns (strip line)) as [c|] eqn:Hc;
    [|intros H; inversion H; subst; split; [apply numbered_weaken|]; assumption].
  destruct (Dec.is_zero c) eqn:Hz;
    [intros H; inversion H; subst; split; [apply numbered_weaken|]; assumption|].
  destruct (Analyzer.categorize_service (strip line)) as [category confidence] eqn:Hcat.
  destruct (PyFloat.flt confidence PyFloat.lit_0_1) eqn:Hconf;
    [intros H; inversion H; subst; split; [apply numbered_weaken|]; assumption|].
  destruct (Analyzer._extract_service_name (strip line) category) as [name|e];
    [|discriminate].
  intros H; inversion H; subst st'; clear H.
  cbn [Analyzer.service_usages]. split.
  - rewrite map_app. cbn [map Analyzer.line_number]. apply numbered_snoc. exact Hn.
  - apply Forall_app. split; [exact Hq|]. constructor; [|constructor].
    unfold Props.classified_quotes. cbn [Analyzer.line_number Analyzer.raw_line
      Analyzer.cost Analyzer.service_category].
    rewrite ScanFacts.nth_middle_line, Hcat. cbn [fst snd].
    apply orb_false_iff in Hlen. destruct Hlen as [_ Hlen].
    apply Nat.ltb_ge in Hlen. repeat split; assumption.
Qed.

Lemma classified_scan_lines_trace (rest : list str) :
  forall (pre : list str) (st st' : Analyzer.scan_state),
    Props.numbered_upto (List.length pre)
      (map Analyzer.line_number (Analyzer.service_usages st)) ->
    Forall (Props.classified_quotes (pre ++ rest)) (Analyzer.service_usages st) ->
    Analyzer.scan_lines st (S (List.length pre)) rest = Ok st' ->
    Props.numbered_upto (List.length (pre ++ rest))
      (map Analyzer.line_number (Analyzer.service_usages st'))
    /\ Forall (Props.classified_quotes (pre ++ rest)) (Analyzer.service_usages st').
Proof.
  induction rest as [|line rest IH]; intros pre st st' Hn Hq; simpl.
  - intros H; inversion H; subst. rewrite app_nil_r in *. auto.
  - destruct (Analyzer.scan_line st (S (List.length pre)) line) as [st1|e] eqn:H1;
      [|discriminate].
    simpl. intros H2.
    destruct (classified_scan_line_trace pre rest line st st1 Hn Hq H1) as [Hn1 Hq1].
    specialize (IH (pre ++ [line]) st1 st').
    rewrite <- app_assoc in IH. simpl in IH.
    rewrite length_app in IH. simpl in IH. rewrite Nat.add_1_r in IH.
    apply IH; assumption.
Qed.

Lemma classified_trace (text : str) (a : Analyzer.analysis) :
  Analyzer.analyze_aws_invoice text = Ok a ->
  exists usages total,
    a = Analyzer._group_and_analyze_services usages total
    /\ Props.numbered_upto (List.length (split_on newline text))
         (map Analyzer.line_number usages)
    /\ Forall (Props.classified_quotes (split_on newline text)) usages.
Proof.
  unfold Analyzer.analyze_aws_invoice.
  destruct (Analyzer.scan_lines Analyzer.scan_init 1 (split_on newline text))
    as [st|e] eqn:Hs; [|discriminate].
  simpl. intros H; inversion H; subst a.
  exists (Analyzer.service_usages st), (Analyzer.total_cost st).
  split; [reflexivity|].
  apply (classified_scan_lines_trace (split_on newline text) [] Analyzer.scan_init st).
  - split; constructor.
  - constructor.
  - exact Hs.
Qed.

(** ** Forensic mode *)

Lemma forensic_scan_line_trace (pre rest : list str) (line : str)
      (st : Forensic.scan_state) :
  Props.numbered_upto (List.length pre)
    (map Forensic.line_number (Forensic.service_items st)) ->
  Forall (Props.forensic_quotes (pre ++ line :: rest)) (Forensic.service_items st) ->
  exists st',
    Forensic.scan_line st (S (List.length pre)) line = Ok st'
    /\ Props.numbered_upto (S (List.length pre))
         (map Forensic.line_number (Forensic.service_items st'))
    /\ Forall (Props.forensic_quotes (pre ++ line :: rest)) (Forensic.service_items st').
Proof.
  intros Hn Hq. unfold Forensic.scan_line.
  destruct (Dec.is_nil (strip line));
    [exists st; split; [reflexivity|split; [apply numbered_weaken|]; assumption]|].
  rewrite CostFacts.forensic_cost_refines. unfold bind.
  destruct (Spec.first_parsed Forensic.cost_patterns (strip line)) as [c|];
    [|exists st; split; [reflexivity|split; [apply numbered_weaken|]; assumption]].
  destruct (Forensic._create_service_item (strip line) c (S (List.length pre)))
    as [it|e] eqn:Hit;
    [|exists st; split; [reflexivity|split; [apply numbered_weaken|]; assumption]].
  eexists. split; [reflexivity|].
  unfold Forensic._create_service_item, bind in Hit.
  destruct (Forensic._extract_service_name _ _); [|discriminate].
  inversion Hit; subst it; clear Hit.
  cbn [Forensic.service_items]. split.
  - rewrite map_app. cbn [map Forensic.line_number]. apply numbered_snoc. exact Hn.
  - apply Forall_app. split; [exact Hq|]. constructor; [|constructor].
    unfold Props.forensic_quotes.
    cbn [Forensic.line_number Forensic.line_text Forensic.service_category].
    rewrite ScanFacts.nth_middle_line. split; reflexivity.
Qed.

Lemma forensic_scan_lines_trace (rest : list str) :
  forall (pre : list str) (st : Forensic.scan_state),
    Props.numbered_upto (List.length pre)
      (map Forensic.line_number (Forensic.service_items st)) ->
    Forall (Props.forensic_quotes (pre ++ rest)) (Forensic.service_items st) ->
    exists st',
      Forensic.scan_lines st (S (List.length pre)) rest = Ok st'
      /\ Props.numbered_upto (List.length (pre ++ rest))
           (map Forensic.line_number (Forensic.service_items st'))
      /\ Forall (Props.forensic_quotes (pre ++ rest)) (Forensic.service_items st').
Proof.
  induction rest as [|line rest IH]; intros pre st Hn Hq; simpl.
  - exists st. rewrite app_nil_r in *. auto.
  - destruct (forensic_scan_line_trace pre rest line st Hn Hq) as (st1 & -> & Hn1 & Hq1).
    simpl. specialize (IH (pre ++ [line]) st1).
    rewrite <- app_assoc in IH. simpl in IH.
    rewrite length_app in IH. simpl in IH. rewrite Nat.add_1_r in IH.
    apply IH; assumption.
Qed.

(** ** What [_extract_service_name] can raise *)

(** A match of a literal pattern starts with the literal. *)
Lemma match_lit_starts (R : Type) (s : str) :
  forall (t : str) (cap : option str) (k : str -> option str -> option R) (x : R),
    Re.match_k false (Re.lit s) t cap k = Some x -> starts_with s t = true.
Proof.
  induction s as [|c s IH]; intros t cap k x; simpl; [reflexivity|].
  destruct t as [|c' t]; [discriminate|].
  unfold chr_eqb. destruct (Ascii.eqb c' c) eqn:E; [|discriminate].
  apply Ascii.eqb_eq in E. subst c'. rewrite Ascii.eqb_refl. simpl.
  apply IH.
Qed.

Lemma search_lit_contains (s t : str) (m : Re.rmatch) :
  Re.search false (Re.lit s) t = Some m -> contains s t = true.
Proof.
  induction t as [|c t IH]; simpl.
  - destruct (Re.match_here false (Re.lit s) []) eqn:E; [|discriminate].
    intros _. unfold Re.match_here in E. apply match_lit_starts in E.
    rewrite E. reflexivity.
  - destruct (Re.match_here false (Re.lit s) (c :: t)) eqn:E.
    + intros _. unfold Re.match_here in E. apply match_lit_starts in E.
      rewrite E. reflexivity.
    + intros H. rewrite (IH H). apply orb_true_r.
Qed.

Lemma ngroups_lit (s : str) : Re.ngroups (Re.lit s) = 0.
Proof. induction s; simpl; auto. Qed.

Lemma search_grouped_ic (ic : bool) (p : Re.re) (line : str) (m : Re.rmatch) :
  ReSpec.grouped p = true -> Re.search ic p line = Some m ->
  exists g, Re.m_group1 m = Some g /\ Re.group1 p m = Ok (Some g).
Proof.
  unfold ReSpec.grouped. intros Hg Hs. apply andb_true_iff in Hg.
  destruct Hg as [Hn Hsg].
  apply ReFacts.search_sound in Hs. destruct Hs as (pre & s0 & _ & Hm).
  pose proof (ReFacts.matches_sets_group _ _ _ _ _ _ Hm (or_introl Hsg)) as Hc.
  destruct (Re.m_group1 m) as [g|] eqn:Hg1; [|congruence].
  exists g. split; [reflexivity|]. unfold Re.group1.
  destruct (Re.ngroups p); [discriminate|]. rewrite Hg1. reflexivity.
Qed.

Lemma extract_service_name_raises (line category : str) (e : exn) :
  Analyzer._extract_service_name line category = Raise e ->
  e = IndexError
  /\ Analyzer.lookup category Analyzer.name_patterns = None
  /\ contains (lower category) (lower line) = true.
Proof.
  unfold Analyzer._extract_service_name.
  destruct (Analyzer.lookup category Analyzer.name_patterns) as [p|] eqn:Hl.
  - assert (Hg : ReSpec.grouped p = true).
    { assert (Hall : forallb (fun kp => ReSpec.grouped (snd kp))
                             Analyzer.name_patterns = true)
        by (vm_compute; reflexivity).
      rewrite forallb_forall in Hall.
      apply GroupFacts.lookup_in in Hl. exact (Hall _ Hl). }
    destruct (Re.search false p (lower line)) as [m|] eqn:Hs; [|discriminate].
    destruct (search_grouped_ic _ _ _ _ Hg Hs) as (g & Hg1 & Hg2).
    rewrite Hg2. simpl. discriminate.
  - destruct (Re.search false (Re.lit (lower category)) (lower line)) as [m|] eqn:Hs;
      [|discriminate].
    unfold Re.group1. rewrite ngroups_lit. simpl.
    intros H; inversion H; subst.
    split; [reflexivity|]. split; [reflexivity|].
    eapply search_lit_contains; eassumption.
Qed.

Lemma scan_line_raises (st : Analyzer.scan_state) (n : nat) (line : str) (e : exn) :
  Analyzer.scan_line st n line = Raise e ->
  e = IndexError
  /\ Analyzer.lookup (fst (Analyzer.categorize_service (strip line)))
                     Analyzer.name_patterns = None
  /\ contains (lower (fst (Analyzer.categorize_service (strip line))))
              (lower (strip line)) = true.
Proof.
  unfold Analyzer.scan_line.
  destruct (Dec.is_nil (strip line) || (List.length (strip line) <? 10))%bool;
    [discriminate|].
  rewrite CostFacts.extract_cost_refines. unfold bind.
  destruct (Spec.first_parsed Analyzer.cost_patterns (strip line)) as [c|];
    [|discriminate].
  destruct (Dec.is_zero c); [discriminate|].
  destruct (Analyzer.categorize_service (strip line)) as [category confidence].
  destruct (PyFloat.flt confidence PyFloat.lit_0_1); [discriminate|].
  destruct (Analyzer._extract_service_name (strip line) category) as [name|e'] eqn:He;
    [discriminate|].
  intros H; inversion H; subst e'. cbn [fst].
  eapply extract_service_name_raises; eassumption.
Qed.

Lemma scan_lines_raises (lines : list str) :
  forall (st : Analyzer.scan_state) (n : nat) (e : exn),
    Analyzer.scan_lines st n lines = Raise e ->
    e = IndexError
    /\ exists line,
        In line lines
        /\ Analyzer.lookup (fst (Analyzer.categorize_service (strip line)))
                           Analyzer.name_patterns = None
        /\ contains (lower (fst (Analyzer.categorize_service (strip line))))
                    (lower (strip line)) = true.
Proof.
  induction lines as [|line rest IH]; intros st n e; cbn [Analyzer.scan_lines];
    [discriminate|].
  destruct (Analyzer.scan_line st n line) as [st1|e1] eqn:H1; unfold bind.
  - intros H. destruct (IH _ _ _ H) as (He & l & Hin & Hl).
    split; [exact He|]. exists l. split; [right; exact Hin|exact Hl].
  - intros H; inversion H; subst e1.
    destruct (scan_line_raises _ _ _ _ H1) as (He & Hl).
    split; [exact He|]. exists line. split; [left; reflexivity|exact Hl].
Qed.

End TraceFacts.

(** X3 — [_group_and_analyze_services] files every entry under its own
    category and nowhere else: the keys are distinct, the group of a key
    is exactly the entries of that category in ledger order (so no group
    is empty and every category met has a group), and each category
    total is the float of the decimal sum of the costs of its group. *)
Theorem grouping_is_a_partition :
  forall (usages : list Analyzer.ServiceUsage) (total : Dec.dec),
    let a := Analyzer._group_and_analyze_services usages total in
    NoDup (map fst (Analyzer.services_by_category a))
    /\ Forall (fun g => snd g = Props.of_category (fst g) usages /\ snd g <> [])
              (Analyzer.services_by_category a)
    /\ (forall u, In u usages ->
                  In (Analyzer.service_category u)
                     (map fst (Analyzer.services_by_category a)))
    /\ Forall2 (fun g t =>
                  fst t = fst g
                  /\ snd t = Dec.to_float (Spec.dec_sum (map Analyzer.cost (snd g))))
               (Analyzer.services_by_category a) (Analyzer.category_totals a).
Proof. exact GroupFacts.grouping. Qed.

(** X4 — Every entry of a classified analysis can be traced to its
    line: within each group the line numbers increase strictly and lie
    within the text, and an entry keeps the stripped text of the line
    with its number, which has ten characters or more, carries a non-zero
    amount and is classified, with a confidence of 0.1 or more, into the
    category of the group. *)
Theorem classified_entries_follow_the_lines :
  forall (text : PyStr.str) (a : Analyzer.analysis),
    Analyzer.analyze_aws_invoice text = Ok a ->
    Forall (fun g =>
              Props.numbered_upto
                (List.length (PyStr.split_on PyStr.newline text))
                (map Analyzer.line_number (snd g))
              /\ Forall (fun u =>
                           Props.classified_quotes
                             (PyStr.split_on PyStr.newline text) u
                           /\ Analyzer.service_category u = fst g)
                        (snd g))
           (Analyzer.services_by_category a).
Proof.
  intros text a Ha.
  destruct (TraceFacts.classified_trace text a Ha) as (usages & total & -> & [Hs Hr] & Hq).
  destruct (GroupFacts.grouping usages total) as (_ & Hg & _).
  eapply Forall_impl; [|exact Hg]. simpl. intros g [Hf _]. rewrite Hf.
  unfold Props.of_category. split; [split|].
  - apply TraceFacts.sorted_filter. exact Hs.
  - rewrite Forall_forall in *. intros n Hn. apply Hr.
    apply in_map_iff in Hn. destruct Hn as (u & <- & Hu).
    apply filter_In in Hu. apply in_map. tauto.
  - rewrite Forall_forall in *. intros u Hu. apply filter_In in Hu.
    destruct Hu as [Hu He]. split; [apply Hq; exact Hu|].
    apply EnhancedFacts.str_eqb_eq. exact He.
Qed.

Lemma classified_entries_follow_the_lines_witness :
  exists a,
    Analyzer.analyze_aws_invoice Sample.ec2_line = Ok a
    /\ Forall (fun g =>
                 Props.numbered_upto
                   (List.length (PyStr.split_on PyStr.newline Sample.ec2_line))
                   (map Analyzer.line_number (snd g))
                 /\ Forall (fun u =>
                              Props.classified_quotes
                                (PyStr.split_on PyStr.newline Sample.ec2_line) u
                              /\ Analyzer.service_category u = fst g)
                           (snd g))
              (Analyzer.services_by_category a).
Proof.
  destruct (Analyzer.analyze_aws_invoice Sample.ec2_line) as [a|e] eqn:E;
    [|vm_compute in E; discriminate].
  exists a. split; [reflexivity|].
  exact (classified_entries_follow_the_lines Sample.ec2_line a E).
Defined.

(** X5 — [analyze_aws_invoice] raises nothing but [IndexError], and
    only on a text with a line whose category has no name pattern while
    the lower-cased name of the category occurs in the line: the pattern
    searched is then the bare name, without the group that
    [match.group(1)] asks for. *)
Theorem analyze_raises_only_index_error :
  forall (text : PyStr.str) (e : exn),
    Analyzer.analyze_aws_invoice text = Raise e ->
    e = IndexError
    /\ exists line,
        In line (PyStr.split_on PyStr.newline text)
        /\ Analyzer.lookup
             (fst (Analyzer.categorize_service (PyStr.strip line)))
             Analyzer.name_patterns = None
        /\ PyStr.contains
             (PyStr.lower (fst (Analyzer.categorize_service (PyStr.strip line))))
             (PyStr.lower (PyStr.strip line)) = true.
Proof.
  intros text e. unfold Analyzer.analyze_aws_invoice.
  destruct (Analyzer.scan_lines Analyzer.scan_init 1
              (PyStr.split_on PyStr.newline text)) as [st|e'] eqn:Hs;
    [discriminate|].
  unfold bind. intros H; inversion H; subst e'.
  exact (TraceFacts.scan_lines_raises _ _ _ _ Hs).
Qed.

Lemma analyze_raises_only_index_error_witness :
  IndexError = IndexError
  /\ exists line,
      In line (PyStr.split_on PyStr.newline (PyStr.L "AWS Backup vault USD 5.00"))
      /\ Analyzer.lookup
           (fst (Analyzer.categorize_service (PyStr.strip line)))
           Analyzer.name_patterns = None
      /\ PyStr.contains
           (PyStr.lower (fst (Analyzer.categorize_service (PyStr.strip line))))
           (PyStr.lower (PyStr.strip line)) = true.
Proof.
  apply (analyze_raises_only_index_error (PyStr.L "AWS Backup vault USD 5.00")).
  vm_compute. reflexivity.
Defined.

(** X6 — The forensic ledger follows the text: whatever the text,
    [extract_all_costs_forensic] returns, [total_line_items] is the
    length of the ledger, the line numbers of the items increase
    strictly and lie within the text (a line gives at most one item),
    and every item quotes the first hundred characters of the stripped
    line with its number and is filed under the category of that line. *)
Theorem forensic_items_follow_the_lines :
  forall text : PyStr.str,
    exists a,
      Forensic.extract_all_costs_forensic text = Ok a
      /\ Forensic.total_line_items a = List.length (Forensic.service_line_items a)
      /\ Props.numbered_upto
           (List.length (PyStr.split_on PyStr.newline text))
           (map Forensic.line_number (Forensic.service_line_items a))
      /\ Forall (Props.forensic_quotes (PyStr.split_on PyStr.newline text))
                (Forensic.service_line_items a).
Proof.
  intros text.
  destruct (TraceFacts.forensic_scan_lines_trace
              (PyStr.split_on PyStr.newline text) [] Forensic.scan_init)
    as (st & Hs & Hn & Hq).
  - split; constructor.
  - constructor.
  - eexists. split.
    + unfold Forensic.extract_all_costs_forensic.
      rewrite CostFacts.find_invoice_total_refines. simpl in Hs. unfold bind.
      rewrite Hs. reflexivity.
    + cbn [Forensic.summarize Forensic.total_line_items Forensic.service_line_items].
      split; [reflexivity|]. split; assumption.
Qed.

(** * Further properties of validation and reconciliation *)

Module ValidateFacts.
Import PyStr Json Enhanced.

(** Storing under a key the value it already holds changes nothing. *)
Lemma dict_set_same (k : str) (v : json) (d : dict) :
  dict_lookup k d = Some v -> dict_set k v d = d.
Proof.
  unfold dict_lookup. induction d as [|[k' w] d IH]; simpl; [discriminate|].
  destruct (Analyzer.str_eqb k' k).
  - intros H; inversion H; reflexivity.
  - intros H. rewrite (IH H). reflexivity.
Qed.

Lemma set_cost_validation_same (k : str) (v : json) (d : dict) :
  (exists c, dict_lookup (L "cost_validation") d = Some (JDict c)) ->
  validation_entry k d = Some v ->
  set_cost_validation k v d = Ok d.
Proof.
  intros [c Hc] Hv. rewrite (EnhancedFacts.set_cost_validation_ok _ _ _ _ Hc).
  unfold validation_entry in Hv. rewrite Hc in Hv.
  rewrite (dict_set_same _ _ _ Hv). rewrite (dict_set_same _ _ _ Hc). reflexivity.
Qed.

(** [set_cost_validation] touches the entry ['cost_validation'] only. *)
Lemma set_cost_validation_other (k : str) (v : json) (d d' : dict) (key : str) :
  set_cost_validation k v d = Ok d' ->
  Analyzer.str_eqb (L "cost_validation") key = false ->
  dict_lookup key d' = dict_lookup key d.
Proof.
  intros H Hk. destruct (EnhancedFacts.set_cost_validation_inv _ _ _ _ H) as (c & _ & ->).
  apply EnhancedFacts.lookup_set_other. exact Hk.
Qed.

Lemma with_validation_other (d : dict) (key : str) :
  Analyzer.str_eqb (L "cost_validation") key = false ->
  dict_lookup key (Props.with_validation d) = dict_lookup key d.
Proof.
  intros Hk. unfold Props.with_validation.
  destruct (dict_lookup (L "cost_validation") d); [reflexivity|].
  apply EnhancedFacts.lookup_set_other. exact Hk.
Qed.

Lemma with_validation_entry (d : dict) (key : str) :
  validation_entry key (Props.with_validation d) = validation_entry key d.
Proof.
  unfold Props.with_validation, validation_entry.
  destruct (dict_lookup (L "cost_validation") d) eqn:E; [rewrite E; reflexivity|].
  rewrite EnhancedFacts.lookup_set_same. reflexivity.
Qed.

Section Validate.
Variable float_of_str : str -> result PyFloat.float.

(** The run of a validation that goes through the ledger, step by step. *)
Lemma validate_steps (data data' : dict) (raw : json) :
  data <> [] ->
  dict_lookup (L "service_line_items") data = Some raw ->
  validate_and_enhance_analysis float_of_str data = Ok data' ->
  exists items cleaned total e3 inv,
    py_iter raw = Ok items
    /\ clean_items float_of_str items [] PyFloat.zero = Ok (cleaned, total)
    /\ set_cost_validation (L "calculated_total") (JFloat total)
         (Props.with_validation
            (dict_set (L "service_line_items") (JList cleaned) data))
       = Ok e3
    /\ Props.summary_total e3 = Ok inv
    /\ if truthy inv then
         exists d difference e4 passed,
           py_sub (JFloat total) inv = Ok d
           /\ py_abs d = Ok difference
           /\ set_cost_validation (L "difference") difference e3 = Ok e4
           /\ py_lt_float difference PyFloat.lit_1_0 = Ok passed
           /\ set_cost_validation (L "validation_passed") (JBool passed) e4
              = Ok data'
       else data' = e3.
Proof.
  intros Hne Hraw. unfold validate_and_enhance_analysis.
  destruct data as [|kv data0]; [congruence|]. rewrite Hraw.
  set (data := kv :: data0) in *.
  unfold bind at 1. destruct (py_iter raw) as [items|] eqn:Hiter; [|discriminate].
  unfold bind at 1.
  destruct (clean_items float_of_str items [] PyFloat.zero)
    as [[cleaned total]|] eqn:Hclean; [|discriminate].
  fold (Props.with_validation (dict_set (L "service_line_items") (JList cleaned) data)).
  unfold bind at 1.
  destruct (set_cost_validation (L "calculated_total") (JFloat total) _)
    as [e3|] eqn:H3; [|discriminate].
  fold (Props.summary_total e3). unfold Props.summary_total.
  unfold bind at 1.
  destruct (py_get (JDict e3) (L "invoice_summary") (JDict [])) as [summary|] eqn:Hsum;
    [|discriminate].
  unfold bind at 1.
  destruct (py_get summary (L "total_invoice_amount") JNull) as [inv|] eqn:Hinv;
    [|discriminate].
  intros H. exists items, cleaned, total, e3, inv.
  split; [reflexivity|]. split; [exact Hclean|]. split; [exact H3|].
  split; [unfold Props.summary_total, bind; rewrite Hsum; exact Hinv|].
  destruct (truthy inv); [|inversion H; reflexivity].
  revert H. unfold bind at 1.
  destruct (py_sub (JFloat total) inv) as [d|] eqn:Hd; [|discriminate].
  unfold bind at 1. destruct (py_abs d) as [difference|] eqn:Ha; [|discriminate].
  unfold bind at 1.
  destruct (set_cost_validation (L "difference") difference e3)
    as [e4|] eqn:H4; [|discriminate].
  unfold bind at 1.
  destruct (py_lt_float difference PyFloat.lit_1_0) as [passed|] eqn:Hp;
    [|discriminate].
  intros H5. exists d, difference, e4, passed. repeat split; assumption.
Qed.

(** What a cleaned item looks like. *)
Lemma clean_item_shape (item c : json) :
  clean_item float_of_str item = Ok c ->
  exists k1 k2 k3 k4 q k6 k7 x k9,
    c = JDict [ (L "service_category", k1); (L "service_name", k2);
                (L "service_type", k3); (L "region", k4);
                (L "usage_quantity", JFloat q); (L "usage_unit", k6);
                (L "rate_description", k7); (L "cost_usd", JFloat x);
                (L "line_text", k9) ].
Proof.
  unfold clean_item, bind.
  repeat match goal with
         | |- match ?x with Ok _ => _ | Raise _ => _ end = _ -> _ =>
             destruct x; [|discriminate]
         end.
  intros H. inversion H. repeat eexists.
Qed.

Lemma clean_items_each (items : list json) :
  forall (acc cleaned : list json) (total total' : PyFloat.float),
    clean_items float_of_str items acc total = Ok (cleaned, total') ->
    exists cs, cleaned = acc ++ cs
               /\ Forall2 (fun item c => clean_item float_of_str item = Ok c) items cs.
Proof.
  induction items as [|item rest IH]; intros acc cleaned total total'; simpl.
  - intros H. inversion H; subst. exists []. rewrite app_nil_r. split; constructor.
  - destruct (clean_item float_of_str item) as [c|] eqn:Hc; [|discriminate].
    simpl. destruct (cost_of_cleaned c) as [x|]; [|discriminate]. simpl.
    intros H. destruct (IH _ _ _ _ H) as (cs & -> & Hf).
    exists (c :: cs). rewrite <- app_assoc. split; [reflexivity|].
    constructor; assumption.
Qed.

End Validate.

(** A cleaned item is left as it is by a second cleaning, whatever the
    parser of strings. *)
Lemma clean_item_idem (f g : str -> result PyFloat.float) (item c : json) :
  clean_item f item = Ok c -> clean_item g c = Ok c.
Proof.
  intros H. destruct (clean_item_shape _ _ _ H)
    as (k1 & k2 & k3 & k4 & q & k6 & k7 & x & k9 & ->).
  reflexivity.
Qed.

Lemma clean_items_idem (g : str -> result PyFloat.float) (cs : list json) :
  forall (acc : list json) (total : PyFloat.float),
    Forall (fun c => clean_item g c = Ok c) cs ->
    exists total', clean_items g cs acc total = Ok (acc ++ cs, total').
Proof.
  induction cs as [|c cs IH]; intros acc total H; simpl.
  - exists total. rewrite app_nil_r. reflexivity.
  - inversion H as [|? ? Hc Hcs]; subst. rewrite Hc. simpl.
    destruct (LedgerFacts.clean_item_float _ _ _ Hc) as [_ Hcost].
    rewrite Hcost. simpl.
    destruct (IH (acc ++ [c]) (PyFloat.fadd total (Spec.float_cost c)) Hcs)
      as (t' & Ht).
    exists t'. rewrite Ht, <- app_assoc. reflexivity.
Qed.

(** Everything a validation that goes through the ledger leaves behind. *)
Lemma validate_facts (f : str -> result PyFloat.float) (data data' : dict)
      (raw : json) :
  data <> [] ->
  dict_lookup (L "service_line_items") data = Some raw ->
  validate_and_enhance_analysis f data = Ok data' ->
  exists items cleaned total inv,
    py_iter raw = Ok items
    /\ clean_items f items [] PyFloat.zero = Ok (cleaned, total)
    /\ Forall2 (fun item c => clean_item f item = Ok c) items cleaned
    /\ dict_lookup (L "service_line_items") data' = Some (JList cleaned)
    /\ (exists c, dict_lookup (L "cost_validation") data' = Some (JDict c))
    /\ (forall key, Analyzer.str_eqb (L "service_line_items") key = false ->
                    Analyzer.str_eqb (L "cost_validation") key = false ->
                    dict_lookup key data' = dict_lookup key data)
    /\ validation_entry (L "calculated_total") data' = Some (JFloat total)
    /\ Props.summary_total data = Ok inv
    /\ (forall key, Analyzer.str_eqb (L "calculated_total") key = false ->
                    Analyzer.str_eqb (L "difference") key = false ->
                    Analyzer.str_eqb (L "validation_passed") key = false ->
                    validation_entry key data' = validation_entry key data)
    /\ if truthy inv then
         exists d difference passed,
           py_sub (JFloat total) inv = Ok d
           /\ py_abs d = Ok difference
           /\ py_lt_float difference PyFloat.lit_1_0 = Ok passed
           /\ validation_entry (L "difference") data' = Some difference
           /\ validation_entry (L "validation_passed") data' = Some (JBool passed)
       else validation_entry (L "difference") data'
            = validation_entry (L "difference") data
            /\ validation_entry (L "validation_passed") data'
               = validation_entry (L "validation_passed") data.
Proof.
  intros Hne Hraw Hv.
  destruct (validate_steps _ _ _ _ Hne Hraw Hv)
    as (items & cleaned & total & e3 & inv & Hiter & Hclean & H3 & Hsum & Hrest).
  exists items, cleaned, total, inv.
  set (e1 := dict_set (L "service_line_items") (JList cleaned) data) in *.
  set (e2 := Props.with_validation e1) in *.
  assert (Hl2 : dict_lookup (L "service_line_items") e2 = Some (JList cleaned)).
  { unfold e2. rewrite with_validation_other by reflexivity.
    apply EnhancedFacts.lookup_set_same. }
  assert (Ho2 : forall key,
             Analyzer.str_eqb (L "service_line_items") key = false ->
             Analyzer.str_eqb (L "cost_validation") key = false ->
             dict_lookup key e2 = dict_lookup key data).
  { intros key H1 H2. unfold e2. rewrite with_validation_other by exact H2.
    apply EnhancedFacts.lookup_set_other. exact H1. }
  assert (Hv2 : forall key, validation_entry key e2 = validation_entry key data).
  { intros key. unfold e2. rewrite with_validation_entry.
    unfold validation_entry, e1. rewrite EnhancedFacts.set_ledger_validation.
    reflexivity. }
  assert (Hl3 : dict_lookup (L "service_line_items") e3 = Some (JList cleaned)).
  { rewrite (set_cost_validation_other _ _ _ _ _ H3) by reflexivity. exact Hl2. }
  assert (Ho3 : forall key,
             Analyzer.str_eqb (L "service_line_items") key = false ->
             Analyzer.str_eqb (L "cost_validation") key = false ->
             dict_lookup key e3 = dict_lookup key data).
  { intros key H1 H2. rewrite (set_cost_validation_other _ _ _ _ _ H3) by exact H2.
    apply Ho2; assumption. }
  destruct (EnhancedFacts.set_cost_validation_entry _ _ _ _ H3) as [Hc3 Hk3].
  assert (Hsum0 : Props.summary_total data = Ok inv).
  { unfold Props.summary_total, py_get in *.
    rewrite (Ho3 (L "invoice_summary")) in Hsum by reflexivity. exact Hsum. }
  destruct (EnhancedFacts.set_cost_validation_keeps_dict _ _ _ _ H3) as [c3 Hd3].
  split; [exact Hiter|]. split; [exact Hclean|].
  split.
  { destruct (clean_items_each _ _ _ _ _ _ Hclean) as (cs & -> & Hf). exact Hf. }
  destruct (truthy inv).
  - destruct Hrest as (d & difference & e4 & passed & Hd & Ha & H4 & Hp & H5).
    destruct (EnhancedFacts.set_cost_validation_entry _ _ _ _ H4) as [Hc4 Hk4].
    destruct (EnhancedFacts.set_cost_validation_entry _ _ _ _ H5) as [Hc5 Hk5].
    split.
    { rewrite (set_cost_validation_other _ _ _ _ _ H5) by reflexivity.
      rewrite (set_cost_validation_other _ _ _ _ _ H4) by reflexivity. exact Hl3. }
    split; [exact (EnhancedFacts.set_cost_validation_keeps_dict _ _ _ _ H5)|].
    split.
    { intros key H1 H2.
      rewrite (set_cost_validation_other _ _ _ _ _ H5) by exact H2.
      rewrite (set_cost_validation_other _ _ _ _ _ H4) by exact H2.
      apply Ho3; assumption. }
    split.
    { rewrite Hk5 by reflexivity. rewrite Hk4 by reflexivity. exact Hc3. }
    split; [exact Hsum0|].
    split.
    { intros key H1 H2 H3'. rewrite Hk5 by exact H3'. rewrite Hk4 by exact H2.
      rewrite Hk3 by exact H1. apply Hv2. }
    exists d, difference, passed. repeat split; try assumption.
    rewrite Hk5 by reflexivity. exact Hc4.
  - subst data'.
    split; [exact Hl3|]. split; [exists c3; exact Hd3|]. split; [exact Ho3|].
    split; [exact Hc3|]. split; [exact Hsum0|].
    split.
    { intros key H1 _ _. rewrite Hk3 by exact H1. apply Hv2. }
    split; (rewrite Hk3 by reflexivity; apply Hv2).
Qed.

End ValidateFacts.

Module FloatFacts.

(** Comparison of floats is antisymmetric. *)
Lemma SFcompare_antisym (a b : PyFloat.float) :
  SFcompare b a = option_map CompOpp (SFcompare a b).
Proof.
  destruct a as [| | |sa ma ea], b as [| | |sb mb eb]; simpl; try reflexivity;
    try (destruct s; reflexivity); try (destruct s, s0; reflexivity);
    try (destruct sa; reflexivity); try (destruct sb; reflexivity).
  destruct sa, sb; simpl; try reflexivity;
    rewrite (Z.compare_antisym ea eb); destruct (ea ?= eb)%Z; simpl; try reflexivity;
    rewrite (Pos.compare_cont_antisym ma mb Eq); simpl;
    destruct (Pos.compare_cont Eq ma mb); reflexivity.
Qed.

Lemma flt_antisym (a b : PyFloat.float) :
  PyFloat.flt a b = true -> PyFloat.flt b a = false.
Proof.
  unfold PyFloat.flt, SFltb. rewrite (SFcompare_antisym a b).
  destruct (SFcompare a b) as [[| |]|]; simpl; congruence.
Qed.

(** What is below a float is not above it. *)
Lemma lt_not_gt (v : Json.json) (f : PyFloat.float) :
  Json.py_lt_float v f = Ok true -> Json.py_gt_float v f = Ok false.
Proof.
  unfold Json.py_lt_float, Json.py_gt_float.
  destruct (Json.as_num v) as [[z|g]|]; [| |discriminate].
  - destruct (Json.Z_compare_float z f) as [[| |]|]; intros H; inversion H; reflexivity.
  - intros H. inversion H as [H1]. rewrite (flt_antisym _ _ H1). reflexivity.
Qed.

(** The absolute value of an absolute value. *)
Lemma py_abs_abs (v w : Json.json) :
  Json.py_abs v = Ok w -> Json.py_abs w = Ok w.
Proof.
  unfold Json.py_abs. destruct (Json.as_num v) as [[z|g]|] eqn:E; [| |discriminate].
  - intros H; inversion H; subst. simpl. rewrite Z.abs_idemp. reflexivity.
  - intros H; inversion H; subst. simpl. destruct g; reflexivity.
Qed.

End FloatFacts.

(** X7 — The ledger that [validate_and_enhance_analysis] stores holds,
    item for item, the cleaned form of the items it was given: as many
    items, in the same order, each a dict with exactly the nine keys of a
    cleaned item (whatever else an item carried is dropped); apart from
    the ledger and ['cost_validation'] every entry of the analysis is
    left as it was. *)
Theorem validated_ledger_shape :
  forall (float_of_str : PyStr.str -> result PyFloat.float)
         (data data' : Json.dict) (raw : Json.json),
    data <> [] ->
    Json.dict_lookup (PyStr.L "service_line_items") data = Some raw ->
    Enhanced.validate_and_enhance_analysis float_of_str data = Ok data' ->
    exists items,
      Json.py_iter raw = Ok items
      /\ Forall2 (fun item c => Enhanced.clean_item float_of_str item = Ok c)
                 items (Enhanced.ledger_of data')
      /\ Forall (fun c => exists d, c = Json.JDict d
                                    /\ map fst d = Props.cleaned_keys)
                (Enhanced.ledger_of data')
      /\ forall key,
          key <> PyStr.L "service_line_items" ->
          key <> PyStr.L "cost_validation" ->
          Json.dict_lookup key data' = Json.dict_lookup key data.
Proof.
  intros f data data' raw Hne Hraw Hv.
  destruct (ValidateFacts.validate_facts _ _ _ _ Hne Hraw Hv)
    as (items & cleaned & total & inv & Hiter & _ & Hf & Hl & _ & Ho & _).
  exists items. unfold Enhanced.ledger_of. rewrite Hl.
  split; [exact Hiter|]. split; [exact Hf|]. split.
  - clear -Hf. induction Hf as [|item c items cs Hc _ IH]; constructor; [|exact IH].
    destruct (ValidateFacts.clean_item_shape _ _ _ Hc)
      as (k1 & k2 & k3 & k4 & q & k6 & k7 & x & k9 & ->).
    eexists. split; reflexivity.
  - intros key H1 H2. apply Ho; apply GroupFacts.str_eqb_neq; congruence.
Qed.

Lemma validated_ledger_shape_witness :
  exists data' items,
    Enhanced.validate_and_enhance_analysis Sample.no_float_of_str
      Sample.first_analysis = Ok data'
    /\ Json.py_iter (Json.JList (Enhanced.ledger_of Sample.first_analysis)) = Ok items
    /\ Forall2 (fun item c =>
                  Enhanced.clean_item Sample.no_float_of_str item = Ok c)
               items (Enhanced.ledger_of data')
    /\ Forall (fun c => exists d, c = Json.JDict d
                                  /\ map fst d = Props.cleaned_keys)
              (Enhanced.ledger_of data').
Proof.
  destruct (Enhanced.validate_and_enhance_analysis Sample.no_float_of_str
              Sample.first_analysis) as [data'|e] eqn:E;
    [|vm_compute in E; discriminate].
  destruct (validated_ledger_shape Sample.no_float_of_str Sample.first_analysis
              data' (Json.JList (Enhanced.ledger_of Sample.first_analysis)))
    as (items & H1 & H2 & H3 & _).
  - discriminate.
  - vm_compute. reflexivity.
  - exact E.
  - exists data', items. auto.
Defined.

(** X8 — Validation is idempotent: validating an analysis that came
    out of a validation gives it back unchanged, whatever the parser of
    numeric strings does, since every cost and quantity is by then a
    float. *)
Theorem validate_is_idempotent :
  forall (f g : PyStr.str -> result PyFloat.float) (data data' : Json.dict),
    Enhanced.validate_and_enhance_analysis f data = Ok data' ->
    Enhanced.validate_and_enhance_analysis g data' = Ok data'.
Proof.
  intros f g data data' Hv.
  destruct data as [|kv data0] eqn:Ed.
  { unfold Enhanced.validate_and_enhance_analysis in Hv. inversion Hv. reflexivity. }
  destruct (Json.dict_lookup (PyStr.L "service_line_items") data) as [raw|] eqn:Hraw.
  2:{ subst data.
      assert (E : data' = kv :: data0).
      { unfold Enhanced.validate_and_enhance_analysis in Hv. rewrite Hraw in Hv.
        inversion Hv. reflexivity. }
      subst data'. unfold Enhanced.validate_and_enhance_analysis. rewrite Hraw.
      reflexivity. }
  rewrite <- Ed in Hv.
  assert (Hne : data <> []) by (rewrite Ed; discriminate).
  destruct (ValidateFacts.validate_facts _ _ _ _ Hne Hraw Hv)
    as (items & cleaned & total & inv & Hiter & Hclean & Hf & Hl & [c Hc] & Ho & Hct
        & Hsum & _ & Hrest).
  clear Ed kv data0.
  assert (Hne' : data' <> []) by (intros E; rewrite E in Hl; discriminate).
  unfold Enhanced.validate_and_enhance_analysis.
  destruct data' as [|kv' rest'] eqn:Ed'; [congruence|]. rewrite <- Ed' in *.
  rewrite Hl. cbn [Json.py_iter]. unfold bind at 1.
  (* the second cleaning gives the same items and the same total *)
  assert (Hidem : Forall (fun c => Enhanced.clean_item g c = Ok c) cleaned).
  { clear -Hf. induction Hf as [|item c items cs Hc _ IH]; constructor; [|exact IH].
    exact (ValidateFacts.clean_item_idem _ g _ _ Hc). }
  destruct (ValidateFacts.clean_items_idem g cleaned [] PyFloat.zero Hidem)
    as (total' & Hclean').
  simpl app in Hclean'.
  assert (Ht : total' = total).
  { destruct (LedgerFacts.clean_items_floats _ _ _ _ _ _ Hclean eq_refl eq_refl)
      as [_ H1].
    destruct (LedgerFacts.clean_items_floats _ _ _ _ _ _ Hclean' eq_refl eq_refl)
      as [_ H2].
    congruence. }
  subst total'. rewrite Hclean'. unfold bind at 1.
  rewrite (ValidateFacts.dict_set_same _ _ _ Hl). rewrite Hc.
  assert (Hd : exists c, Json.dict_lookup (PyStr.L "cost_validation") data'
                         = Some (Json.JDict c)) by (exists c; exact Hc).
  rewrite (ValidateFacts.set_cost_validation_same _ _ _ Hd Hct). unfold bind at 1.
  assert (Hsum' : Props.summary_total data' = Ok inv).
  { unfold Props.summary_total, Json.py_get in *.
    rewrite (Ho (PyStr.L "invoice_summary")) by reflexivity. exact Hsum. }
  unfold Props.summary_total in Hsum'.
  destruct (Json.py_get (Json.JDict data') (PyStr.L "invoice_summary")
              (Json.JDict [])) as [summary|]; [|discriminate].
  unfold bind in Hsum' at 1. unfold bind at 1. rewrite Hsum'. unfold bind at 1.
  destruct (Json.truthy inv); [|reflexivity].
  destruct Hrest as (d & difference & passed & Hsub & Habs & Hlt & Hdiff & Hpass).
  rewrite Hsub. unfold bind at 1. rewrite Habs. unfold bind at 1.
  rewrite (ValidateFacts.set_cost_validation_same _ _ _ Hd Hdiff). unfold bind at 1.
  rewrite Hlt. unfold bind at 1.
  exact (ValidateFacts.set_cost_validation_same _ _ _ Hd Hpass).
Qed.

Lemma validate_is_idempotent_witness :
  exists data',
    Enhanced.validate_and_enhance_analysis Sample.no_float_of_str
      Sample.first_analysis = Ok data'
    /\ Enhanced.validate_and_enhance_analysis Sample.no_float_of_str data' = Ok data'.
Proof.
  destruct (Enhanced.validate_and_enhance_analysis Sample.no_float_of_str
              Sample.first_analysis) as [data'|e] eqn:E;
    [|vm_compute in E; discriminate].
  exists data'. split; [reflexivity|].
  exact (validate_is_idempotent _ _ _ _ E).
Defined.

(** X9 — The verdict of the first-pass validation.  The invoice total
    is read from ['invoice_summary']['total_invoice_amount'].  When it
    is truthy, ['difference'] becomes the absolute value of calculated
    total minus invoice total and ['validation_passed'] the test
    difference < 1.0.  When it is absent, null, zero or empty, both
    entries are left as the first analysis supplied them. *)
Theorem validation_verdict :
  forall (float_of_str : PyStr.str -> result PyFloat.float)
         (data data' : Json.dict) (raw : Json.json),
    data <> [] ->
    Json.dict_lookup (PyStr.L "service_line_items") data = Some raw ->
    Enhanced.validate_and_enhance_analysis float_of_str data = Ok data' ->
    exists total inv,
      Enhanced.validation_entry (PyStr.L "calculated_total") data'
      = Some (Json.JFloat total)
      /\ Props.summary_total data = Ok inv
      /\ if Json.truthy inv then
           exists d difference passed,
             Json.py_sub (Json.JFloat total) inv = Ok d
             /\ Json.py_abs d = Ok difference
             /\ Json.py_lt_float difference PyFloat.lit_1_0 = Ok passed
             /\ Enhanced.validation_entry (PyStr.L "difference") data'
                = Some difference
             /\ Enhanced.validation_entry (PyStr.L "validation_passed") data'
                = Some (Json.JBool passed)
         else Enhanced.validation_entry (PyStr.L "difference") data'
              = Enhanced.validation_entry (PyStr.L "difference") data
              /\ Enhanced.validation_entry (PyStr.L "validation_passed") data'
                 = Enhanced.validation_entry (PyStr.L "validation_passed") data.
Proof.
  intros f data data' raw Hne Hraw Hv.
  destruct (ValidateFacts.validate_facts _ _ _ _ Hne Hraw Hv)
    as (items & cleaned & total & inv & _ & _ & _ & _ & _ & _ & Hct & Hsum & _ & Hrest).
  exists total, inv. split; [exact Hct|]. split; [exact Hsum|exact Hrest].
Qed.

Lemma validation_verdict_witness :
  exists data' total inv,
    Enhanced.validate_and_enhance_analysis Sample.no_float_of_str
      Sample.first_analysis = Ok data'
    /\ Enhanced.validation_entry (PyStr.L "calculated_total") data'
       = Some (Json.JFloat total)
    /\ Props.summary_total Sample.first_analysis = Ok inv.
Proof.
  destruct (Enhanced.validate_and_enhance_analysis Sample.no_float_of_str
              Sample.first_analysis) as [data'|e] eqn:E;
    [|vm_compute in E; discriminate].
  destruct (validation_verdict Sample.no_float_of_str Sample.first_analysis
              data' (Json.JList (Enhanced.ledger_of Sample.first_analysis)))
    as (total & inv & H1 & H2 & _).
  - discriminate.
  - vm_compute. reflexivity.
  - exact E.
  - exists data', total, inv. auto.
Defined.

(** X10 — Validation never writes ['cost_validation']['invoice_total'],
    the entry from which the reconciliation controller reads the invoice
    total: after validation it is what the first analysis supplied.
    When the first analysis supplied none, the controller therefore
    works with the default 0.0 and a target difference of 0.0 minus the
    calculated total, whatever ['invoice_summary'] says. *)
Theorem validation_never_sets_invoice_total :
  forall (float_of_str : PyStr.str -> result PyFloat.float)
         (data data' : Json.dict) (raw : Json.json),
    data <> [] ->
    Json.dict_lookup (PyStr.L "service_line_items") data = Some raw ->
    Enhanced.validate_and_enhance_analysis float_of_str data = Ok data' ->
    Enhanced.validation_entry (PyStr.L "invoice_total") data'
    = Enhanced.validation_entry (PyStr.L "invoice_total") data
    /\ (Enhanced.validation_entry (PyStr.L "invoice_total") data = None ->
        exists total,
          Enhanced.validation_entry (PyStr.L "calculated_total") data'
          = Some (Json.JFloat total)
          /\ Enhanced.current_totals data'
             = Ok (Json.JFloat total, Json.JFloat PyFloat.zero,
                   Json.JFloat (PyFloat.fsub PyFloat.zero total))).
Proof.
  intros f data data' raw Hne Hraw Hv.
  destruct (ValidateFacts.validate_facts _ _ _ _ Hne Hraw Hv)
    as (items & cleaned & total & inv & _ & _ & _ & _ & [c Hc] & _ & Hct & _ & Hk & _).
  assert (Hinv : Enhanced.validation_entry (PyStr.L "invoice_total") data'
                 = Enhanced.validation_entry (PyStr.L "invoice_total") data)
    by (apply Hk; reflexivity).
  split; [exact Hinv|].
  intros Hnone. exists total. split; [exact Hct|].
  rewrite Hnone in Hinv.
  unfold Enhanced.validation_entry in Hct, Hinv. rewrite Hc in Hct, Hinv.
  unfold Enhanced.current_totals, Json.py_get, bind. rewrite Hc, Hct, Hinv.
  reflexivity.
Qed.

Lemma validation_never_sets_invoice_total_witness :
  exists data' total,
    Enhanced.validate_and_enhance_analysis Sample.no_float_of_str
      Sample.first_analysis = Ok data'
    /\ Enhanced.validation_entry (PyStr.L "calculated_total") data'
       = Some (Json.JFloat total)
    /\ Enhanced.current_totals data'
       = Ok (Json.JFloat total, Json.JFloat PyFloat.zero,
             Json.JFloat (PyFloat.fsub PyFloat.zero total)).
Proof.
  destruct (Enhanced.validate_and_enhance_analysis Sample.no_float_of_str
              Sample.first_analysis) as [data'|e] eqn:E;
    [|vm_compute in E; discriminate].
  destruct (validation_never_sets_invoice_total Sample.no_float_of_str
              Sample.first_analysis data'
              (Json.JList (Enhanced.ledger_of Sample.first_analysis)))
    as (_ & H).
  - discriminate.
  - vm_compute. reflexivity.
  - exact E.
  - destruct H as (total & H1 & H2); [vm_compute; reflexivity|].
    exists data', total. auto.
Defined.

(** X11 — An analysis that validation passed is never sent to the
    oracle: when the invoice total of the summary is truthy and
    validation stored [validation_passed = True], the caller's gate
    ([difference > 1.0]) is closed, no request is made and the analysis
    is handed on as validated. *)
Theorem passed_validation_skips_reconciliation :
  forall (float_of_str : PyStr.str -> result PyFloat.float)
         (data data' : Json.dict) (raw inv : Json.json)
         (client : bool) (oracle : Enhanced.request -> Enhanced.oracle_outcome)
         (pdf_text : PyStr.str),
    data <> [] ->
    Json.dict_lookup (PyStr.L "service_line_items") data = Some raw ->
    Enhanced.validate_and_enhance_analysis float_of_str data = Ok data' ->
    Props.summary_total data = Ok inv ->
    Json.truthy inv = true ->
    Enhanced.validation_entry (PyStr.L "validation_passed") data'
    = Some (Json.JBool true) ->
    Enhanced.reconcile_if_needed client oracle pdf_text data'
    = {| Enhanced.returned := Ok data'; Enhanced.requests := [] |}.
Proof.
  intros f data data' raw inv client oracle pdf_text Hne Hraw Hv Hsum Ht Hpass.
  destruct (ValidateFacts.validate_facts _ _ _ _ Hne Hraw Hv)
    as (items & cleaned & total & inv' & _ & _ & _ & _ & [c Hc] & _ & _ & Hsum' & _
        & Hrest).
  rewrite Hsum in Hsum'. inversion Hsum'; subst inv'. rewrite Ht in Hrest.
  destruct Hrest as (d & difference & passed & _ & Habs & Hlt & Hdiff & Hp).
  rewrite Hpass in Hp. inversion Hp; subst passed.
  unfold Enhanced.reconcile_if_needed.
  assert (Hs : Enhanced.stored_difference data' = Ok difference).
  { unfold Enhanced.stored_difference, Json.py_get, bind.
    unfold Enhanced.validation_entry in Hdiff. rewrite Hc in *. rewrite Hdiff.
    exact (FloatFacts.py_abs_abs _ _ Habs). }
  rewrite Hs. rewrite (FloatFacts.lt_not_gt _ _ Hlt). reflexivity.
Qed.

Lemma passed_validation_skips_reconciliation_witness :
  exists data',
    Enhanced.validate_and_enhance_analysis Sample.no_float_of_str
      Sample.first_analysis = Ok data'
    /\ Enhanced.reconcile_if_needed true Sample.oracle_down [] data'
       = {| Enhanced.returned := Ok data'; Enhanced.requests := [] |}.
Proof.
  destruct (Enhanced.validate_and_enhance_analysis Sample.no_float_of_str
              Sample.first_analysis) as [data'|e] eqn:E;
    [|vm_compute in E; discriminate].
  exists data'. split; [reflexivity|].
  apply (passed_validation_skips_reconciliation Sample.no_float_of_str
           Sample.first_analysis data'
           (Json.JList (Enhanced.ledger_of Sample.first_analysis))
           (Json.JFloat Sample.f_3645_6)).
  - discriminate.
  - vm_compute. reflexivity.
  - exact E.
  - vm_compute. reflexivity.
  - vm_compute. reflexivity.
  - vm_compute in E. inversion E. vm_compute. reflexivity.
Defined.

Module ReconcileFacts.
Import PyStr Json Enhanced.

(** What the recomputation stores once the sum of the ledger exists. *)
Lemma recalculate_totals_verdict (invoice_total : json) (st : dict)
      (l : list json) (c : dict) (v nd : json) :
  dict_lookup (L "service_line_items") st = Some (JList l) ->
  dict_lookup (L "cost_validation") st = Some (JDict c) ->
  sum_cost_usd (JInt 0) l = Ok v ->
  py_sub invoice_total v = Ok nd ->
  let st' := snd (recalculate_totals invoice_total st) in
  validation_entry (L "difference") st' = Some nd
  /\ exists passed,
      (d <- py_abs nd ;; py_lt_float d PyFloat.lit_1_0) = Ok passed
      /\ validation_entry (L "validation_passed") st' = Some (JBool passed).
Proof.
  intros Hl Hc Hsum Hsub. cbn zeta.
  unfold recalculate_totals, dict_index. EnhancedFacts.unfold_m.
  rewrite Hl. simpl py_iter. cbv iota beta. rewrite Hsum. cbv iota beta.
  pose proof (EnhancedFacts.set_cost_validation_ok (L "calculated_total") v st c Hc)
    as H1.
  rewrite (EnhancedFacts.assign_validation_ok _ _ _ _ H1).
  rewrite Hsub.
  destruct (EnhancedFacts.set_cost_validation_keeps_dict _ _ _ _ H1) as [c1 Hc1].
  pose proof (EnhancedFacts.set_cost_validation_ok (L "difference") nd _ c1 Hc1)
    as H2.
  rewrite (EnhancedFacts.assign_validation_ok _ _ _ _ H2).
  destruct (EnhancedFacts.set_cost_validation_keeps_dict _ _ _ _ H2) as [c2 Hc2].
  destruct (EnhancedFacts.set_cost_validation_entry _ _ _ _ H2) as [Hd2 _].
  assert (Hp : exists passed, (d <- py_abs nd ;; py_lt_float d PyFloat.lit_1_0)
                              = Ok passed).
  { unfold py_sub in Hsub.
    destruct (as_num invoice_total) as [x|]; [|discriminate].
    destruct (as_num v) as [y|]; [|discriminate].
    unfold bind in Hsub.
    destruct (num_binop Z.sub PyFloat.fsub x y) as [r|]; [|discriminate].
    inversion Hsub; subst nd. destruct r as [z|g]; simpl; eexists; reflexivity. }
  destruct Hp as [passed Hp]. rewrite Hp.
  pose proof (EnhancedFacts.set_cost_validation_ok (L "validation_passed")
                (JBool passed) _ c2 Hc2) as H3.
  rewrite (EnhancedFacts.assign_validation_ok _ _ _ _ H3). cbn [snd].
  destruct (EnhancedFacts.set_cost_validation_entry _ _ _ _ H3) as [Hd3 Hk3].
  split.
  - rewrite Hk3 by reflexivity. exact Hd2.
  - exists passed. split; [reflexivity|exact Hd3].
Qed.

End ReconcileFacts.

(** X12 — The verdict after a merge.  When the controller returns a
    ledger that grew and whose costs can be summed, the stored
    calculated total is that sum, the stored difference is the invoice
    total it read at the start minus the sum, sign kept, and
    [validation_passed] is the test |difference| < 1.0: a hundred times
    the tolerance (0.01) under which the controller would not have
    acted. *)
Theorem reconciled_verdict :
  forall (client : bool) (oracle : Enhanced.request -> Enhanced.oracle_outcome)
         (pdf_text : PyStr.str) (a a' : Json.dict) (v : Json.json),
    Enhanced.returned (Enhanced.reconcile_missing_costs client oracle pdf_text a)
    = Ok a' ->
    Enhanced.ledger_of a' <> Enhanced.ledger_of a ->
    Enhanced.sum_cost_usd (Json.JInt 0) (Enhanced.ledger_of a') = Ok v ->
    exists calc inv d0,
      Enhanced.current_totals a = Ok (calc, inv, d0)
      /\ Enhanced.validation_entry (PyStr.L "calculated_total") a' = Some v
      /\ forall nd,
          Json.py_sub inv v = Ok nd ->
          Enhanced.validation_entry (PyStr.L "difference") a' = Some nd
          /\ exists passed,
              (d <- Json.py_abs nd ;; Json.py_lt_float d PyFloat.lit_1_0) = Ok passed
              /\ Enhanced.validation_entry (PyStr.L "validation_passed") a'
                 = Some (Json.JBool passed).
Proof.
  intros client oracle pdf_text a a' v Hret Hled Hsum.
  destruct (EnhancedFacts.reconcile_cases client oracle pdf_text a)
    as [[_ [H|[e H]]]|(calc & inv & d0 & req & _ & Ht & Hg & _ & _ & H)];
    rewrite H in Hret.
  - inversion Hret; subst. congruence.
  - discriminate.
  - injection Hret as Ha'. clear H. subst a'.
    destruct (EnhancedFacts.guard_passed_validation_dict _ _ _ _ Ht Hg) as [c Hc].
    exists calc, inv, d0. split; [exact Ht|].
    destruct (oracle req) as [| | |md]; cbn [Enhanced.try_reconcile] in *;
      try congruence.
    destruct (EnhancedFacts.merge_missing_items_cases md inv a)
      as [E|(ms & l & xs & _ & _ & Hl & _ & E)];
      rewrite E in *; [congruence|].
    set (st := Json.dict_set (PyStr.L "service_line_items")
                 (Json.JList (l ++ xs)) a) in *.
    assert (Hl' : Json.dict_lookup (PyStr.L "service_line_items") st
                  = Some (Json.JList (l ++ xs)))
      by apply EnhancedFacts.lookup_set_same.
    assert (Hc' : Json.dict_lookup (PyStr.L "cost_validation") st
                  = Some (Json.JDict c))
      by (unfold st; rewrite EnhancedFacts.set_ledger_validation; exact Hc).
    assert (Hlo : Enhanced.ledger_of (snd (Enhanced.recalculate_totals inv st))
                  = l ++ xs).
    { rewrite EnhancedFacts.recalculate_totals_ledger.
      apply EnhancedFacts.ledger_of_set. }
    rewrite Hlo in Hsum.
    split.
    + exact (proj2 (EnhancedFacts.recalculate_totals_stores inv st _ c v Hl' Hc' Hsum)).
    + intros nd Hnd.
      exact (ReconcileFacts.recalculate_totals_verdict inv st _ c v nd Hl' Hc' Hsum Hnd).
Qed.

Lemma reconciled_verdict_witness :
  exists a' v calc inv d0,
    Enhanced.returned
      (Enhanced.reconcile_missing_costs true
         (Sample.respond_with [Sample.support_item]) [] Sample.short_by_45_60)
    = Ok a'
    /\ Enhanced.sum_cost_usd (Json.JInt 0) (Enhanced.ledger_of a') = Ok v
    /\ Enhanced.current_totals Sample.short_by_45_60 = Ok (calc, inv, d0)
    /\ Enhanced.validation_entry (PyStr.L "calculated_total") a' = Some v.
Proof.
  destruct (Enhanced.returned
              (Enhanced.reconcile_missing_costs true
                 (Sample.respond_with [Sample.support_item]) []
                 Sample.short_by_45_60)) as [a'|e] eqn:E;
    [|vm_compute in E; discriminate].
  destruct (Enhanced.sum_cost_usd (Json.JInt 0) (Enhanced.ledger_of a'))
    as [v|e] eqn:Ev.
  2:{ vm_compute in E. inversion E; subst a'. vm_compute in Ev. discriminate. }
  destruct (reconciled_verdict true (Sample.respond_with [Sample.support_item]) []
              Sample.short_by_45_60 a' v E)
    as (calc & inv & d0 & H1 & H2 & _).
  - vm_compute in E. inversion E; subst a'. vm_compute. discriminate.
  - exact Ev.
  - exists a', v, calc, inv, d0. auto.
Defined.

(** X13 — The controller changes the analysis only on an answer that
    is a JSON object with a non-empty ['missing_items']: when the oracle
    never gives such an answer (the call raises, the response is empty,
    not JSON, not an object, or lists nothing), whatever the controller
    returns is the analysis it was given, unchanged. *)
Theorem unusable_answer_changes_nothing :
  forall (client : bool) (oracle : Enhanced.request -> Enhanced.oracle_outcome)
         (pdf_text : PyStr.str) (a a' : Json.dict),
    (forall req md ms,
        oracle req = Enhanced.Parsed md ->
        Json.py_get md (PyStr.L "missing_items") (Json.JList []) = Ok ms ->
        Json.truthy ms = false) ->
    Enhanced.returned (Enhanced.reconcile_missing_costs client oracle pdf_text a)
    = Ok a' ->
    a' = a.
Proof.
  intros client oracle pdf_text a a' Ho Hret.
  destruct (EnhancedFacts.reconcile_cases client oracle pdf_text a)
    as [[_ [H|[e H]]]|(calc & inv & d0 & req & _ & _ & _ & _ & _ & H)];
    rewrite H in Hret.
  - inversion Hret; reflexivity.
  - discriminate.
  - injection Hret as Ha'. clear H. subst a'.
    destruct (oracle req) as [| | |md] eqn:Eo; cbn [Enhanced.try_reconcile];
      try reflexivity.
    rewrite EnhancedFacts.merge_missing_items_unfold.
    destruct (Json.py_get md (PyStr.L "missing_items") (Json.JList []))
      as [ms|e] eqn:Em; [|reflexivity].
    rewrite (Ho req md ms Eo Em). reflexivity.
Qed.

Lemma unusable_answer_changes_nothing_witness :
  exists a',
    Enhanced.returned
      (Enhanced.reconcile_missing_costs true Sample.oracle_down []
         Sample.short_by_45_60) = Ok a'
    /\ a' = Sample.short_by_45_60.
Proof.
  destruct (Enhanced.returned
              (Enhanced.reconcile_missing_costs true Sample.oracle_down []
                 Sample.short_by_45_60)) as [a'|e] eqn:E;
    [|vm_compute in E; discriminate].
  exists a'. split; [reflexivity|].
  apply (unusable_answer_changes_nothing true Sample.oracle_down []
           Sample.short_by_45_60 a'); [|exact E].
  intros req md ms H. discriminate.
Defined.

(** * The engine against the declarative reading of the field patterns *)

Module RxFacts.
Import PyStr Rx RxSpec.

Lemma rx_star_k_sound (R : Type) (ic : bool) (cs : cset) (s : str) :
  forall (prev : option ascii) (k : option ascii -> str -> option R) (x : R),
    star_k ic cs prev s k = Some x ->
    exists p s', s = p ++ s'
                 /\ Forall (fun c => cset_mem ic cs c = true) p
                 /\ k (last_char prev p) s' = Some x.
Proof.
  induction s as [|c s IH]; intros prev k x; simpl.
  - intros H. exists [], []. repeat split; [constructor|exact H].
  - destruct (cset_mem ic cs c) eqn:Hc.
    + destruct (star_k ic cs (Some c) s k) as [r|] eqn:Hs.
      * intros H. inversion H; subst r.
        destruct (IH _ _ _ Hs) as (p & s' & -> & Hp & Hk).
        exists (c :: p), s'. repeat split; [constructor; assumption|exact Hk].
      * intros H. exists [], (c :: s). repeat split; [constructor|exact H].
    + intros H. exists [], (c :: s). repeat split; [constructor|exact H].
Qed.

Lemma rx_match_k_sound (R : Type) (ic : bool) (r : re) :
  forall (prev : option ascii) (s : str) (g : caps)
         (k : option ascii -> str -> caps -> option R) (x : R),
    match_k ic r prev s g k = Some x ->
    exists prev' s' g',
      matches ic r prev s g prev' s' g' /\ k prev' s' g' = Some x.
Proof.
  induction r as [cs|cs|cs|cs|a IHa b IHb|a IHa b IHb|n a IHa| |];
    intros prev s g k x; simpl.
  - destruct s as [|c s]; [discriminate|].
    destruct (cset_mem ic cs c) eqn:Hc; [|discriminate].
    intros H. exists (Some c), s, g. split; [constructor; exact Hc|exact H].
  - intros H. apply rx_star_k_sound in H. destruct H as (p & s' & -> & Hp & Hk).
    exists (last_char prev p), s', g. split; [constructor; exact Hp|exact Hk].
  - destruct s as [|c s]; [discriminate|].
    destruct (cset_mem ic cs c) eqn:Hc; [|discriminate].
    intros H. apply rx_star_k_sound in H. destruct H as (p & s' & -> & Hp & Hk).
    exists (last_char (Some c) p), s', g. split; [constructor; assumption|exact Hk].
  - destruct s as [|c s].
    + intros H. exists prev, [], g. split; [constructor|exact H].
    + destruct (cset_mem ic cs c) eqn:Hc.
      * destruct (k (Some c) s g) as [y|] eqn:Hk.
        -- intros H. inversion H; subst y. exists (Some c), s, g.
           split; [apply M_Opt_some; exact Hc|exact Hk].
        -- intros H. exists prev, (c :: s), g. split; [apply M_Opt_none|exact H].
      * intros H. exists prev, (c :: s), g. split; [apply M_Opt_none|exact H].
  - intros H. apply IHa in H. destruct H as (p1 & s1 & g1 & Ha & H).
    apply IHb in H. destruct H as (p2 & s2 & g2 & Hb & H).
    exists p2, s2, g2. split; [econstructor; eassumption|exact H].
  - destruct (match_k ic a prev s g k) as [y|] eqn:Ha.
    + intros H. inversion H; subst y. apply IHa in Ha.
      destruct Ha as (p' & s' & g' & Hm & Hk).
      exists p', s', g'. split; [apply M_Alt_l; exact Hm|exact Hk].
    + intros H. apply IHb in H. destruct H as (p' & s' & g' & Hm & Hk).
      exists p', s', g'. split; [apply M_Alt_r; exact Hm|exact Hk].
  - intros H. apply IHa in H. destruct H as (p' & s' & g' & Hm & Hk).
    eexists p', s', _. split; [apply M_Group; exact Hm|exact Hk].
  - destruct (at_boundary prev s) eqn:Hb; [|discriminate].
    intros H. exists prev, s, g. split; [constructor; exact Hb|exact H].
  - intros H. exists prev, s, g. split; [constructor|exact H].
Qed.

(** What a pattern reads is a prefix of the text. *)
Lemma rx_matches_split (ic : bool) (r : re) (prev : option ascii) (s : str) (g : caps)
      (prev' : option ascii) (s' : str) (g' : caps) :
  matches ic r prev s g prev' s' g' -> exists p, s = p ++ s'.
Proof.
  induction 1.
  - exists [c]. reflexivity.
  - exists p. reflexivity.
  - exists (c :: p). reflexivity.
  - exists [c]. reflexivity.
  - exists []. reflexivity.
  - destruct IHmatches1 as [p1 ->]. destruct IHmatches2 as [p2 ->].
    exists (p1 ++ p2). rewrite app_assoc. reflexivity.
  - assumption.
  - assumption.
  - assumption.
  - exists []. reflexivity.
  - exists []. reflexivity.
Qed.

Lemma search_from_sound (ic : bool) (r : re) (s : str) :
  forall (prev : option ascii) (m : rmatch),
    search_from ic r prev s = Some m ->
    exists pre s0 prev0 prev' rest,
      s = pre ++ s0
      /\ matches ic r prev0 s0 [] prev' rest (m_groups m)
      /\ m_group0 m = firstn (List.length s0 - List.length rest) s0.
Proof.
  induction s as [|c s IH]; intros prev m; simpl.
  - destruct (match_here ic r prev []) as [m'|] eqn:Hm; [|discriminate].
    intros H; inversion H; subst m'. unfold match_here in Hm.
    apply rx_match_k_sound in Hm. destruct Hm as (p' & s' & g' & Hm & Hk).
    inversion Hk; subst m. exists [], [], prev, p', s'. simpl. auto.
  - destruct (match_here ic r prev (c :: s)) as [m'|] eqn:Hm.
    + intros H; inversion H; subst m'. unfold match_here in Hm.
      apply rx_match_k_sound in Hm. destruct Hm as (p' & s' & g' & Hm & Hk).
      inversion Hk; subst m. exists [], (c :: s), prev, p', s'. simpl. auto.
    + intros H. destruct (IH _ _ H) as (pre & s0 & p0 & p' & rest & -> & Hm' & H0).
      exists (c :: pre), s0, p0, p', rest. auto.
Qed.

Lemma rx_search_sound (ic : bool) (r : re) (s : str) (m : rmatch) :
  search ic r s = Some m ->
  exists pre s0 prev0 prev' rest,
    s = pre ++ s0
    /\ matches ic r prev0 s0 [] prev' rest (m_groups m)
    /\ m_group0 m = firstn (List.length s0 - List.length rest) s0.
Proof. apply search_from_sound. Qed.

(** A group once set stays set, and a pattern sets the groups it always
    goes through. *)
Lemma matches_keeps (ic : bool) (r : re) (prev : option ascii) (s : str) (g : caps)
      (prev' : option ascii) (s' : str) (g' : caps) (n : nat) :
  matches ic r prev s g prev' s' g' ->
  cap_get n g <> None -> cap_get n g' <> None.
Proof.
  induction 1; intros Hn; auto.
  simpl. destruct (Nat.eqb n0 n); [discriminate|auto].
Qed.

Lemma matches_sets (ic : bool) (r : re) (prev : option ascii) (s : str) (g : caps)
      (prev' : option ascii) (s' : str) (g' : caps) (n : nat) :
  matches ic r prev s g prev' s' g' ->
  sets n r = true -> cap_get n g' <> None.
Proof.
  induction 1; simpl; intros Hs; try discriminate.
  - apply orb_true_iff in Hs. destruct Hs as [Hs|Hs].
    + eapply matches_keeps; [eassumption|auto].
    + auto.
  - apply andb_true_iff in Hs. tauto.
  - apply andb_true_iff in Hs. tauto.
  - destruct (Nat.eqb n0 n) eqn:E; [discriminate|]. simpl in Hs. auto.
Qed.

(** Every group of a match holds a run of consecutive characters of the
    text. *)
Lemma matches_group_substring (ic : bool) (r : re) (prev : option ascii) (s : str)
      (g : caps) (prev' : option ascii) (s' : str) (g' : caps) :
  matches ic r prev s g prev' s' g' ->
  forall n t, cap_get n g' = Some t ->
              cap_get n g = Some t \/ Props.substring t s.
Proof.
  induction 1; intros k t Hk; auto.
  - destruct (IHmatches2 _ _ Hk) as [H1|[a0 [b0 H1]]].
    + destruct (IHmatches1 _ _ H1) as [H2|H2]; auto.
    + right. destruct (rx_matches_split _ _ _ _ _ _ _ _ H) as [p ->].
      exists (p ++ a0), b0. rewrite H1, <- app_assoc. reflexivity.
  - simpl in Hk. destruct (Nat.eqb n k).
    + inversion Hk; subst t. right.
      destruct (rx_matches_split _ _ _ _ _ _ _ _ H) as [p ->].
      rewrite ReFacts.firstn_consumed. exists [], s'. reflexivity.
    + auto.
Qed.

Lemma last_char_lower (p : str) : lower p = map lower_char p.
Proof. reflexivity. Qed.

(** What a literal pattern reads is, lower-cased, one of its words. *)
Lemma matches_words (r : re) (prev : option ascii) (s : str) (g : caps)
      (prev' : option ascii) (s' : str) (g' : caps) :
  matches true r prev s g prev' s' g' ->
  forall l, words r = Some l ->
            exists p, s = p ++ s' /\ In (lower p) l.
Proof.
  induction 1; simpl; intros l Hl.
  - destruct cs; try discriminate. inversion Hl; subst l.
    exists [c]. split; [reflexivity|]. left. simpl in H.
    unfold chr_eqb in H. apply Ascii.eqb_eq in H. simpl. rewrite H. reflexivity.
  - discriminate.
  - discriminate.
  - destruct cs; try discriminate. inversion Hl; subst l.
    exists [c]. split; [reflexivity|]. left. simpl in H.
    unfold chr_eqb in H. apply Ascii.eqb_eq in H. simpl. rewrite H. reflexivity.
  - destruct cs; try discriminate. inversion Hl; subst l.
    exists []. split; [reflexivity|]. right. left. reflexivity.
  - destruct (words a) as [la|]; [|discriminate].
    destruct (words b) as [lb|]; [|discriminate].
    inversion Hl; subst l.
    destruct (IHmatches1 _ eq_refl) as (p1 & -> & H1).
    destruct (IHmatches2 _ eq_refl) as (p2 & -> & H2).
    exists (p1 ++ p2). split; [rewrite app_assoc; reflexivity|].
    apply in_flat_map. exists (lower p1). split; [exact H1|].
    apply in_map_iff. exists (lower p2). split; [|exact H2].
    unfold lower. rewrite map_app. reflexivity.
  - destruct (words a) as [la|]; [|discriminate].
    destruct (words b) as [lb|]; [|discriminate].
    inversion Hl; subst l.
    destruct (IHmatches _ eq_refl) as (p & -> & H1).
    exists p. split; [reflexivity|]. apply in_or_app. auto.
  - destruct (words a) as [la|]; [|discriminate].
    destruct (words b) as [lb|]; [|discriminate].
    inversion Hl; subst l.
    destruct (IHmatches _ eq_refl) as (p & -> & H1).
    exists p. split; [reflexivity|]. apply in_or_app. auto.
  - auto.
  - inversion Hl; subst l. exists []. split; [reflexivity|left; reflexivity].
  - inversion Hl; subst l. exists []. split; [reflexivity|left; reflexivity].
Qed.

(** What group [n] holds after a match is, lower-cased, one of its
    words. *)
Lemma matches_group_words (r : re) (prev : option ascii) (s : str) (g : caps)
      (prev' : option ascii) (s' : str) (g' : caps) (n : nat) :
  matches true r prev s g prev' s' g' ->
  forall l t, group_words n r = Some l -> cap_get n g' = Some t ->
              cap_get n g = Some t \/ In (lower t) l.
Proof.
  induction 1; simpl; intros l t Hl Hk; auto.
  - destruct (group_words n a) as [la|]; [|discriminate].
    destruct (group_words n b) as [lb|]; [|discriminate].
    inversion Hl; subst l.
    destruct (IHmatches2 _ _ eq_refl Hk) as [H1|H1].
    + destruct (IHmatches1 _ _ eq_refl H1) as [H2|H2]; [auto|].
      right. apply in_or_app. auto.
    + right. apply in_or_app. auto.
  - destruct (group_words n a) as [la|]; [|discriminate].
    destruct (group_words n b) as [lb|]; [|discriminate].
    inversion Hl; subst l.
    destruct (IHmatches _ _ eq_refl Hk) as [H1|H1]; [auto|].
    right. apply in_or_app. auto.
  - destruct (group_words n a) as [la|]; [|discriminate].
    destruct (group_words n b) as [lb|]; [|discriminate].
    inversion Hl; subst l.
    destruct (IHmatches _ _ eq_refl Hk) as [H1|H1]; [auto|].
    right. apply in_or_app. auto.
  - destruct (Nat.eqb n0 n) eqn:E.
    + inversion Hk; subst t. right.
      destruct (matches_words _ _ _ _ _ _ _ H _ Hl) as (p & -> & Hp).
      rewrite ReFacts.firstn_consumed. exact Hp.
    + eauto.
Qed.

(** A found match of a grouped pattern hands out its groups. *)
Lemma rx_search_grouped (r : re) (line : str) (m : rmatch) (n k : nat) :
  grouped n r = true -> search true r line = Some m -> 1 <= k <= n ->
  exists t, group r m k = Ok (Some t).
Proof.
  unfold grouped. intros Hg Hs Hk. apply andb_true_iff in Hg. destruct Hg as [Hn Ha].
  apply Nat.leb_le in Hn. rewrite forallb_forall in Ha.
  assert (Hsets : sets k r = true) by (apply Ha; apply in_seq; lia).
  apply rx_search_sound in Hs.
  destruct Hs as (pre & s0 & p0 & p' & rest & _ & Hm & _).
  pose proof (matches_sets _ _ _ _ _ _ _ _ k Hm Hsets) as Hc.
  unfold group. destruct k as [|k]; [lia|].
  destruct (Nat.ltb_spec (ngroups r) (S k)); [lia|].
  destruct (cap_get (S k) (m_groups m)) as [t|]; [|congruence].
  exists t. reflexivity.
Qed.

End RxFacts.

(** * The descriptive fields of a line item *)

Module FieldFacts.
Import PyStr Rx RxSpec Fields.

Lemma substring_app_l (t s pre : str) :
  Props.substring t s -> Props.substring t (pre ++ s).
Proof.
  intros (a & b & ->). exists (pre ++ a), b. rewrite <- app_assoc. reflexivity.
Qed.

(** The groups of a found match are runs of characters of the line. *)
Lemma search_group_substring (r : re) (line : str) (m : rmatch) (n : nat) (t : str) :
  search true r line = Some m -> cap_get n (m_groups m) = Some t ->
  Props.substring t line.
Proof.
  intros Hs Hc. apply RxFacts.rx_search_sound in Hs.
  destruct Hs as (pre & s0 & p0 & p' & rest & -> & Hm & _).
  destruct (RxFacts.matches_group_substring _ _ _ _ _ _ _ _ Hm _ _ Hc) as [H|H].
  - discriminate.
  - apply substring_app_l. exact H.
Qed.

(** The text of a found match is a run of characters of the line. *)
Lemma search_whole_substring (r : re) (line : str) (m : rmatch) :
  search true r line = Some m -> Props.substring (m_group0 m) line.
Proof.
  intros Hs. apply RxFacts.rx_search_sound in Hs.
  destruct Hs as (pre & s0 & p0 & p' & rest & -> & Hm & ->).
  destruct (RxFacts.rx_matches_split _ _ _ _ _ _ _ _ Hm) as [p ->].
  rewrite ReFacts.firstn_consumed. exists pre, rest. reflexivity.
Qed.

(** The first group of the first pattern found: nothing, or a run of
    characters of the line; never an exception, never [None]. *)
Lemma first_group_grouped (ps : list re) (line : str) :
  forallb (grouped 1) ps = true ->
  first_group 1 ps line = Ok None
  \/ exists t, first_group 1 ps line = Ok (Some (Some t))
               /\ Props.substring t line.
Proof.
  induction ps as [|p ps IH]; cbn [first_group forallb]; intros Hg;
    [left; reflexivity|].
  apply andb_true_iff in Hg. destruct Hg as [Hp Hps].
  destruct (search true p line) as [m|] eqn:Hs; [|exact (IH Hps)].
  right.
  destruct (RxFacts.rx_search_grouped p line m 1 1 Hp Hs) as [t Ht]; [lia|].
  rewrite Ht. cbn [bind]. exists t. split; [reflexivity|].
  unfold group in Ht. destruct (Nat.ltb (ngroups p) 1); [discriminate|].
  inversion Ht as [Hc]. exact (search_group_substring _ _ _ _ _ Hs Hc).
Qed.

Lemma first_whole_substring (ps : list re) (line : str) (t : str) :
  first_whole ps line = Some t -> Props.substring t line.
Proof.
  induction ps as [|p ps IH]; cbn [first_whole]; [discriminate|].
  destruct (search true p line) as [m|] eqn:Hs; [|exact IH].
  intros H; inversion H; subst t. exact (search_whole_substring _ _ _ Hs).
Qed.

(** The usage loop never raises; what it returns stems from the second
    group of one of its patterns. *)
Lemma first_usage_grouped (A : Type) (unit_of : option str -> result A)
      (handled : list exn) (ps : list re) (line : str) :
  (forall u, exists x, unit_of (Some u) = Ok x) ->
  caught handled ValueError = true ->
  forallb (grouped 2) ps = true ->
  first_usage unit_of handled ps line = Ok None
  \/ exists q x p m u,
      first_usage unit_of handled ps line = Ok (Some (q, x))
      /\ In p ps
      /\ search true p line = Some m
      /\ cap_get 2 (m_groups m) = Some u
      /\ unit_of (Some u) = Ok x.
Proof.
  intros Hu Hh.
  induction ps as [|p ps IH]; cbn [first_usage forallb In]; intros Hg;
    [left; reflexivity|].
  apply andb_true_iff in Hg. destruct Hg as [Hp Hps].
  assert (Hrest : first_usage unit_of handled ps line = Ok None
                  \/ exists q x p0 m u,
                      first_usage unit_of handled ps line = Ok (Some (q, x))
                      /\ (p = p0 \/ In p0 ps)
                      /\ search true p0 line = Some m
                      /\ cap_get 2 (m_groups m) = Some u
                      /\ unit_of (Some u) = Ok x).
  { destruct (IH Hps) as [H|(q & x & p0 & m & u & H1 & H2 & H3)]; [left; exact H|].
    right. exists q, x, p0, m, u. tauto. }
  unfold try_usage.
  destruct (search true p line) as [m|] eqn:Hs; [|exact Hrest].
  destruct (RxFacts.rx_search_grouped p line m 2 1 Hp Hs) as [t Ht]; [lia|].
  destruct (RxFacts.rx_search_grouped p line m 2 2 Hp Hs) as [u Hu2]; [lia|].
  rewrite Ht. cbn [bind]. unfold float_of_digits.
  destruct (Dec.Decimal_of_str (remove_char ","%char t)) as [d|e]; cbn [bind].
  - rewrite Hu2. cbn [bind]. destruct (Hu u) as [x Hx]. rewrite Hx. cbn [bind].
    right. exists (Dec.to_float d), x, p, m, u.
    split; [reflexivity|]. split; [left; reflexivity|]. split; [exact Hs|].
    split; [|exact Hx].
    unfold group in Hu2. destruct (Nat.ltb (ngroups p) 2); [discriminate|].
    inversion Hu2. reflexivity.
  - rewrite Hh. exact Hrest.
Qed.

End FieldFacts.

Module ExtractorFacts.
Import PyStr Rx RxSpec Fields.

Lemma forensic_type (line : str) :
  exists t, ForensicFields._extract_service_type line = Ok (Some t)
            /\ (t = L "Standard" \/ Props.substring t line).
Proof.
  unfold ForensicFields._extract_service_type.
  destruct (FieldFacts.first_group_grouped ForensicFields.type_patterns line)
    as [H|(t & H & Hs)]; [vm_compute; reflexivity| |]; rewrite H; cbn [bind].
  - exists (L "Standard"). auto.
  - exists t. auto.
Qed.

Lemma forensic_region (line : str) :
  exists r, ForensicFields._extract_region line = Ok (Some r)
            /\ ((r = L "Global" /\ contains (L "Any") line = false)
                \/ (r = L "Any" /\ contains (L "Any") line = true)
                \/ Props.substring r line).
Proof.
  unfold ForensicFields._extract_region.
  destruct (FieldFacts.first_group_grouped ForensicFields.region_patterns line)
    as [H|(t & H & Hs)]; [vm_compute; reflexivity| |]; rewrite H; cbn [bind].
  - destruct (contains (L "Any") line) eqn:E.
    + exists (L "Any"). auto.
    + exists (L "Global"). auto.
  - exists t. auto.
Qed.

Lemma forensic_usage (line : str) :
  exists q u, ForensicFields._extract_usage line = Ok (q, Some u)
              /\ ((q = PyFloat.one /\ u = L "Units") \/ Props.substring u line).
Proof.
  unfold ForensicFields._extract_usage.
  destruct (FieldFacts.first_usage_grouped _ (fun g : option str => Ok g)
              [ValueError; IndexError] ForensicFields.usage_patterns line)
    as [H|(q & x & p & m & u & H & Hp & Hs & Hc & Hx)].
  - intros u. eexists. reflexivity.
  - reflexivity.
  - vm_compute. reflexivity.
  - rewrite H. cbn [bind]. exists PyFloat.one, (L "Units"). auto.
  - rewrite H. cbn [bind]. inversion Hx; subst x. exists q, u.
    split; [reflexivity|]. right.
    exact (FieldFacts.search_group_substring _ _ _ _ _ Hs Hc).
Qed.

Lemma analyzer_usage (line : str) :
  exists q u,
    AnalyzerFields.extract_usage_quantity_and_unit line = Ok (q, u)
    /\ ((q = None /\ u = L "unknown")
        \/ ((exists f, q = Some f) /\ In u Props.analyzer_units)).
Proof.
  unfold AnalyzerFields.extract_usage_quantity_and_unit.
  destruct (FieldFacts.first_usage_grouped _ AnalyzerFields.lowered_unit
              [ValueError] AnalyzerFields.usage_patterns line)
    as [H|(q & x & p & m & u & H & Hp & Hs & Hc & Hx)].
  - intros u. eexists. reflexivity.
  - reflexivity.
  - vm_compute. reflexivity.
  - rewrite H. cbn [bind]. exists None, (L "unknown"). auto.
  - rewrite H. cbn [bind]. inversion Hx; subst x. exists (Some q), (lower u).
    split; [reflexivity|]. right. split; [eexists; reflexivity|].
    assert (Hall : forallb
                     (fun p => match group_words 2 p with
                               | Some l =>
                                   forallb (fun w => existsb (Analyzer.str_eqb w)
                                                             Props.analyzer_units) l
                               | None => false
                               end)
                     AnalyzerFields.usage_patterns = true)
      by (vm_compute; reflexivity).
    rewrite forallb_forall in Hall. specialize (Hall p Hp).
    destruct (group_words 2 p) as [l|] eqn:Hl; [|discriminate].
    rewrite forallb_forall in Hall.
    apply RxFacts.rx_search_sound in Hs.
    destruct Hs as (pre & s0 & p0 & p' & rest & _ & Hm & _).
    destruct (RxFacts.matches_group_words _ _ _ _ _ _ _ 2 Hm _ _ Hl Hc) as [Hn|Hin];
      [discriminate|].
    specialize (Hall _ Hin). apply existsb_exists in Hall.
    destruct Hall as (w & Hw & He). apply EnhancedFacts.str_eqb_eq in He.
    rewrite He. exact Hw.
Qed.

Lemma analyzer_details (line : str) :
  exists t,
    AnalyzerFields.extract_service_details line
    = Ok (Some t, AnalyzerFields._extract_rate_description line)
    /\ (t = L "standard" \/ Props.substring t line).
Proof.
  unfold AnalyzerFields.extract_service_details.
  destruct (FieldFacts.first_group_grouped AnalyzerFields.service_type_patterns line)
    as [H|(t & H & Hs)]; [vm_compute; reflexivity| |]; rewrite H; cbn [bind].
  - exists (L "standard"). auto.
  - exists t. auto.
Qed.

Lemma result_map_bind (A B C : Type) (f : B -> C) (x : result A) (k : A -> result B) :
  Props.result_map f (bind x k) = bind x (fun a => Props.result_map f (k a)).
Proof. destruct x; reflexivity. Qed.

(** One iteration with all the fields, seen through the ledger. *)
Lemma scan_line_view (st : AnalyzerFields.scan_state) (n : nat) (line : str) :
  Props.result_map AnalyzerFields.state_view (AnalyzerFields.scan_line st n line)
  = Analyzer.scan_line (AnalyzerFields.state_view st) n line.
Proof.
  unfold AnalyzerFields.scan_line, Analyzer.scan_line.
  destruct (Dec.is_nil (strip line) || (List.length (strip line) <? 10))%bool;
    [reflexivity|].
  destruct (Analyzer.extract_cost (strip line)) as [[c|]|e]; cbn [bind];
    try reflexivity.
  destruct (Dec.is_zero c); [reflexivity|].
  destruct (Analyzer.categorize_service (strip line)) as [category confidence].
  destruct (PyFloat.flt confidence PyFloat.lit_0_1); [reflexivity|].
  destruct (analyzer_usage (strip line)) as (q & u & Hu & _). rewrite Hu.
  cbn [bind].
  destruct (analyzer_details (strip line)) as (t & Hd & _). rewrite Hd.
  cbn [bind].
  destruct (Analyzer._extract_service_name (strip line) category) as [name|e];
    cbn [bind]; [|reflexivity].
  unfold Props.result_map, AnalyzerFields.state_view.
  cbn [AnalyzerFields.service_usages AnalyzerFields.total_cost
       Analyzer.service_usages Analyzer.total_cost].
  rewrite map_app. reflexivity.
Qed.

Lemma scan_lines_view (lines : list str) :
  forall (st : AnalyzerFields.scan_state) (n : nat),
    Props.result_map AnalyzerFields.state_view
      (AnalyzerFields.scan_lines st n lines)
    = Analyzer.scan_lines (AnalyzerFields.state_view st) n lines.
Proof.
  induction lines as [|line rest IH]; intros st n;
    cbn [AnalyzerFields.scan_lines Analyzer.scan_lines]; [reflexivity|].
  rewrite <- scan_line_view.
  destruct (AnalyzerFields.scan_line st n line) as [st1|e]; cbn [Props.result_map bind];
    [apply IH|reflexivity].
Qed.

End ExtractorFacts.

(** X14 — The extractors of the descriptive fields of a forensic item
    ([_extract_service_type], [_extract_region], [_extract_usage],
    [_extract_rate_description]) never raise and never yield [None]:
    [_create_service_item] with all its entries fails exactly when
    [_extract_service_name] does, with the same exception, and otherwise
    gives the item of the ledger with five entries more. *)
Theorem forensic_item_fields_never_raise :
  forall (line : PyStr.str) (cost : Dec.dec) (line_num : nat),
    Props.result_map ForensicFields.ledger_view
      (ForensicFields._create_service_item line cost line_num)
    = Forensic._create_service_item line cost line_num.
Proof.
  intros line cost n.
  unfold ForensicFields._create_service_item, Forensic._create_service_item.
  destruct (Forensic._extract_service_name line (Forensic._categorize_service line))
    as [name|e]; cbn [bind]; [|reflexivity].
  destruct (ExtractorFacts.forensic_type line) as (t & -> & _).
  destruct (ExtractorFacts.forensic_region line) as (r & -> & _).
  destruct (ExtractorFacts.forensic_usage line) as (q & u & -> & _).
  reflexivity.
Qed.

(** X15 — The descriptive fields of a forensic item quote the line:
    the service type is "Standard" or a piece of the line, the region
    is "Global" (no "Any" in the line), "Any" (the line holds "Any",
    capitals as written) or a piece of the line, the usage is 1.0
    "Units" or a number with a unit that is a piece of the line, and
    the rate description is "Standard Rate" or a stripped piece of the
    line.  Nothing is normalised. *)
Theorem forensic_fields_quote_the_line :
  forall line : PyStr.str,
    (exists t, ForensicFields._extract_service_type line = Ok (Some t)
               /\ (t = PyStr.L "Standard" \/ Props.substring t line))
    /\ (exists r, ForensicFields._extract_region line = Ok (Some r)
                  /\ ((r = PyStr.L "Global"
                       /\ PyStr.contains (PyStr.L "Any") line = false)
                      \/ (r = PyStr.L "Any"
                          /\ PyStr.contains (PyStr.L "Any") line = true)
                      \/ Props.substring r line))
    /\ (exists q u, ForensicFields._extract_usage line = Ok (q, Some u)
                    /\ ((q = PyFloat.one /\ u = PyStr.L "Units")
                        \/ Props.substring u line))
    /\ (ForensicFields._extract_rate_description line = PyStr.L "Standard Rate"
        \/ exists t, Props.substring t line
                     /\ ForensicFields._extract_rate_description line
                        = PyStr.strip t).
Proof.
  intros line. split; [apply ExtractorFacts.forensic_type|].
  split; [apply ExtractorFacts.forensic_region|].
  split; [apply ExtractorFacts.forensic_usage|].
  unfold ForensicFields._extract_rate_description.
  destruct (Fields.first_whole ForensicFields.rate_patterns line) as [t|] eqn:E;
    [|left; reflexivity].
  right. exists t. split; [|reflexivity].
  exact (FieldFacts.first_whole_substring _ _ _ E).
Qed.

(** X16 — The extractors of the descriptive fields of a classified
    entry never raise: the loop of [analyze_aws_invoice] with all ten
    fields, seen through the five fields of the ledger, is the loop of
    the ledger; it fails where that one fails and adds the same entries
    in the same order. *)
Theorem classified_fields_never_raise :
  forall (lines : list PyStr.str) (st : AnalyzerFields.scan_state) (n : nat),
    Props.result_map AnalyzerFields.state_view
      (AnalyzerFields.scan_lines st n lines)
    = Analyzer.scan_lines (AnalyzerFields.state_view st) n lines.
Proof. exact ExtractorFacts.scan_lines_view. Qed.

(** X17 — What the classified extractors can report.  The usage is
    either no quantity with the unit "unknown", or a quantity with one
    of twenty-three lower-case units (among them "querie" and "queries",
    never "query").  The service type is "standard" or a piece of the
    line; the rate description is "Standard rate" or a stripped piece
    of the line. *)
Theorem classified_fields_are_bounded :
  forall line : PyStr.str,
    (exists q u,
        AnalyzerFields.extract_usage_quantity_and_unit line = Ok (q, u)
        /\ ((q = None /\ u = PyStr.L "unknown")
            \/ ((exists f, q = Some f) /\ In u Props.analyzer_units)))
    /\ (exists t,
           AnalyzerFields.extract_service_details line
           = Ok (Some t, AnalyzerFields._extract_rate_description line)
           /\ (t = PyStr.L "standard" \/ Props.substring t line))
    /\ (AnalyzerFields._extract_rate_description line = PyStr.L "Standard rate"
        \/ exists t, Props.substring t line
                     /\ AnalyzerFields._extract_rate_description line
                        = PyStr.strip t).
Proof.
  intros line. split; [apply ExtractorFacts.analyzer_usage|].
  split; [apply ExtractorFacts.analyzer_details|].
  unfold AnalyzerFields._extract_rate_description.
  destruct (Fields.first_whole AnalyzerFields.rate_patterns line) as [t|] eqn:E;
    [|left; reflexivity].
  right. exists t. split; [|reflexivity].
  exact (FieldFacts.first_whole_substring _ _ _ E).
Qed.

(** * Regions and the text of a response *)

Module TextFacts.
Import PyStr EnhancedText.

Lemma chr_eqb_neq (a b : ascii) : a <> b -> chr_eqb a b = false.
Proof. intros H. unfold chr_eqb. apply Ascii.eqb_neq. exact H. Qed.

Lemma starts_with_app (p s : str) : starts_with p (p ++ s) = true.
Proof.
  induction p as [|c p IH]; [reflexivity|].
  cbn [app starts_with]. unfold chr_eqb. rewrite Ascii.eqb_refl. exact IH.
Qed.

Lemma starts_with_head_neq (x c : ascii) (n s : str) :
  c <> x -> starts_with (x :: n) (c :: s) = false.
Proof.
  intros H. cbn [starts_with]. rewrite chr_eqb_neq; [reflexivity|].
  intros E. apply H. symmetry. exact E.
Qed.

Lemma contains_here (n s : str) : starts_with n s = true -> contains n s = true.
Proof. intros H. destruct s; cbn [contains]; rewrite H; reflexivity. Qed.

Lemma contains_mid (p a b : str) : contains p (a ++ p ++ b) = true.
Proof.
  induction a as [|c a IH].
  - cbn [app]. apply contains_here. apply starts_with_app.
  - cbn [app contains]. rewrite IH. apply orb_true_r.
Qed.

Lemma contains_no_char (x : ascii) (n s : str) :
  Forall (fun c => c <> x) s -> contains (x :: n) s = false.
Proof.
  induction 1 as [|c s Hc Hs IH]; [reflexivity|].
  cbn [contains]. rewrite starts_with_head_neq by exact Hc. exact IH.
Qed.

Lemma find_from_skip (x : ascii) (n pre s : str) (pos : nat) :
  Forall (fun c => c <> x) pre ->
  find_from (x :: n) (pre ++ s) pos
  = find_from (x :: n) s (pos + List.length pre).
Proof.
  intros H. revert pos. induction H as [|c pre Hc Hp IH]; intros pos.
  - cbn [app List.length]. rewrite Nat.add_0_r. reflexivity.
  - cbn [app find_from]. rewrite starts_with_head_neq by exact Hc.
    rewrite IH. cbn [List.length]. f_equal. lia.
Qed.

Lemma find_from_here (n s : str) (pos : nat) :
  starts_with n s = true -> find_from n s pos = Z.of_nat pos.
Proof. intros H. destruct s; cbn [find_from]; rewrite H; reflexivity. Qed.

Lemma find_from_none (n s : str) (pos : nat) :
  contains n s = false -> find_from n s pos = (-1)%Z.
Proof.
  revert pos. induction s as [|c s IH]; intros pos H; cbn [contains] in H;
    apply orb_false_iff in H; destruct H as [H1 H2]; cbn [find_from];
    rewrite H1; [reflexivity|apply IH; exact H2].
Qed.

Lemma rfind_from_none (x : ascii) (s : str) (pos : nat) :
  Forall (fun c => c <> x) s -> rfind_from [x] s pos = (-1)%Z.
Proof.
  intros H. revert pos. induction H as [|c s Hc Hs IH]; intros pos.
  - reflexivity.
  - cbn [rfind_from]. rewrite IH. cbn [Z.leb Z.compare].
    rewrite starts_with_head_neq by exact Hc. reflexivity.
Qed.

Lemma rfind_from_last (x : ascii) (a post : str) (pos : nat) :
  Forall (fun c => c <> x) post ->
  rfind_from [x] (a ++ x :: post) pos = Z.of_nat (pos + List.length a).
Proof.
  intros H. revert pos. induction a as [|c a IH]; intros pos.
  - cbn [app rfind_from List.length]. rewrite rfind_from_none by exact H.
    cbn [Z.leb Z.compare starts_with]. unfold chr_eqb. rewrite Ascii.eqb_refl.
    rewrite Nat.add_0_r. reflexivity.
  - cbn [app rfind_from List.length]. rewrite IH.
    replace (Z.leb 0 (Z.of_nat (S pos + List.length a))) with true
      by (symmetry; apply Z.leb_le; lia).
    f_equal. lia.
Qed.

(** [s[a:b]] between two positions of the text. *)
Lemma slice_mid (a m b : str) :
  slice (a ++ m ++ b) (Z.of_nat (List.length a))
        (Z.of_nat (List.length a + List.length m)) = m.
Proof.
  unfold slice. rewrite !length_app.
  replace (Z.ltb (Z.of_nat (List.length a + List.length m)) 0) with false
    by (symmetry; apply Z.ltb_ge; lia).
  replace (Z.ltb (Z.of_nat (List.length a)) 0) with false
    by (symmetry; apply Z.ltb_ge; lia).
  rewrite !Z.min_l by lia.
  replace (Z.to_nat (Z.of_nat (List.length a + List.length m)
                     - Z.of_nat (List.length a))) with (List.length m) by lia.
  rewrite Nat2Z.id.
  rewrite skipn_app, skipn_all, Nat.sub_diag. cbn [app skipn].
  rewrite firstn_app, firstn_all, Nat.sub_diag. cbn [firstn].
  apply app_nil_r.
Qed.

(** [s[a:-1]]: the last character is left out. *)
Lemma slice_to_minus_1 (a r : str) :
  slice (a ++ r) (Z.of_nat (List.length a)) (-1) = removelast r.
Proof.
  unfold slice. rewrite length_app.
  replace (Z.ltb (-1) 0) with true by reflexivity.
  replace (Z.ltb (Z.of_nat (List.length a)) 0) with false
    by (symmetry; apply Z.ltb_ge; lia).
  rewrite Z.min_l by lia. rewrite Nat2Z.id.
  rewrite skipn_app, skipn_all, Nat.sub_diag. cbn [app skipn].
  replace (Z.to_nat (Z.max 0 (-1 + Z.of_nat (List.length a + List.length r))
                     - Z.of_nat (List.length a)))
    with (Nat.pred (List.length r)) by lia.
  symmetry. apply removelast_firstn_len.
Qed.

(** [s[a:0]] is empty. *)
Lemma slice_to_0 (s : str) (a : Z) : (0 <= a)%Z -> slice s a 0 = [].
Proof.
  intros H. unfold slice.
  replace (Z.ltb 0 0) with false by reflexivity.
  replace (Z.ltb a 0) with false by (symmetry; apply Z.ltb_ge; lia).
  replace (Z.to_nat (Z.min 0 (Z.of_nat (List.length s))
                     - Z.min a (Z.of_nat (List.length s)))) with 0%nat by lia.
  reflexivity.
Qed.

Lemma find_from_nonneg (n s : str) (pos : nat) :
  contains n s = true -> (0 <= find_from n s pos)%Z.
Proof.
  revert pos. induction s as [|c s IH]; intros pos H; cbn [contains] in H;
    cbn [find_from].
  - rewrite orb_false_r in H. rewrite H. lia.
  - destruct (starts_with n (c :: s)); [lia|]. apply IH. exact H.
Qed.

Lemma rfind_from_absent (x : ascii) (s : str) (pos : nat) :
  contains [x] s = false -> rfind_from [x] s pos = (-1)%Z.
Proof.
  revert pos. induction s as [|c s IH]; intros pos H; cbn [contains] in H;
    apply orb_false_iff in H; destruct H as [H1 H2]; cbn [rfind_from].
  - reflexivity.
  - rewrite IH by exact H2. cbn [Z.leb Z.compare]. rewrite H1. reflexivity.
Qed.

Lemma fence_cons : fence = backtick :: (backtick :: backtick :: L "json").
Proof. reflexivity. Qed.

Lemma ticks_cons : ticks = backtick :: [backtick; backtick].
Proof. reflexivity. Qed.

Lemma fence_length (pre : str) :
  List.length (pre ++ fence) = (List.length pre + 7)%nat.
Proof. rewrite length_app. reflexivity. Qed.

Lemma find_from_first (x : ascii) (n pre s : str) (pos : nat) :
  Forall (fun c => c <> x) pre -> starts_with (x :: n) s = true ->
  find_from (x :: n) (pre ++ s) pos = Z.of_nat (pos + List.length pre).
Proof.
  intros Hp Hs. rewrite find_from_skip by exact Hp.
  apply find_from_here. exact Hs.
Qed.

(** The closing fence is found right after a text without backticks. *)
Lemma ticks_found (body post : str) (pos : nat) :
  Forall (fun c => c <> backtick) body ->
  find_from ticks (body ++ ticks ++ post) pos
  = Z.of_nat (pos + List.length body).
Proof.
  intros H.
  exact (find_from_first backtick [backtick; backtick] body (ticks ++ post) pos
           H (starts_with_app ticks post)).
Qed.

(** The opening fence is found right after a text without backticks. *)
Lemma fence_found (pre rest : str) :
  Forall (fun c => c <> backtick) pre ->
  contains fence (pre ++ fence ++ rest) = true
  /\ find fence (pre ++ fence ++ rest) 0 = Z.of_nat (List.length pre).
Proof.
  intros Hpre. split; [apply contains_mid|].
  unfold find. cbn [skipn]. rewrite fence_cons at 1.
  rewrite find_from_skip by exact Hpre. rewrite <- fence_cons.
  rewrite find_from_here by apply starts_with_app. reflexivity.
Qed.

(** [str.lower] and [str.strip]. *)
Lemma lower_char_idem (c : ascii) : lower_char (lower_char c) = lower_char c.
Proof. destruct c as [[] [] [] [] [] [] [] []]; reflexivity. Qed.

Lemma lower_idem (s : str) : lower (lower s) = lower s.
Proof.
  unfold lower. rewrite map_map. apply map_ext. apply lower_char_idem.
Qed.

Lemma lstrip_suffix (s : str) : exists a, s = a ++ lstrip s.
Proof.
  induction s as [|c s [a IH]]; [exists []; reflexivity|].
  cbn [lstrip]. destruct (isspace c).
  - exists (c :: a). cbn [app]. f_equal. exact IH.
  - exists []. reflexivity.
Qed.

Lemma lstrip_no_space_ahead (s : str) (c : ascii) (r : str) :
  lstrip s = c :: r -> isspace c = false.
Proof.
  induction s as [|a s IH]; [discriminate|].
  cbn [lstrip]. destruct (isspace a) eqn:E; [exact IH|].
  intros H. injection H as -> _. exact E.
Qed.

Lemma lstrip_fixed (s : str) :
  (forall c r, s = c :: r -> isspace c = false) -> lstrip s = s.
Proof.
  destruct s as [|c s]; [reflexivity|]. intros H. cbn [lstrip].
  rewrite (H c s eq_refl). reflexivity.
Qed.

Lemma lstrip_idem (s : str) : lstrip (lstrip s) = lstrip s.
Proof. apply lstrip_fixed. intros c r. apply lstrip_no_space_ahead. Qed.

Lemma rstrip_prefix (s : str) : exists b, s = rstrip s ++ b.
Proof.
  unfold rstrip. destruct (lstrip_suffix (rev s)) as [a H].
  exists (rev a). rewrite <- rev_app_distr, <- H. symmetry. apply rev_involutive.
Qed.

Lemma rstrip_no_space_ahead (s : str) (c : ascii) (r : str) :
  (forall c r, s = c :: r -> isspace c = false) ->
  rstrip s = c :: r -> isspace c = false.
Proof.
  intros H E. destruct (rstrip_prefix s) as [b Hb]. rewrite E in Hb.
  exact (H c (r ++ b) Hb).
Qed.

Lemma strip_idem (s : str) : strip (strip s) = strip s.
Proof.
  unfold strip at 1.
  rewrite (lstrip_fixed (strip s)).
  - unfold strip, rstrip. rewrite rev_involutive, lstrip_idem. reflexivity.
  - intros c r. unfold strip. apply rstrip_no_space_ahead.
    intros c' r'. apply lstrip_no_space_ahead.
Qed.

Lemma lower_all (s : str) : Forall (fun c => lower_char c = c) (lower s).
Proof.
  induction s as [|c s IH]; constructor; [apply lower_char_idem|exact IH].
Qed.

Lemma lower_fixed (s : str) :
  Forall (fun c => lower_char c = c) s -> lower s = s.
Proof.
  induction 1 as [|c s Hc Hs IH]; [reflexivity|].
  cbn [lower map]. rewrite Hc. f_equal. exact IH.
Qed.

Lemma lower_strip (s : str) : lower (strip (lower s)) = strip (lower s).
Proof.
  apply lower_fixed. unfold strip.
  destruct (lstrip_suffix (lower s)) as [a Ha].
  destruct (rstrip_prefix (lstrip (lower s))) as [b Hb].
  pose proof (lower_all s) as H. rewrite Ha in H.
  apply Forall_app in H. destruct H as [_ H]. rewrite Hb in H.
  apply Forall_app in H. destruct H as [H _]. exact H.
Qed.

(** Region tables. *)
Lemma code_eqb (a b : ascii) : N.eqb (code a) (code b) = chr_eqb a b.
Proof.
  unfold chr_eqb, code. destruct (Ascii.eqb a b) eqn:E.
  - apply Ascii.eqb_eq in E. subst. apply N.eqb_refl.
  - apply Ascii.eqb_neq in E. apply N.eqb_neq. intros H. apply E.
    rewrite <- (ascii_N_embedding a), <- (ascii_N_embedding b), H. reflexivity.
Qed.

Lemma starts_with_codes_codes (p s : str) :
  AnalyzerFields.starts_with_codes (AnalyzerFields.codes p) (AnalyzerFields.codes s)
  = starts_with p s.
Proof.
  revert s. induction p as [|a p IH]; intros [|b s]; try reflexivity.
  cbn [AnalyzerFields.codes map AnalyzerFields.starts_with_codes starts_with].
  rewrite code_eqb. f_equal. apply IH.
Qed.

Lemma contains_codes_codes (p s : str) :
  AnalyzerFields.contains_codes (AnalyzerFields.codes p) (AnalyzerFields.codes s)
  = contains p s.
Proof.
  induction s as [|b s IH].
  - cbn [AnalyzerFields.codes map AnalyzerFields.contains_codes contains].
    f_equal. apply (starts_with_codes_codes p []).
  - cbn [AnalyzerFields.codes map AnalyzerFields.contains_codes contains].
    f_equal; [apply (starts_with_codes_codes p (b :: s))|apply IH].
Qed.

Lemma starts_with_codes_in (p h : list N) :
  AnalyzerFields.starts_with_codes p h = true -> forall n, In n p -> In n h.
Proof.
  revert h. induction p as [|a p IH]; intros [|b h] H n Hin;
    cbn [AnalyzerFields.starts_with_codes] in H; try contradiction;
    try discriminate.
  apply andb_true_iff in H. destruct H as [E H]. apply N.eqb_eq in E. subst b.
  destruct Hin as [->|Hin]; [left; reflexivity|right; exact (IH _ H _ Hin)].
Qed.

Lemma contains_codes_in (p h : list N) :
  AnalyzerFields.contains_codes p h = true -> forall n, In n p -> In n h.
Proof.
  induction h as [|b h IH]; intros H n Hin;
    cbn [AnalyzerFields.contains_codes] in H; apply orb_true_iff in H;
    destruct H as [H|H].
  - exact (starts_with_codes_in _ _ H _ Hin).
  - discriminate.
  - exact (starts_with_codes_in _ _ H _ Hin).
  - right. exact (IH H _ Hin).
Qed.

Lemma codes_small (s : str) (n : N) : In n (AnalyzerFields.codes s) -> (n < 256)%N.
Proof.
  unfold AnalyzerFields.codes. intros H. apply in_map_iff in H.
  destruct H as (c & <- & _). apply N_ascii_bounded.
Qed.

(** A pattern with a character beyond Latin-1 is in no line. *)
Lemma contains_codes_beyond (p : list N) (s : str) (n : N) :
  existsb (N.eqb n) p = true -> (256 <= n)%N ->
  AnalyzerFields.contains_codes p (AnalyzerFields.codes s) = false.
Proof.
  intros Hp Hn. destruct (AnalyzerFields.contains_codes p (AnalyzerFields.codes s)) eqn:E;
    [|reflexivity].
  apply existsb_exists in Hp. destruct Hp as (k & Hk & Ek).
  apply N.eqb_eq in Ek. subst k.
  pose proof (codes_small _ _ (contains_codes_in _ _ E _ Hk)). lia.
Qed.

Lemma first_region_found (table : list (str * list (list N))) (l : list N) :
  AnalyzerFields.first_region table l = L "unknown"
  \/ exists ps,
      In (AnalyzerFields.first_region table l, ps) table
      /\ existsb (fun pattern =>
                    AnalyzerFields.contains_codes
                      (map AnalyzerFields.lower_code pattern) l) ps = true.
Proof.
  induction table as [|[k ps] table IH]; [left; reflexivity|].
  cbn [AnalyzerFields.first_region].
  destruct (existsb _ ps) eqn:E.
  - right. exists ps. split; [left; reflexivity|exact E].
  - destruct IH as [IH|(ps' & Hin & He)]; [left; exact IH|].
    right. exists ps'. split; [right; exact Hin|exact He].
Qed.

Lemma lookup_value (A : Type) (d : list (str * A)) (k : str) (v : A) :
  Analyzer.lookup k d = Some v -> In v (map snd d).
Proof.
  intros H. apply GroupFacts.lookup_in in H. apply in_map_iff.
  exists (k, v). split; [reflexivity|exact H].
Qed.

(** What the clean-up and the repair keep. *)
Lemma starts_with_weaken (p x y : str) :
  starts_with p x = true -> starts_with p (x ++ y) = true.
Proof.
  revert x. induction p as [|c p IH]; intros [|a x] H; try reflexivity;
    try discriminate.
  cbn [app starts_with] in *. apply andb_true_iff in H. destruct H as [H1 H2].
  rewrite H1. cbn [andb]. apply IH. exact H2.
Qed.

Lemma ends_with_app (suffix a b : str) :
  ends_with suffix b = true -> ends_with suffix (a ++ b) = true.
Proof.
  unfold ends_with. intros H. rewrite rev_app_distr.
  apply starts_with_weaken. exact H.
Qed.

Lemma all_firstn (P : ascii -> Prop) (n : nat) (s : str) :
  Forall P s -> Forall P (firstn n s).
Proof.
  intros H. rewrite <- (firstn_skipn n s) in H.
  apply Forall_app in H. exact (proj1 H).
Qed.

Lemma all_skipn (P : ascii -> Prop) (n : nat) (s : str) :
  Forall P s -> Forall P (skipn n s).
Proof.
  intros H. rewrite <- (firstn_skipn n s) in H.
  apply Forall_app in H. exact (proj2 H).
Qed.

Lemma all_slice (P : ascii -> Prop) (s : str) (a b : Z) :
  Forall P s -> Forall P (slice s a b).
Proof. intros H. unfold slice. apply all_firstn. apply all_skipn. exact H. Qed.

Lemma all_strip (P : ascii -> Prop) (s : str) :
  Forall P s -> Forall P (strip s).
Proof.
  intros H. unfold strip.
  destruct (lstrip_suffix s) as [a Ha]. rewrite Ha in H.
  apply Forall_app in H. destruct H as [_ H].
  destruct (rstrip_prefix (lstrip s)) as [b Hb]. rewrite Hb in H.
  apply Forall_app in H. exact (proj1 H).
Qed.

(** The cut holds characters of the response only. *)
Lemma all_json_text_of (P : ascii -> Prop) (response_text : str) :
  Forall P response_text -> Forall P (json_text_of response_text).
Proof.
  intros H. unfold json_text_of.
  destruct (contains fence response_text).
  - apply all_strip. apply all_slice. exact H.
  - destruct (contains (L "{") response_text); [|exact H].
    apply all_slice. exact H.
Qed.

Lemma all_replace_char (P : ascii -> Prop) (c : ascii) (by_ s : str) :
  Forall P by_ -> Forall P s -> Forall P (replace_char c by_ s).
Proof.
  intros Hb H. unfold replace_char.
  induction H as [|x s Hx Hs IH]; [constructor|].
  cbn [flat_map]. apply Forall_app. split; [|exact IH].
  destruct (chr_eqb x c); [exact Hb|]. constructor; [exact Hx|constructor].
Qed.

Lemma clean_keeps_no_brace (s : str) :
  Forall (fun c => c <> "}"%char) s ->
  Forall (fun c => c <> "}"%char) (clean_json_text s).
Proof.
  intros H. unfold clean_json_text.
  apply all_replace_char; [repeat constructor; discriminate|].
  apply all_replace_char; [repeat constructor; discriminate|].
  apply all_replace_char; [repeat constructor; discriminate|exact H].
Qed.

Lemma ends_with_no_char (x : ascii) (s : str) :
  Forall (fun c => c <> x) s -> ends_with [x] s = false.
Proof.
  intros H. unfold ends_with. apply Forall_rev in H. cbn [rev app].
  destruct H as [|c t Hc _]; [reflexivity|].
  apply starts_with_head_neq. exact Hc.
Qed.

Lemma contains_pair_no_char (y x : ascii) (s : str) :
  Forall (fun c => c <> x) s -> contains [y; x] s = false.
Proof.
  induction 1 as [|a s Ha Hs IH]; [reflexivity|].
  cbn [contains]. rewrite IH, orb_false_r.
  destruct Hs as [|b s Hb _]; cbn [starts_with].
  - apply andb_false_r.
  - rewrite (chr_eqb_neq x b) by (intros E; apply Hb; symmetry; exact E).
    apply andb_false_r.
Qed.

Lemma rfind_from_missing (needle s : str) (pos : nat) :
  contains needle s = false -> rfind_from needle s pos = (-1)%Z.
Proof.
  revert pos. induction s as [|c s IH]; intros pos H; cbn [contains] in H;
    apply orb_false_iff in H; destruct H as [H1 H2]; cbn [rfind_from].
  - rewrite H1. reflexivity.
  - rewrite IH by exact H2. cbn [Z.leb Z.compare]. rewrite H1. reflexivity.
Qed.

End TextFacts.

(** X18 — [extract_region] of the classified ledger recognises Sao
    Paulo by its code only.  For a line of Latin-1 characters, the
    answer "sa-east-1" means that the lower-cased line holds
    "sa-east-1" or "sae1": the two names of the city in the table are
    stored mis-decoded (with U+221A) and match no such line, so a line
    that names the city as it is written is not given this region. *)
Theorem sao_paulo_is_found_by_code_only :
  forall line : PyStr.str,
    AnalyzerFields.extract_region line = PyStr.L "sa-east-1" ->
    PyStr.contains (PyStr.L "sa-east-1") (PyStr.lower line) = true
    \/ PyStr.contains (PyStr.L "sae1") (PyStr.lower line) = true.
Proof.
  intros line H. unfold AnalyzerFields.extract_region in H.
  destruct (TextFacts.first_region_found AnalyzerFields.region_patterns
              (AnalyzerFields.codes (PyStr.lower line)))
    as [Hu|(ps & Hin & Hex)].
  - rewrite H in Hu. vm_compute in Hu. discriminate Hu.
  - rewrite H in Hin. unfold AnalyzerFields.region_patterns in Hin.
    cbn [In] in Hin.
    repeat (destruct Hin as [Hin|Hin];
            [try (apply (f_equal fst) in Hin; vm_compute in Hin;
                  discriminate Hin)|]);
      [|contradiction].
    apply (f_equal snd) in Hin. cbn [snd] in Hin. subst ps.
    cbn [existsb] in Hex. rewrite orb_false_r in Hex.
    rewrite (TextFacts.contains_codes_beyond _ (PyStr.lower line) 8730%N) in Hex
      by (vm_compute; try reflexivity; discriminate).
    rewrite (TextFacts.contains_codes_beyond
               (map AnalyzerFields.lower_code
                    (AnalyzerFields.U "s" ++ [8730%N; 163%N]
                     ++ AnalyzerFields.U "o paulo"))
               (PyStr.lower line) 8730%N) in Hex
      by (vm_compute; try reflexivity; discriminate).
    cbn [orb] in Hex. rewrite orb_false_r in Hex.
    replace (map AnalyzerFields.lower_code (AnalyzerFields.U "sa-east-1"))
      with (AnalyzerFields.codes (PyStr.L "sa-east-1")) in Hex
      by (vm_compute; reflexivity).
    replace (map AnalyzerFields.lower_code (AnalyzerFields.U "sae1"))
      with (AnalyzerFields.codes (PyStr.L "sae1")) in Hex
      by (vm_compute; reflexivity).
    rewrite !TextFacts.contains_codes_codes in Hex.
    apply orb_true_iff in Hex. exact Hex.
Qed.

Lemma sao_paulo_is_found_by_code_only_witness :
  PyStr.contains (PyStr.L "sa-east-1") (PyStr.lower (PyStr.L "SAE1 usage")) = true
  \/ PyStr.contains (PyStr.L "sae1") (PyStr.lower (PyStr.L "SAE1 usage")) = true.
Proof.
  apply (sao_paulo_is_found_by_code_only (PyStr.L "SAE1 usage")).
  vm_compute. reflexivity.
Defined.

(** X19 — [_standardize_region] is idempotent: a standardized region is
    left as it is by a second pass, whether the first one took it from
    [region_mapping] or only lower-cased and stripped it. *)
Theorem standardize_region_is_idempotent :
  forall region : PyStr.str,
    EnhancedText._standardize_region (EnhancedText._standardize_region region)
    = EnhancedText._standardize_region region.
Proof.
  intros region.
  pose proof (eq_refl (EnhancedText._standardize_region region)) as Hx.
  unfold EnhancedText._standardize_region at 2 in Hx.
  destruct (Analyzer.lookup (PyStr.strip (PyStr.lower region))
                            EnhancedText.region_mapping) as [v|] eqn:E;
    rewrite Hx.
  - apply TextFacts.lookup_value in E.
    assert (Hall : forallb
                     (fun v => Analyzer.str_eqb (EnhancedText._standardize_region v) v)
                     (map snd EnhancedText.region_mapping) = true)
      by (vm_compute; reflexivity).
    rewrite forallb_forall in Hall.
    apply EnhancedFacts.str_eqb_eq. apply Hall. exact E.
  - unfold EnhancedText._standardize_region.
    rewrite TextFacts.lower_strip, TextFacts.strip_idem, E. reflexivity.
Qed.

(** X20 — A fenced answer in [reconcile_missing_costs]: when
    [response_text] is a text without backticks, the opening fence
    (three backticks and "json"), a body without backticks, three
    backticks and anything after them, the text that
    [reconcile_missing_costs] hands to [json.loads] is the body
    stripped; braces outside the fence play no part. *)
Theorem fenced_json_is_the_body :
  forall pre body post : PyStr.str,
    Forall (fun c => c <> EnhancedText.backtick) pre ->
    Forall (fun c => c <> EnhancedText.backtick) body ->
    EnhancedText.json_text_of
      (pre ++ EnhancedText.fence ++ body ++ EnhancedText.ticks ++ post)
    = PyStr.strip body.
Proof.
  intros pre body post Hpre Hbody. unfold EnhancedText.json_text_of.
  destruct (TextFacts.fence_found pre (body ++ EnhancedText.ticks ++ post) Hpre)
    as [Hc Hf].
  rewrite Hc, Hf.
  replace (Z.to_nat (Z.of_nat (List.length pre) + 7))
    with (List.length (pre ++ EnhancedText.fence))
    by (rewrite TextFacts.fence_length; lia).
  replace (Z.of_nat (List.length pre) + 7)%Z
    with (Z.of_nat (List.length (pre ++ EnhancedText.fence)))
    by (rewrite TextFacts.fence_length; lia).
  rewrite (app_assoc pre EnhancedText.fence).
  unfold EnhancedText.find.
  rewrite skipn_app, skipn_all, Nat.sub_diag. cbn [app skipn].
  rewrite TextFacts.ticks_found by exact Hbody.
  rewrite <- app_assoc. rewrite (app_assoc pre EnhancedText.fence).
  rewrite TextFacts.slice_mid. reflexivity.
Qed.

Lemma fenced_json_is_the_body_witness :
  EnhancedText.json_text_of
    (PyStr.L "Here: {x} " ++ EnhancedText.fence ++ PyStr.L " {} "
     ++ EnhancedText.ticks ++ PyStr.L " done")
  = PyStr.strip (PyStr.L " {} ").
Proof.
  apply (fenced_json_is_the_body (PyStr.L "Here: {x} ") (PyStr.L " {} ")
           (PyStr.L " done"));
    repeat constructor; discriminate.
Defined.

(** X21 — In [reconcile_missing_costs] an unclosed fence loses the
    last character: when the opening fence follows a text without
    backticks and no three backticks come after it, [find] answers -1
    and the slice ends one character before the end, so the text handed
    to [json.loads] is the rest without its last character, stripped. *)
Theorem unclosed_fence_drops_the_last_character :
  forall pre rest : PyStr.str,
    Forall (fun c => c <> EnhancedText.backtick) pre ->
    PyStr.contains EnhancedText.ticks rest = false ->
    EnhancedText.json_text_of (pre ++ EnhancedText.fence ++ rest)
    = PyStr.strip (removelast rest).
Proof.
  intros pre rest Hpre Hrest. unfold EnhancedText.json_text_of.
  destruct (TextFacts.fence_found pre rest Hpre) as [Hc Hf].
  rewrite Hc, Hf.
  replace (Z.to_nat (Z.of_nat (List.length pre) + 7))
    with (List.length (pre ++ EnhancedText.fence))
    by (rewrite TextFacts.fence_length; lia).
  replace (Z.of_nat (List.length pre) + 7)%Z
    with (Z.of_nat (List.length (pre ++ EnhancedText.fence)))
    by (rewrite TextFacts.fence_length; lia).
  rewrite (app_assoc pre EnhancedText.fence).
  unfold EnhancedText.find.
  rewrite skipn_app, skipn_all, Nat.sub_diag. cbn [app skipn].
  rewrite TextFacts.find_from_none by exact Hrest.
  rewrite TextFacts.slice_to_minus_1. reflexivity.
Qed.

Lemma unclosed_fence_drops_the_last_character_witness :
  EnhancedText.json_text_of (PyStr.L "Answer: " ++ EnhancedText.fence ++ PyStr.L " {}")
  = PyStr.strip (removelast (PyStr.L " {}")).
Proof.
  apply (unclosed_fence_drops_the_last_character (PyStr.L "Answer: ") (PyStr.L " {}")).
  - repeat constructor; discriminate.
  - vm_compute. reflexivity.
Defined.

(** X22 — Recovery between braces in [reconcile_missing_costs]: for a
    [response_text] without the opening fence, the text handed to
    [json.loads] runs from the first opening brace to the last closing
    brace, both included; what stands before and after is dropped. *)
Theorem json_is_cut_between_the_braces :
  forall pre mid post : PyStr.str,
    PyStr.contains EnhancedText.fence
      (pre ++ PyStr.L "{" ++ mid ++ PyStr.L "}" ++ post) = false ->
    Forall (fun c => c <> "{"%char) pre ->
    Forall (fun c => c <> "}"%char) post ->
    EnhancedText.json_text_of (pre ++ PyStr.L "{" ++ mid ++ PyStr.L "}" ++ post)
    = PyStr.L "{" ++ mid ++ PyStr.L "}".
Proof.
  intros pre mid post Hf Hpre Hpost. unfold EnhancedText.json_text_of.
  rewrite Hf. rewrite TextFacts.contains_mid.
  assert (Hfind : EnhancedText.find (PyStr.L "{")
                    (pre ++ PyStr.L "{" ++ mid ++ PyStr.L "}" ++ post) 0
                  = Z.of_nat (List.length pre)).
  { unfold EnhancedText.find. cbn [skipn].
    change (PyStr.L "{") with ("{"%char :: @nil ascii).
    rewrite TextFacts.find_from_skip by exact Hpre.
    rewrite TextFacts.find_from_here by apply TextFacts.starts_with_app.
    reflexivity. }
  assert (Hrfind : EnhancedText.rfind (PyStr.L "}")
                     (pre ++ PyStr.L "{" ++ mid ++ PyStr.L "}" ++ post)
                   = Z.of_nat (List.length pre + List.length (PyStr.L "{" ++ mid))).
  { unfold EnhancedText.rfind.
    change (PyStr.L "}") with ("}"%char :: @nil ascii).
    replace (pre ++ PyStr.L "{" ++ mid ++ ["}"%char] ++ post)
      with ((pre ++ PyStr.L "{" ++ mid) ++ "}"%char :: post)
      by (rewrite <- !app_assoc; reflexivity).
    rewrite TextFacts.rfind_from_last by exact Hpost.
    rewrite !length_app. f_equal. }
  rewrite Hfind, Hrfind.
  replace (pre ++ PyStr.L "{" ++ mid ++ PyStr.L "}" ++ post)
    with (pre ++ (PyStr.L "{" ++ mid ++ PyStr.L "}") ++ post)
    by (rewrite <- !app_assoc; reflexivity).
  replace (Z.of_nat (List.length pre + List.length (PyStr.L "{" ++ mid)) + 1)%Z
    with (Z.of_nat (List.length pre
                    + List.length (PyStr.L "{" ++ mid ++ PyStr.L "}")))
    by (rewrite !length_app;
        change (List.length (PyStr.L "{")) with 1%nat;
        change (List.length (PyStr.L "}")) with 1%nat; lia).
  apply TextFacts.slice_mid.
Qed.

Lemma json_is_cut_between_the_braces_witness :
  EnhancedText.json_text_of
    (PyStr.L "Sure: " ++ PyStr.L "{" ++ PyStr.L "a}{b" ++ PyStr.L "}" ++ PyStr.L " ok")
  = PyStr.L "{" ++ PyStr.L "a}{b" ++ PyStr.L "}".
Proof.
  apply (json_is_cut_between_the_braces (PyStr.L "Sure: ") (PyStr.L "a}{b")
           (PyStr.L " ok")).
  - vm_compute. reflexivity.
  - repeat constructor; discriminate.
  - repeat constructor; discriminate.
Defined.

(** X23 — An opening brace without a closing one in
    [reconcile_missing_costs]: for a [response_text] without the opening
    fence that holds "{" and no "}", [rfind] answers -1, the slice ends
    at 0 and the text handed to [json.loads] is empty. *)
Theorem unclosed_brace_gives_the_empty_text :
  forall response_text : PyStr.str,
    PyStr.contains EnhancedText.fence response_text = false ->
    PyStr.contains (PyStr.L "{") response_text = true ->
    PyStr.contains (PyStr.L "}") response_text = false ->
    EnhancedText.json_text_of response_text = [].
Proof.
  intros r Hf Ho Hc. unfold EnhancedText.json_text_of. rewrite Hf, Ho.
  unfold EnhancedText.rfind.
  change (PyStr.L "}") with ("}"%char :: @nil ascii) in *.
  rewrite TextFacts.rfind_from_absent by exact Hc.
  apply TextFacts.slice_to_0. unfold EnhancedText.find. cbn [skipn].
  apply TextFacts.find_from_nonneg. exact Ho.
Qed.

Lemma unclosed_brace_gives_the_empty_text_witness :
  EnhancedText.json_text_of (PyStr.L "{ 'cost': 1") = [].
Proof.
  apply (unclosed_brace_gives_the_empty_text (PyStr.L "{ 'cost': 1"));
    vm_compute; reflexivity.
Defined.

(** X24 — [extract_comprehensive_aws_data] never hands [json.loads] a
    text that does not end with a closing brace: whatever the response
    and the file name, the cut, once cleaned and repaired, ends with
    "}". *)
Theorem extraction_text_ends_with_a_brace :
  forall filename response_text : PyStr.str,
    EnhancedText.ends_with (PyStr.L "}")
      (EnhancedText.extraction_json_text filename response_text) = true.
Proof.
  intros filename r.
  unfold EnhancedText.extraction_json_text, EnhancedText.repair_json_text.
  destruct (EnhancedText.ends_with (PyStr.L "}")
              (EnhancedText.clean_json_text (EnhancedText.json_text_of r)))
    eqn:E; [exact E|].
  destruct (Z.ltb 0 _).
  - apply TextFacts.ends_with_app. vm_compute. reflexivity.
  - unfold EnhancedText.minimal_document.
    apply TextFacts.ends_with_app. apply TextFacts.ends_with_app.
    vm_compute. reflexivity.
Qed.

(** X25 — In [extract_comprehensive_aws_data] a response without any
    closing brace, fenced or not, is never parsed: the text handed to
    [json.loads] is the minimal document, which names the file (spliced
    in unescaped), carries the invoice total 3645.60 and an empty list
    of items. *)
Theorem answer_without_brace_becomes_the_minimal_document :
  forall filename response_text : PyStr.str,
    Forall (fun c => c <> "}"%char) response_text ->
    EnhancedText.extraction_json_text filename response_text
    = EnhancedText.minimal_document filename.
Proof.
  intros filename r H.
  unfold EnhancedText.extraction_json_text, EnhancedText.repair_json_text.
  assert (Ht : Forall (fun c => c <> "}"%char)
                 (EnhancedText.clean_json_text (EnhancedText.json_text_of r)))
    by (apply TextFacts.clean_keeps_no_brace; apply TextFacts.all_json_text_of;
        exact H).
  change (PyStr.L "}") with ("}"%char :: @nil ascii).
  rewrite TextFacts.ends_with_no_char by exact Ht.
  unfold EnhancedText.rfind.
  change (EnhancedText.quoted "'}") with [EnhancedText.dquote; "}"%char].
  rewrite TextFacts.rfind_from_missing
    by (apply TextFacts.contains_pair_no_char; exact Ht).
  reflexivity.
Qed.

Lemma answer_without_brace_becomes_the_minimal_document_witness :
  EnhancedText.extraction_json_text (PyStr.L "bill.pdf")
    (PyStr.L "I cannot read this invoice.")
  = EnhancedText.minimal_document (PyStr.L "bill.pdf").
Proof.
  apply (answer_without_brace_becomes_the_minimal_document (PyStr.L "bill.pdf")
           (PyStr.L "I cannot read this invoice.")).
  repeat constructor; discriminate.
Defined.

(** * Where the costs are exact and where they are floats *)

Module StoredFacts.
Import PyStr Json Enhanced.

(** The cost of a cleaned item is [float(item.get('cost_usd', 0.0))]. *)
Lemma clean_item_cost (float_of_str : str -> result PyFloat.float)
      (item c : json) :
  clean_item float_of_str item = Ok c ->
  exists v x,
    py_get item (L "cost_usd") (JFloat PyFloat.zero) = Ok v
    /\ py_float float_of_str v = Ok x
    /\ Spec.has_float_cost c = true
    /\ Spec.float_cost c = x.
Proof.
  unfold clean_item, bind.
  destruct (py_get item (L "service_category") (JStr (L "Unknown")));
    [|discriminate].
  destruct (py_get item (L "service_name") (JStr (L "Unknown Service")));
    [|discriminate].
  destruct (py_get item (L "service_type") (JStr (L "Standard")));
    [|discriminate].
  destruct (py_get item (L "region") (JStr (L "unknown"))); [|discriminate].
  destruct (py_get item (L "usage_quantity") (JFloat PyFloat.zero)) as [uq|];
    [|discriminate].
  destruct (py_float float_of_str uq); [|discriminate].
  destruct (py_get item (L "usage_unit") (JStr (L "Units"))); [|discriminate].
  destruct (py_get item (L "rate_description") (JStr (L "Standard Rate")));
    [|discriminate].
  destruct (py_get item (L "cost_usd") (JFloat PyFloat.zero)) as [v|];
    [|discriminate].
  destruct (py_float float_of_str v) as [x|] eqn:Hx; [|discriminate].
  destruct (py_get item (L "line_text") (JStr [])); [|discriminate].
  intros H. injection H as <-. exists v, x.
  split; [reflexivity|]. split; [exact Hx|]. split; reflexivity.
Qed.

End StoredFacts.

(** C2 (amended) — Where costs are exact and where they are floats.  In
    classified extraction every entry stores, unconverted, the exact
    Decimal parsed from its line, and the reported totals, ['total_cost']
    and ['cost_validation']['calculated_total'], are both the float
    conversion of their Decimal sum.  In forensic extraction every item
    stores the float conversion of the Decimal parsed from its line.
    In the first-pass validation that precedes reconciliation every
    ledger item stores [float(item.get('cost_usd', 0.0))] of the item it
    was cleaned from, and the calculated total is the float sum of those
    costs. *)
Theorem stored_costs_per_mode :
  (forall (text : PyStr.str) (a : Analyzer.analysis),
      Analyzer.analyze_aws_invoice text = Ok a ->
      exists usages,
        Permutation
          (List.concat (map snd (Analyzer.services_by_category a))) usages
        /\ Forall (fun u =>
                     Spec.first_parsed Analyzer.cost_patterns (Analyzer.raw_line u)
                     = Some (Analyzer.cost u))
                  usages
        /\ Analyzer.total_cost_f a
           = Dec.to_float (Spec.dec_sum (map Analyzer.cost usages))
        /\ Analyzer.calculated_total (Analyzer.validation a)
           = Dec.to_float (Spec.dec_sum (map Analyzer.cost usages)))
  /\ (forall (text : PyStr.str) (a : Forensic.analysis),
         Forensic.extract_all_costs_forensic text = Ok a ->
         Forall (fun it =>
                   exists c,
                     Spec.forensic_cost text it = Some c
                     /\ Forensic.cost_usd it = Dec.to_float c)
                (Forensic.service_line_items a))
  /\ (forall (float_of_str : PyStr.str -> result PyFloat.float)
             (data data' : Json.dict) (raw : Json.json),
         data <> [] ->
         Json.dict_lookup (PyStr.L "service_line_items") data = Some raw ->
         Enhanced.validate_and_enhance_analysis float_of_str data = Ok data' ->
         exists items,
           Json.py_iter raw = Ok items
           /\ Forall2 (fun item c =>
                         exists v x,
                           Json.py_get item (PyStr.L "cost_usd")
                             (Json.JFloat PyFloat.zero) = Ok v
                           /\ Enhanced.py_float float_of_str v = Ok x
                           /\ Spec.has_float_cost c = true
                           /\ Spec.float_cost c = x)
                      items (Enhanced.ledger_of data')
           /\ Enhanced.validation_entry (PyStr.L "calculated_total") data'
              = Some (Json.JFloat
                        (Spec.float_sum
                           (map Spec.float_cost (Enhanced.ledger_of data'))))).
Proof.
  split; [|split].
  - intros text a Ha.
    destruct (ScanFacts.classified_returns text a Ha) as (st & [Hi Ht] & ->).
    exists (Analyzer.service_usages st). split; [|split; [|split]].
    + apply LedgerFacts.grouped_usages.
    + exact Hi.
    + simpl. rewrite Ht. reflexivity.
    + simpl. rewrite Ht. reflexivity.
  - intros text a Ha.
    destruct (ScanFacts.forensic_returns text) as (st & [Hi _] & Hr).
    rewrite Hr in Ha. inversion Ha; subst a. simpl.
    eapply Forall_impl; [|exact Hi]. simpl. intros it [_ Hc]. exact Hc.
  - intros float_of_str data data' raw Hne Hraw Hv.
    destruct (LedgerFacts.validate_stores_floats _ _ _ _ Hne Hraw Hv)
      as [_ Htotal].
    destruct (ValidateFacts.validate_facts _ _ _ _ Hne Hraw Hv)
      as (items & cleaned & total & inv & Hiter & _ & Hf & Hl & _).
    exists items. split; [exact Hiter|]. split; [|exact Htotal].
    unfold Enhanced.ledger_of. rewrite Hl.
    clear -Hf. induction Hf as [|item c items cs Hc _ IH]; constructor;
      [|exact IH].
    exact (StoredFacts.clean_item_cost _ _ _ Hc).
Qed.

Lemma stored_costs_per_mode_witness :
  (exists a usages,
      Analyzer.analyze_aws_invoice Sample.ec2_line = Ok a
      /\ Permutation
           (List.concat (map snd (Analyzer.services_by_category a))) usages
      /\ Forall (fun u =>
                   Spec.first_parsed Analyzer.cost_patterns (Analyzer.raw_line u)
                   = Some (Analyzer.cost u))
                usages
      /\ Analyzer.total_cost_f a
         = Dec.to_float (Spec.dec_sum (map Analyzer.cost usages))
      /\ Analyzer.calculated_total (Analyzer.validation a)
         = Dec.to_float (Spec.dec_sum (map Analyzer.cost usages)))
  /\ (exists a,
         Forensic.extract_all_costs_forensic Sample.two_dimes = Ok a
         /\ Forall (fun it =>
                      exists c,
                        Spec.forensic_cost Sample.two_dimes it = Some c
                        /\ Forensic.cost_usd it = Dec.to_float c)
                   (Forensic.service_line_items a))
  /\ (exists data' items,
         Enhanced.validate_and_enhance_analysis Sample.no_float_of_str
           Sample.first_analysis = Ok data'
         /\ Json.py_iter (Json.JList (Enhanced.ledger_of Sample.first_analysis))
            = Ok items
         /\ Forall2 (fun item c =>
                       exists v x,
                         Json.py_get item (PyStr.L "cost_usd")
                           (Json.JFloat PyFloat.zero) = Ok v
                         /\ Enhanced.py_float Sample.no_float_of_str v = Ok x
                         /\ Spec.has_float_cost c = true
                         /\ Spec.float_cost c = x)
                    items (Enhanced.ledger_of data')
         /\ Enhanced.validation_entry (PyStr.L "calculated_total") data'
            = Some (Json.JFloat
                      (Spec.float_sum
                         (map Spec.float_cost (Enhanced.ledger_of data'))))).
Proof.
  destruct stored_costs_per_mode as (Ha & Hb & Hc). split; [|split].
  - assert (E : exists a, Analyzer.analyze_aws_invoice Sample.ec2_line = Ok a)
      by (eexists; vm_compute; reflexivity).
    destruct E as [a E]. destruct (Ha _ _ E) as (usages & H1 & H2 & H3 & H4).
    exists a, usages. auto.
  - assert (E : exists a,
               Forensic.extract_all_costs_forensic Sample.two_dimes = Ok a)
      by (eexists; vm_compute; reflexivity).
    destruct E as [a E]. exists a. split; [exact E|]. exact (Hb _ _ E).
  - assert (E : exists data',
               Enhanced.validate_and_enhance_analysis Sample.no_float_of_str
                 Sample.first_analysis = Ok data')
      by (eexists; vm_compute; reflexivity).
    destruct E as [data' E].
    destruct (Hc Sample.no_float_of_str Sample.first_analysis data'
                (Json.JList (Enhanced.ledger_of Sample.first_analysis)))
      as (items & H1 & H2 & H3);
      [discriminate|vm_compute; reflexivity|exact E|].
    exists data', items. auto.
Defined.
